(** * Conversion engine of terraform-plugin-framework: internal/reflect and attr

    A shallow embedding of the reflection/binding helpers
    ([getStructTags], [isValidFieldName], [trueReflectValue]), of the
    capability-hook converters ([NewUnknownable], [FromUnknownable],
    [NewNullable], [FromNullable], [NewValueConverter], [FromValueCreator],
    [NewAttributeValue], [FromAttributeValue]), of the map converters
    ([Map], [FromMap]) and of [attr.ValueToTerraform], followed by the
    properties established about them.

    Go values are modelled the way package reflect shows them: a value is a
    type together with its data.  Calls through interfaces are recorded in a
    trace of events, and a panic of the Go runtime is an outcome of its own,
    distinct from every returned result. *)

From stdpp Require Import base decidable option list strings gmap.
From Stdlib Require Import ZArith Lia Ascii.

Set Warnings "-register-all".

Local Open Scope string_scope.
Local Open Scope list_scope.

(** ** Package reflect: kinds, types and values *)

Inductive Kind :=
  | KInvalid | KBool | KInt | KInt8 | KInt16 | KInt32 | KInt64
  | KUint | KUint8 | KUint16 | KUint32 | KUint64 | KUintptr
  | KFloat32 | KFloat64 | KComplex64 | KComplex128
  | KArray | KChan | KFunc | KInterface | KMap | KPtr | KSlice | KString
  | KStruct | KUnsafePointer.

#[global] Instance Kind_eq_dec : EqDecision Kind.
Proof. solve_decision. Defined.

(** A struct tag in the conventional [key:"value"] format, already split
    into its pairs. *)
Definition StructTag := list (string * string).

(** [reflect.Type].  A defined (named) type keeps its name and its
    underlying type; a struct type lists its fields in declaration order. *)
Inductive GoType :=
  | TBasic (k : Kind)
  | TDefined (name : string) (under : GoType)
  | TPtr (elem : GoType)
  | TSlice (elem : GoType)
  | TMap (key elem : GoType)
  | TStruct (fields : list StructField)
  | TInterface (methods : list string)
with StructField :=
  | mkStructField (Name PkgPath : string) (Tag : StructTag) (Type_ : GoType).

Definition field_Name (f : StructField) : string :=
  match f with mkStructField n _ _ _ => n end.
Definition field_PkgPath (f : StructField) : string :=
  match f with mkStructField _ p _ _ => p end.
Definition field_Tag (f : StructField) : StructTag :=
  match f with mkStructField _ _ t _ => t end.
Definition field_Type (f : StructField) : GoType :=
  match f with mkStructField _ _ _ t => t end.

Fixpoint GoType_eq_dec (a b : GoType) {struct a} : {a = b} + {a <> b}
with StructField_eq_dec (f g : StructField) {struct f} : {f = g} + {f <> g}.
Proof.
  - decide equality.
    + apply Kind_eq_dec.
    + apply String.string_dec.
    + apply (List.list_eq_dec StructField_eq_dec).
    + apply (List.list_eq_dec String.string_dec).
  - decide equality.
    + apply (List.list_eq_dec (fun x y : string * string => decide (x = y))).
    + apply String.string_dec.
    + apply String.string_dec.
Defined.

#[global] Instance GoType_eqdec : EqDecision GoType := GoType_eq_dec.

(** [StructTag.Get]: the value of the first pair with that key, the empty
    string when there is none. *)
Fixpoint Tag_Get (tag : StructTag) (key : string) : string :=
  match tag with
  | [] => ""
  | (k, v) :: rest => if String.eqb k key then v else Tag_Get rest key
  end.

Fixpoint underlying (t : GoType) : GoType :=
  match t with
  | TDefined _ u => underlying u
  | _ => t
  end.

(** [Type.Kind]. *)
Definition KindOf (t : GoType) : Kind :=
  match underlying t with
  | TBasic k => k
  | TDefined _ _ => KInvalid
  | TPtr _ => KPtr
  | TSlice _ => KSlice
  | TMap _ _ => KMap
  | TStruct _ => KStruct
  | TInterface _ => KInterface
  end.

(** [reflect.Value]: every value carries its type.  [VZero t] is the zero
    value of [t] ([reflect.Zero]): nil for a pointer, interface, map or
    slice type. *)
Inductive RValue :=
  | VZero (t : GoType)
  | VBool (t : GoType) (b : bool)
  | VInt (t : GoType) (z : Z)
  | VString (t : GoType) (s : string)
  | VPtr (t : GoType) (pointee : RValue)
  | VIface (t : GoType) (dynamic : RValue)
  | VMap (t : GoType) (entries : list (RValue * RValue))
  | VSlice (t : GoType) (elems : list RValue)
  | VStruct (t : GoType) (fields : list RValue).

(** [Value.Type]. *)
Definition rtype (v : RValue) : GoType :=
  match v with
  | VZero t | VBool t _ | VInt t _ | VString t _ | VPtr t _ | VIface t _
  | VMap t _ | VSlice t _ | VStruct t _ => t
  end.

(** [Value.Kind]. *)
Definition rkind (v : RValue) : Kind := KindOf (rtype v).

(** ** Outcomes: a returned result or a panic *)

Inductive Outcome (A : Type) :=
  | Ret (a : A)
  | Panic (msg : string).
Arguments Ret {A} a.
Arguments Panic {A} msg.

#[global] Instance Outcome_ret : MRet Outcome := fun A a => Ret a.
#[global] Instance Outcome_bind : MBind Outcome := fun A B f m =>
  match m with
  | Ret a => f a
  | Panic msg => Panic msg
  end.

(** trueReflectValue returns the reflect.Value for `in` after derefencing
    all the pointers and unwrapping all the interfaces.  [val] is
    [reflect.ValueOf(in)], the first thing the function computes.  The loop
    has no validity check: [Elem] of a nil pointer or interface is the zero
    Value, on which [Type] panics. *)
Fixpoint trueReflectValue (val : RValue) : Outcome RValue :=
  match rkind val with
  | KInterface | KPtr =>
      match val with
      | VPtr _ inner | VIface _ inner => trueReflectValue inner
      | _ => Panic "reflect: call of reflect.Value.Type on zero Value"
      end
  | _ => Ret val
  end.

(** [Type.Elem] of a map, pointer or slice type (nothing for other types). *)
Definition Type_Elem (t : GoType) : option GoType :=
  match underlying t with
  | TMap _ e => Some e
  | TPtr e | TSlice e => Some e
  | _ => None
  end.

(** [Value.IsNil]; it panics unless the kind can hold nil. *)
Definition IsNil (v : RValue) : Outcome bool :=
  match rkind v with
  | KChan | KFunc | KInterface | KMap | KPtr | KSlice | KUnsafePointer =>
      Ret (match v with VZero _ => true | _ => false end)
  | _ => Panic "reflect: call of reflect.Value.IsNil on non-nillable Value"
  end.

(** [Value.MapKeys] and [Value.MapIndex]; the entries of a [VMap] are
    listed in the order in which the runtime yields them. *)
Definition MapEntries (v : RValue) : Outcome (list (RValue * RValue)) :=
  match rkind v with
  | KMap => Ret (match v with VMap _ es => es | _ => [] end)
  | _ => Panic "reflect: call of reflect.Value.MapKeys on non-map Value"
  end.

(** [Value.String] of a key of kind String. *)
Definition Value_String (v : RValue) : string :=
  match v with
  | VString _ s => s
  | _ => ""
  end.

(** The type [reflect.Value] itself: a struct of package reflect, none of
    whose fields is exported. *)
Definition reflect_Value : GoType :=
  TDefined "reflect.Value"
    (TStruct [mkStructField "typ" "reflect" [] (TPtr (TDefined "reflect.rtype" (TStruct [])));
              mkStructField "ptr" "reflect" [] (TBasic KUnsafePointer);
              mkStructField "flag" "reflect" [] (TDefined "reflect.flag" (TBasic KUintptr))]).

(** [reflect.ValueOf(in)] for an [in] that holds a reflect.Value [v].  A
    reflect.Value handed over where an [interface{}] is expected is boxed
    as the struct it is, and ValueOf describes that struct: its type is
    [reflect.Value] and its kind Struct, whatever [v] describes.  [v]
    stands for the contents of the struct. *)
Definition ValueOf_reflectValue (v : RValue) : RValue :=
  VStruct reflect_Value [v].

(** ** Package tftypes: paths, types and raw transport values *)

Inductive Step :=
  | AttributeName (name : string)
  | ElementKeyString (key : string)
  | ElementKeyInt (idx : Z).

#[global] Instance Step_eq_dec : EqDecision Step.
Proof. solve_decision. Defined.

(** [*tftypes.AttributePath]: the steps from the root; extending a path
    leaves the original as it was. *)
Definition Path := list Step.

Definition WithAttributeName (p : Path) (name : string) : Path := p ++ [AttributeName name].
Definition WithElementKeyString (p : Path) (key : string) : Path := p ++ [ElementKeyString key].

(** An error is known by its message ([err.Error]). *)
Definition GoError := string.

(** [tftypes.AttributePathError], what [path.NewError] and [path.NewErrorf]
    build. *)
Record AttributePathError := { err_Path : Path; err_msg : string }.

Inductive TfType :=
  | TfString | TfNumber | TfBool | TfDynamicPseudoType
  | TfList (elem : TfType)
  | TfSet (elem : TfType)
  | TfMap (elem : TfType)
  | TfTuple (elems : list TfType)
  | TfObject (attrs : list (string * TfType)).

(** The payload of a raw value, which is also what [ToTerraformValue] hands
    back: nil (null), the unknown marker, or concrete data.  A number is a
    [big.Float], mantissa and binary exponent. *)
Inductive Raw :=
  | RawNil
  | RawUnknown
  | RawString (s : string)
  | RawNumber (mant expo : Z)
  | RawBool (b : bool)
  | RawList (elems : list TfValue)
  | RawMap (entries : list (string * TfValue))
with TfValue :=
  | MkTfValue (typ : option TfType) (value : Raw).

Definition tf_typ (v : TfValue) : option TfType := match v with MkTfValue t _ => t end.
Definition tf_value (v : TfValue) : Raw := match v with MkTfValue _ r => r end.

(** [tftypes.Value{}]. *)
Definition zeroTfValue : TfValue := MkTfValue None RawNil.

(** [Value.IsKnown] and [Value.IsNull]. *)
Definition IsKnown (v : TfValue) : bool :=
  match tf_value v with RawUnknown => false | _ => true end.
Definition IsNull (v : TfValue) : bool :=
  match tf_value v with RawNil => true | _ => false end.

(** [t.Is(tftypes.Map{})]. *)
Definition Is_Map (t : TfType) : bool :=
  match t with TfMap _ => true | _ => false end.

(** [val.As(&values)] for [values] a [map[string]tftypes.Value]: an unknown
    value cannot be unmarshalled, a null one gives the empty map. *)
Definition As_map (v : TfValue) : list (string * TfValue) + GoError :=
  match tf_value v with
  | RawUnknown => inr "unmarshaling unknown values is not supported"
  | RawNil => inl []
  | RawMap es => inl es
  | _ => inr "can't unmarshal into *map[string]tftypes.Value, expected map[string]tftypes.Value"
  end.

(** [tfElems[key] = v] on a [map[string]tftypes.Value]. *)
Definition tfmap_set (m : list (string * TfValue)) (key : string) (v : TfValue) :
    list (string * TfValue) :=
  List.filter (fun e => negb (String.eqb (fst e) key)) m ++ [(key, v)].

(** ** Packages diag and attr

    A diagnostic of package reflect carries the schema type it complains
    about, a type's validation hook returns diagnostics, and a value knows
    its type: the three are defined together. *)

Inductive Severity := SeverityError | SeverityWarning.

#[global] Instance Severity_eq_dec : EqDecision Severity.
Proof. solve_decision. Defined.

(** Modelled from the spec: package diag is not among the sources.  A
    Diagnostic is {severity, summary, detail, optional Path}; the four
    generic constructors are the ones package reflect builds through
    [diag.NewAttributeErrorDiagnostic] and [diags.AddAttributeError].
    [DiagIntoIncompatibleType] and [DiagNewAttributeValueIntoWrongType] are
    the two diagnostics declared in internal/reflect/diags.go.

    [attr.Type]: [Validate] is present when the type implements
    [attr.TypeWithValidate], [ElementType] when it implements
    [attr.TypeWithElementType]; [type_goType] is its dynamic Go type.
    [attr.Value]: [value_repr] is the Go value behind the interface. *)
Inductive Diagnostic :=
  | AttributeErrorDiagnostic (path : Path) (summary detail : string)
  | AttributeWarningDiagnostic (path : Path) (summary detail : string)
  | ErrorDiagnostic (summary detail : string)
  | WarningDiagnostic (summary detail : string)
  | DiagIntoIncompatibleType (Val : TfValue) (TargetType : GoType)
      (AttrPath : Path) (Err : GoError)
  | DiagNewAttributeValueIntoWrongType (ValType : option GoType)
      (TargetType : GoType) (SchemaType : AttrType) (AttrPath : Path)
with AttrType :=
  | MkAttrType (type_goType : GoType)
      (TerraformType : TfType)
      (ValueFromTerraform : TfValue -> option AttrValue * option GoError)
      (Validate : option (TfValue -> Path -> list Diagnostic))
      (ElementType : option AttrType)
with AttrValue :=
  | MkAttrValue (value_repr : RValue)
      (Type_of : AttrType)
      (ToTerraformValue : Raw * option GoError).

Definition type_goType (t : AttrType) : GoType :=
  match t with MkAttrType g _ _ _ _ => g end.
Definition TerraformType (t : AttrType) : TfType :=
  match t with MkAttrType _ tf _ _ _ => tf end.
Definition ValueFromTerraform (t : AttrType) : TfValue -> option AttrValue * option GoError :=
  match t with MkAttrType _ _ f _ _ => f end.
Definition Validate (t : AttrType) : option (TfValue -> Path -> list Diagnostic) :=
  match t with MkAttrType _ _ _ v _ => v end.
Definition ElementType (t : AttrType) : option AttrType :=
  match t with MkAttrType _ _ _ _ e => e end.

Definition value_repr (v : AttrValue) : RValue :=
  match v with MkAttrValue r _ _ => r end.
Definition Type_of (v : AttrValue) : AttrType :=
  match v with MkAttrValue _ t _ => t end.
Definition ToTerraformValue (v : AttrValue) : Raw * option GoError :=
  match v with MkAttrValue _ _ r => r end.

Definition Diagnostics := list Diagnostic.

Definition diag_Severity (d : Diagnostic) : Severity :=
  match d with
  | AttributeErrorDiagnostic _ _ _ | ErrorDiagnostic _ _ => SeverityError
  | AttributeWarningDiagnostic _ _ _ | WarningDiagnostic _ _ => SeverityWarning
  | DiagIntoIncompatibleType _ _ _ _ => SeverityError
  | DiagNewAttributeValueIntoWrongType _ _ _ _ => SeverityError
  end.

Definition diag_Summary (d : Diagnostic) : string :=
  match d with
  | AttributeErrorDiagnostic _ s _ | AttributeWarningDiagnostic _ s _
  | ErrorDiagnostic s _ | WarningDiagnostic s _ => s
  | DiagIntoIncompatibleType _ _ _ _ => "Value Conversion Error"
  | DiagNewAttributeValueIntoWrongType _ _ _ _ => "Value Conversion Error"
  end.

(** The Path of a diagnostic, when it has one. *)
Definition diag_Path (d : Diagnostic) : option Path :=
  match d with
  | AttributeErrorDiagnostic p _ _ | AttributeWarningDiagnostic p _ _ => Some p
  | ErrorDiagnostic _ _ | WarningDiagnostic _ _ => None
  | DiagIntoIncompatibleType _ _ p _ => Some p
  | DiagNewAttributeValueIntoWrongType _ _ _ p => Some p
  end.

Definition is_error (d : Diagnostic) : bool :=
  bool_decide (diag_Severity d = SeverityError).

(** Modelled from the spec: [Diagnostics.Append] adds to the end and keeps
    the order; [HasError] holds iff some member has error severity. *)
Definition Append (diags more : Diagnostics) : Diagnostics := diags ++ more.

Definition HasError (diags : Diagnostics) : bool := existsb is_error diags.

Definition AddAttributeError (diags : Diagnostics) (path : Path) (summary detail : string) :
    Diagnostics :=
  Append diags [AttributeErrorDiagnostic path summary detail].

(** [reflect.TypeOf] of an [attr.Value] interface, nil for the nil
    interface. *)
Definition TypeOf (res : option AttrValue) : option GoType :=
  rtype ∘ value_repr <$> res.

(** ** Events and the conversion monad *)

(** What a hook hands back through [results[0].Interface()]: nil, an
    error, or a value of another type (rendered by [%T] and [%v]). *)
Inductive HookResult :=
  | ResNil
  | ResError (e : GoError)
  | ResOther (typeText valueText : string).

(** One event per call that leaves the converter: a method of an
    [attr.Type] or [attr.Value], a recursive conversion, or a method of a
    capability hook. *)
Inductive Event :=
  | EvValidate (typ : AttrType) (val : TfValue) (path : Path)
  | EvValueFromTerraform (typ : AttrType) (val : TfValue)
  | EvToTerraformValue (val : AttrValue)
  | EvBuildValue (typ : AttrType) (val : TfValue) (target : RValue) (path : Path)
  | EvFromValue (typ : AttrType) (val : RValue) (path : Path)
  | EvSetUnknown (receiver : RValue) (unknown : bool)
  | EvSetNull (receiver : RValue) (null : bool)
  | EvSetValue (receiver : RValue) (payload : Raw)
  | EvFromTerraform5Value (receiver : RValue) (val : TfValue)
  | EvGetUnknown
  | EvGetNull
  | EvGetValue
  | EvToTerraform5Value.

Definition Trace := list Event.

(** A computation yields the events it caused and its outcome. *)
Definition M (A : Type) : Type := Trace * Outcome A.

Definition bind {A B} (m : M A) (f : A -> M B) : M B :=
  match m with
  | (tr, Ret a) => let '(tr', o) := f a in (tr ++ tr', o)
  | (tr, Panic msg) => (tr, Panic msg)
  end.

Notation "'do' x <- m ; k" := (bind m (fun x => k))
  (at level 10, x name, m at level 100, k at level 200, only parsing).
Notation "'do' ' p <- m ; k" := (bind m (fun p => k))
  (at level 10, p pattern, m at level 100, k at level 200, only parsing).
Notation "'run' m ; k" := (bind m (fun _ => k))
  (at level 10, m at level 100, k at level 200, only parsing).

Definition ret {A} (a : A) : M A := ([], Ret a).
Definition emit (e : Event) : M unit := ([e], Ret tt).
Definition lift {A} (o : Outcome A) : M A := ([], o).

Definition trace_of {A} (m : M A) : Trace := fst m.
Definition outcome_of {A} (m : M A) : Outcome A := snd m.

Definition is_ValueFromTerraform (e : Event) : bool :=
  match e with EvValueFromTerraform _ _ => true | _ => false end.
Definition is_Validate (e : Event) : bool :=
  match e with EvValidate _ _ _ => true | _ => false end.
Definition is_SetValue (e : Event) : bool :=
  match e with EvSetValue _ _ => true | _ => false end.
Definition is_GetValue (e : Event) : bool :=
  match e with EvGetValue => true | _ => false end.
Definition is_FromValue (e : Event) : bool :=
  match e with EvFromValue _ _ _ => true | _ => false end.

(** ** What the converters rely on

    The Go runtime ([typeString] is [Type.String], also what [%T] and [%s]
    print for a type; the three method tables answer
    [receiver.MethodByName] by the receiver's type, a method taking the
    receiver and its argument to the receiver after the call and
    [results[0]]; [SetMapIndex] is [reflect.Value.SetMapIndex], taking the
    map, the key and the element to the map after the call, or to its
    panic), package tftypes ([tfTypeString] is [Type.String];
    [valueFrom] is the check [newValue] makes on a concrete payload), and
    the functions of package reflect that the converters call but that are
    defined in other files: [pointerSafeZeroValue], [BuildValue],
    [FromValue], and the [Options] they pass along. *)
Class Env := {
  Options : Type;
  typeString : GoType -> string;
  tfTypeString : TfType -> string;
  method_SetUnknown : GoType -> option (RValue -> bool -> RValue * HookResult);
  method_SetNull : GoType -> option (RValue -> bool -> RValue * HookResult);
  method_FromTerraform5Value :
    GoType -> option (RValue -> TfValue -> RValue * HookResult);
  SetMapIndex : RValue -> RValue -> RValue -> Outcome RValue;
  valueFrom : TfType -> Raw -> option GoError;
  pointerSafeZeroValue : RValue -> RValue;
  BuildValue : AttrType -> TfValue -> RValue -> Options -> Path -> RValue * Diagnostics;
  FromValue : AttrType -> RValue -> Path -> option AttrValue * Diagnostics;
}.

(** The capability hooks as the From converters receive them. *)
Record Unknownable := { GetUnknown : bool; Unknownable_GetValue : Raw }.
Record Nullable := { GetNull : bool; Nullable_GetValue : Raw }.
Record ValueCreator := { ToTerraform5Value : Raw * option GoError }.

Definition nl : string := String (ascii_of_nat 10) EmptyString.
Definition dquote : string := String (ascii_of_nat 34) EmptyString.

(** The detail text shared by the conversion diagnostics. *)
Definition unexpected (what err : string) : string :=
  "An unexpected error was encountered trying to " +:+ what +:+
  ". This is always an error in the provider. Please report the following to the provider developer:"
  +:+ nl +:+ nl +:+ err.

(** *** internal/reflect/diags.go *)

Definition toTerraform5ValueErrorDiag (err : GoError) (path : Path) : Diagnostic :=
  AttributeErrorDiagnostic path "Value Conversion Error"
    (unexpected "convert into a Terraform value" err).

Definition toTerraformValueErrorDiag (err : GoError) (path : Path) : Diagnostic :=
  AttributeErrorDiagnostic path "Value Conversion Error"
    (unexpected "convert the Attribute value into a Terraform value" err).

Definition validateValueErrorDiag (err : GoError) (path : Path) : Diagnostic :=
  AttributeErrorDiagnostic path "Value Conversion Error"
    (unexpected "validate the Terraform value type" err).

Definition valueFromTerraformErrorDiag (err : GoError) (path : Path) : Diagnostic :=
  AttributeErrorDiagnostic path "Value Conversion Error"
    (unexpected "convert the Terraform value" err).

Definition optTypeString `{Env} (t : option GoType) : string :=
  match t with
  | Some t => typeString t
  | None => "%!s(<nil>)"
  end.

Definition diag_Detail `{Env} (d : Diagnostic) : string :=
  match d with
  | AttributeErrorDiagnostic _ _ x | AttributeWarningDiagnostic _ _ x
  | ErrorDiagnostic _ x | WarningDiagnostic _ x => x
  | DiagIntoIncompatibleType _ target _ err =>
      unexpected ("convert tftypes.Value into " +:+ typeString target) err
  | DiagNewAttributeValueIntoWrongType valType target schema _ =>
      unexpected "convert into a Terraform value"
        ("Cannot use attr.Value " +:+ typeString target +:+ ", only " +:+
         optTypeString valType +:+ " is supported because " +:+
         typeString (type_goType schema) +:+ " is the type in the schema")
  end.

(** The Equal methods of the two diagnostics.  [valEqual] is
    [tftypes.Value.Equal] and [typeEqual] the Equal method of the schema
    type; types are compared by identity, paths step by step, errors by
    their message.  A diagnostic of another kind is never equal. *)
Definition DiagIntoIncompatibleType_Equal (valEqual : TfValue -> TfValue -> bool)
    (Val : TfValue) (TargetType : GoType) (AttrPath : Path) (Err : GoError)
    (o : Diagnostic) : bool :=
  match o with
  | DiagIntoIncompatibleType oVal oTargetType oAttrPath oErr =>
      if negb (valEqual Val oVal) then false
      else if bool_decide (TargetType <> oTargetType) then false
      else if negb (bool_decide (AttrPath = oAttrPath)) then false
      else if negb (String.eqb Err oErr) then false
      else true
  | _ => false
  end.

Definition DiagNewAttributeValueIntoWrongType_Equal (typeEqual : AttrType -> AttrType -> bool)
    (ValType : option GoType) (TargetType : GoType) (SchemaType : AttrType)
    (AttrPath : Path) (o : Diagnostic) : bool :=
  match o with
  | DiagNewAttributeValueIntoWrongType oValType oTargetType oSchemaType oAttrPath =>
      if bool_decide (ValType <> oValType) then false
      else if bool_decide (TargetType <> oTargetType) then false
      else if negb (typeEqual SchemaType oSchemaType) then false
      else if negb (bool_decide (AttrPath = oAttrPath)) then false
      else true
  | _ => false
  end.

(** *** Package tftypes: building raw values *)

(** [tftypes.ValidateValue]: nil and the unknown marker fit every type. *)
Definition ValidateValue `{Env} (t : TfType) (raw : Raw) : option GoError :=
  match raw with
  | RawNil | RawUnknown => None
  | _ => valueFrom t raw
  end.

(** [tftypes.NewValue] panics on exactly the payloads that
    [tftypes.ValidateValue] rejects. *)
Definition NewValue `{Env} (t : TfType) (raw : Raw) : Outcome TfValue :=
  match ValidateValue t raw with
  | None => Ret (MkTfValue (Some t) raw)
  | Some err => Panic err
  end.

(** *** Calls through the interfaces *)

Definition callValueFromTerraform (typ : AttrType) (val : TfValue) :
    M (option AttrValue * option GoError) :=
  run emit (EvValueFromTerraform typ val);
  ret (ValueFromTerraform typ val).

Definition callToTerraformValue (val : AttrValue) : M (Raw * option GoError) :=
  run emit (EvToTerraformValue val);
  ret (ToTerraformValue val).

(** The block

      if typeWithValidate, ok := typ.(attr.TypeWithValidate); ok {
          diags.Append(typeWithValidate.Validate(ctx, val, path)...)
          if diags.HasError() { return ... }
      }

    yields the diagnostics after it and whether it returns. *)
Definition validateHook (typ : AttrType) (val : TfValue) (path : Path)
    (diags : Diagnostics) : M (Diagnostics * bool) :=
  match Validate typ with
  | Some validate =>
      run emit (EvValidate typ val path);
      let diags := Append diags (validate val path) in
      ret (diags, HasError diags)
  | None => ret (diags, false)
  end.

(** The diagnostics and the events of the validation block. *)
Definition validateDiags (typ : AttrType) (val : TfValue) (path : Path) : Diagnostics :=
  match Validate typ with
  | Some validate => validate val path
  | None => []
  end.

Definition validateTrace (typ : AttrType) (val : TfValue) (path : Path) : Trace :=
  match Validate typ with
  | Some _ => [EvValidate typ val path]
  | None => []
  end.

(** The error a hook reported, as the converters word it. *)
Definition hookError (unknownText : string -> string -> string) (r : HookResult) : GoError :=
  let underlyingErr :=
    match r with
    | ResError e => e
    | ResOther ty v => unknownText ty v
    | ResNil => ""
    end in
  "reflection error: " +:+ underlyingErr.

(** ** Helpers (first file of src/unnamed/part_001) *)

Definition is_lower (c : ascii) : bool :=
  (97 <=? nat_of_ascii c)%nat && (nat_of_ascii c <=? 122)%nat.
Definition is_digit (c : ascii) : bool :=
  (48 <=? nat_of_ascii c)%nat && (nat_of_ascii c <=? 57)%nat.
Definition is_upper (c : ascii) : bool :=
  (65 <=? nat_of_ascii c)%nat && (nat_of_ascii c <=? 90)%nat.
Definition is_name_char (c : ascii) : bool :=
  is_lower c || is_digit c || bool_decide (c = "_"%char).

Fixpoint all_chars (p : ascii -> bool) (s : string) : bool :=
  match s with
  | EmptyString => true
  | String c rest => p c && all_chars p rest
  end.

Fixpoint some_char (p : ascii -> bool) (s : string) : bool :=
  match s with
  | EmptyString => false
  | String c rest => p c || some_char p rest
  end.

(** isValidFieldName returns true if `name` can be used as a field name:
    a match of the whole string against [^[a-z][a-z0-9_]*$]. *)
Definition isValidFieldName (name : string) : bool :=
  match name with
  | EmptyString => false
  | String c rest => is_lower c && all_chars is_name_char rest
  end.

(** [typ.NumField] and [typ.Field(i)] range over these. *)
Definition Fields (typ : GoType) : list StructField :=
  match underlying typ with
  | TStruct fs => fs
  | _ => []
  end.

Definition tfsdk (field : StructField) : string := Tag_Get (field_Tag field) "tfsdk".

(** The loop of getStructTags from field [i] on; [all] are the fields of
    the struct, [fields] those from [i] on. *)
Fixpoint getStructTags_from (all : list StructField) (path : Path)
    (fields : list StructField) (i : nat) (tags : gmap string nat) :
    gmap string nat + AttributePathError :=
  match fields with
  | [] => inl tags
  | field :: rest =>
      if negb (String.eqb (field_PkgPath field) "") then
        getStructTags_from all path rest (S i) tags
      else
        let tag := tfsdk field in
        if String.eqb tag "-" then
          getStructTags_from all path rest (S i) tags
        else if String.eqb tag "" then
          inr {| err_Path := path;
                 err_msg := "need a struct tag for " +:+ dquote +:+ "tfsdk" +:+ dquote
                            +:+ " on " +:+ field_Name field |}
        else
          let fieldPath := WithAttributeName path tag in
          if negb (isValidFieldName tag) then
            inr {| err_Path := fieldPath;
                   err_msg := "invalid field name, must only use lowercase letters, underscores, and numbers, and must start with a letter" |}
          else
            match tags !! tag with
            | Some other =>
                inr {| err_Path := fieldPath;
                       err_msg := "can't use field name for both " +:+
                                  default "" (field_Name <$> all !! other) +:+
                                  " and " +:+ field_Name field |}
            | None => getStructTags_from all path rest (S i) (<[tag := i]> tags)
            end
  end.

(** getStructTags returns a map of Terraform field names to their position
    in the tags of the struct `in`. *)
Definition getStructTags `{Env} (in_ : RValue) (path : Path) :
    Outcome (gmap string nat + AttributePathError) :=
  v ← trueReflectValue in_;
  let typ := rtype v in
  if bool_decide (KindOf typ ≠ KStruct) then
    Ret (inr {| err_Path := path;
                err_msg := "can't get struct tags of " +:+ typeString (rtype in_)
                           +:+ ", is not a struct" |})
  else
    Ret (getStructTags_from (Fields typ) path (Fields typ) 0 ∅).

(** [strings.Join]. *)
Fixpoint Join (elems : list string) (sep : string) : string :=
  match elems with
  | [] => ""
  | [x] => x
  | x :: rest => x +:+ sep +:+ Join rest sep
  end.

(** commaSeparatedString returns an English joining of the strings in `in`,
    using "and" and commas as appropriate.  With three strings or more it
    writes into the last element of the slice it was given: the result is
    paired with the contents of that slice after the call. *)
Definition commaSeparatedString (in_ : list string) : string * list string :=
  match length in_ with
  | 0 => ("", in_)
  | 1 => (default "" (in_ !! 0), in_)
  | 2 => (Join in_ " and ", in_)
  | S last =>
      let in_ := <[last := "and " +:+ default "" (in_ !! last)]> in_ in
      (Join in_ ", ", in_)
  end.

(** A field takes part in the binding when it is exported and not tagged
    with the marker "-". *)
Definition bindable (field : StructField) : bool :=
  String.eqb (field_PkgPath field) "" && negb (String.eqb (tfsdk field) "-").

(** [tags] sends exactly the tags of the bindable fields of [fields] to
    the index of the field that declares them. *)
Definition tags_of (fields : list StructField) (tags : gmap string nat) : Prop :=
  forall (tag : string) (i : nat),
    tags !! tag = Some i <->
    exists f, fields !! i = Some f /\ bindable f = true /\ tfsdk f = tag.

(** ** attr/value.go *)

Definition ValueToTerraform `{Env} (val : AttrValue) : M (TfValue * option GoError) :=
  do '(raw, err) <- callToTerraformValue val;
  match err with
  | Some err => ret (zeroTfValue, Some err)
  | None =>
      match ValidateValue (TerraformType (Type_of val)) raw with
      | Some err => ret (zeroTfValue, Some err)
      | None =>
          do v <- lift (NewValue (TerraformType (Type_of val)) raw);
          ret (v, None)
      end
  end.

(** ** Capability-hook converters (second file of src/unnamed/part_001) *)

(** NewUnknownable creates a zero value of `target` (or the concrete type
    it's referencing, if it's a pointer) and calls its SetUnknown method. *)
Definition NewUnknownable `{Env} (typ : AttrType) (val : TfValue) (target : RValue)
    (opts : Options) (path : Path) : M (RValue * Diagnostics) :=
  let diags : Diagnostics := [] in
  let receiver := pointerSafeZeroValue target in
  match method_SetUnknown (rtype receiver) with
  | None =>
      let err := "cannot find SetUnknown method on type " +:+ typeString (rtype receiver) in
      ret (target, AddAttributeError diags path "Value Conversion Error"
                      (unexpected "convert value" err))
  | Some method =>
      run emit (EvSetUnknown receiver (negb (IsKnown val)));
      let '(receiver, err) := method receiver (negb (IsKnown val)) in
      match err with
      | ResNil => ret (receiver, diags)
      | _ =>
          let underlyingErr :=
            hookError (fun ty v => "unknown error type " +:+ ty +:+ ": " +:+ v) err in
          ret (target, AddAttributeError diags path "Value Conversion Error"
                          (unexpected "convert into a value" underlyingErr))
      end
  end.

(** FromUnknownable creates an attr.Value from the data in an Unknownable. *)
Definition FromUnknownable `{Env} (typ : AttrType) (val : Unknownable) (path : Path) :
    M (option AttrValue * Diagnostics) :=
  let diags : Diagnostics := [] in
  run emit EvGetUnknown;
  if GetUnknown val then
    do tfVal <- lift (NewValue (TerraformType typ) RawUnknown);
    do '(diags, stop) <- validateHook typ tfVal path diags;
    if stop then ret (None, diags) else
    do '(res, err) <- callValueFromTerraform typ tfVal;
    match err with
    | Some err => ret (None, diags ++ [valueFromTerraformErrorDiag err path])
    | None => ret (res, [])
    end
  else
    run emit EvGetValue;
    match ValidateValue (TerraformType typ) (Unknownable_GetValue val) with
    | Some err => ret (None, diags ++ [validateValueErrorDiag err path])
    | None =>
        run emit EvGetValue;
        do tfVal <- lift (NewValue (TerraformType typ) (Unknownable_GetValue val));
        do '(diags, stop) <- validateHook typ tfVal path diags;
        if stop then ret (None, diags) else
        do '(res, err) <- callValueFromTerraform typ tfVal;
        match err with
        | Some err => ret (None, diags ++ [valueFromTerraformErrorDiag err path])
        | None => ret (res, [])
        end
    end.

(** NewNullable creates a zero value of `target` (or the concrete type it's
    referencing, if it's a pointer) and calls its SetNull method. *)
Definition NewNullable `{Env} (typ : AttrType) (val : TfValue) (target : RValue)
    (opts : Options) (path : Path) : M (RValue * Diagnostics) :=
  let diags : Diagnostics := [] in
  let receiver := pointerSafeZeroValue target in
  match method_SetNull (rtype receiver) with
  | None =>
      let err := "cannot find SetNull method on type " +:+ typeString (rtype receiver) in
      ret (target, AddAttributeError diags path "Value Conversion Error"
                      (unexpected "convert value" err))
  | Some method =>
      run emit (EvSetNull receiver (IsNull val));
      let '(receiver, err) := method receiver (IsNull val) in
      match err with
      | ResNil => ret (receiver, diags)
      | _ =>
          let underlyingErr := hookError (fun ty _ => "unknown error type: " +:+ ty) err in
          ret (target, AddAttributeError diags path "Value Conversion Error"
                          (unexpected "convert into a value" underlyingErr))
      end
  end.

(** FromNullable creates an attr.Value from the data in a Nullable. *)
Definition FromNullable `{Env} (typ : AttrType) (val : Nullable) (path : Path) :
    M (option AttrValue * Diagnostics) :=
  let diags : Diagnostics := [] in
  run emit EvGetNull;
  if GetNull val then
    do tfVal <- lift (NewValue (TerraformType typ) RawNil);
    do '(diags, stop) <- validateHook typ tfVal path diags;
    if stop then ret (None, diags) else
    do '(res, err) <- callValueFromTerraform typ tfVal;
    match err with
    | Some err => ret (None, diags ++ [valueFromTerraformErrorDiag err path])
    | None => ret (res, [])
    end
  else
    run emit EvGetValue;
    match ValidateValue (TerraformType typ) (Nullable_GetValue val) with
    | Some err => ret (None, diags ++ [validateValueErrorDiag err path])
    | None =>
        run emit EvGetValue;
        do tfVal <- lift (NewValue (TerraformType typ) (Nullable_GetValue val));
        do '(diags, stop) <- validateHook typ tfVal path diags;
        if stop then ret (None, diags) else
        do '(res, err) <- callValueFromTerraform typ tfVal;
        match err with
        | Some err => ret (None, diags ++ [valueFromTerraformErrorDiag err path])
        | None => ret (res, diags)
        end
    end.

(** NewValueConverter creates a zero value of `target` (or the concrete
    type it's referencing, if it's a pointer) and calls its
    FromTerraform5Value method. *)
Definition NewValueConverter `{Env} (typ : AttrType) (val : TfValue) (target : RValue)
    (opts : Options) (path : Path) : M (RValue * Diagnostics) :=
  let diags : Diagnostics := [] in
  let receiver := pointerSafeZeroValue target in
  match method_FromTerraform5Value (rtype receiver) with
  | None =>
      let err := "could not find FromTerraform5Type method on type "
                 +:+ typeString (rtype receiver) in
      ret (target, AddAttributeError diags path "Value Conversion Error"
                      (unexpected "convert into a value" err))
  | Some method =>
      run emit (EvFromTerraform5Value receiver val);
      let '(receiver, err) := method receiver val in
      match err with
      | ResNil => ret (receiver, diags)
      | _ =>
          let underlyingErr := hookError (fun ty _ => "unknown error type: " +:+ ty) err in
          ret (target, AddAttributeError diags path "Value Conversion Error"
                          (unexpected "convert into a value" underlyingErr))
      end
  end.

(** FromValueCreator creates an attr.Value from the data in a
    tftypes.ValueCreator, calling its ToTerraform5Value method and
    converting the result to an attr.Value using `typ`. *)
Definition FromValueCreator `{Env} (typ : AttrType) (val : ValueCreator) (path : Path) :
    M (option AttrValue * Diagnostics) :=
  let diags : Diagnostics := [] in
  run emit EvToTerraform5Value;
  let '(raw, err) := ToTerraform5Value val in
  match err with
  | Some err => ret (None, diags ++ [toTerraform5ValueErrorDiag err path])
  | None =>
      match ValidateValue (TerraformType typ) raw with
      | Some err => ret (None, diags ++ [validateValueErrorDiag err path])
      | None =>
          do tfVal <- lift (NewValue (TerraformType typ) raw);
          do '(diags, stop) <- validateHook typ tfVal path diags;
          if stop then ret (None, diags) else
          do '(res, err) <- callValueFromTerraform typ tfVal;
          match err with
          | Some err => ret (None, diags ++ [valueFromTerraformErrorDiag err path])
          | None => ret (res, diags)
          end
      end
  end.

(** [reflect.ValueOf] of an [attr.Value] interface; the zero Value for the
    nil interface. *)
Definition ValueOf (res : option AttrValue) : RValue :=
  match res with
  | Some v => value_repr v
  | None => VZero (TBasic KInvalid)
  end.

(** NewAttributeValue creates a new reflect.Value by calling the
    ValueFromTerraform method on `typ`.  It will return an error if the
    returned `attr.Value` is not the same type as `target`. *)
Definition NewAttributeValue `{Env} (typ : AttrType) (val : TfValue) (target : RValue)
    (opts : Options) (path : Path) : M (RValue * Diagnostics) :=
  let diags : Diagnostics := [] in
  do '(diags, stop) <- validateHook typ val path diags;
  if stop then ret (target, diags) else
  do '(res, err) <- callValueFromTerraform typ val;
  match err with
  | Some err => ret (target, diags ++ [valueFromTerraformErrorDiag err path])
  | None =>
      if bool_decide (TypeOf res ≠ Some (rtype target)) then
        ret (target, Append diags
                        [DiagNewAttributeValueIntoWrongType (TypeOf res) (rtype target) typ path])
      else ret (ValueOf res, diags)
  end.

(** FromAttributeValue creates an attr.Value from an attr.Value.  It just
    returns the attr.Value it is passed. *)
Definition FromAttributeValue `{Env} (typ : AttrType) (val : AttrValue) (path : Path) :
    M (option AttrValue * Diagnostics) :=
  let diags : Diagnostics := [] in
  match Validate typ with
  | Some validate =>
      let tfType := TerraformType typ in
      do '(tfVal, err) <- callToTerraformValue val;
      match err with
      | Some err => ret (Some val, diags ++ [toTerraformValueErrorDiag err path])
      | None =>
          do raw <- lift (NewValue tfType tfVal);
          run emit (EvValidate typ raw path);
          let diags := Append diags (validate raw path) in
          if HasError diags then ret (Some val, diags) else ret (Some val, diags)
      end
  | None => ret (Some val, diags)
  end.

(** ** internal/reflect/map.go *)

(** [val.Type()] of a raw value; calling [Is] on the nil type of the zero
    [tftypes.Value] panics. *)
Definition Value_Type (val : TfValue) : Outcome TfType :=
  match tf_typ val with
  | Some t => Ret t
  | None => Panic "runtime error: invalid memory address or nil pointer dereference"
  end.

(** [underlyingValue.Type().Elem()]. *)
Definition Elem_of (t : GoType) : Outcome GoType :=
  match Type_Elem t with
  | Some e => Ret e
  | None => Panic "reflect: Elem of invalid type"
  end.

(** One turn of a loop either returns from the function ([inl]) or goes on
    with the state of the loop ([inr]). *)
Definition Turn (R S : Type) : Type := R + S.

(** The body of the loop of Map for one entry of [values]; [m] is the map
    built so far. *)
Definition Map_body `{Env} (elemAttrType : AttrType) (elemType : GoType)
    (target : RValue) (opts : Options) (path : Path)
    (entry : string * TfValue) (m : RValue) (diags : Diagnostics) :
    M (Turn (RValue * Diagnostics) (RValue * Diagnostics)) :=
  let '(key, value) := entry in
  let targetValue := VZero elemType in
  let elemPath := WithElementKeyString path key in
  run emit (EvBuildValue elemAttrType value targetValue elemPath);
  let '(result, elemDiags) := BuildValue elemAttrType value targetValue opts elemPath in
  let diags := Append diags elemDiags in
  if HasError diags then ret (inl (target, diags)) else
  do m <- lift (SetMapIndex m (VString (TBasic KString) key) result);
  ret (inr (m, diags)).

(** The loop of Map over the entries of [values], in the order in which
    [range] yields them, and the [return m, diags] after it. *)
Fixpoint Map_range `{Env} (elemAttrType : AttrType) (elemType : GoType)
    (target : RValue) (opts : Options) (path : Path)
    (values : list (string * TfValue)) (m : RValue) (diags : Diagnostics) :
    M (RValue * Diagnostics) :=
  match values with
  | [] => ret (m, diags)
  | entry :: rest =>
      do turn <- Map_body elemAttrType elemType target opts path entry m diags;
      match turn with
      | inl returned => ret returned
      | inr (m, diags) => Map_range elemAttrType elemType target opts path rest m diags
      end
  end.

(** Map creates a map value that matches the type of `target`, and
    populates it with the contents of `val`.  [target] is a reflect.Value,
    and trueReflectValue takes an [interface{}]: what it is handed is the
    reflect.Value itself. *)
Definition Map `{Env} (typ : AttrType) (val : TfValue) (target : RValue)
    (opts : Options) (path : Path) : M (RValue * Diagnostics) :=
  let diags : Diagnostics := [] in
  do underlyingValue <- lift (trueReflectValue (ValueOf_reflectValue target));
  if bool_decide (rkind underlyingValue ≠ KMap) then
    ret (target, Append diags [DiagIntoIncompatibleType val (rtype target) path
           ("expected a map type, got " +:+ typeString (rtype target))])
  else
  do valType <- lift (Value_Type val);
  if negb (Is_Map valType) then
    ret (target, Append diags [DiagIntoIncompatibleType val (rtype target) path
           ("cannot reflect " +:+ tfTypeString valType +:+ " into a map, must be a map")])
  else
  match ElementType typ with
  | None =>
      ret (target, Append diags [DiagIntoIncompatibleType val (rtype target) path
             ("cannot reflect map using type information provided by "
              +:+ typeString (type_goType typ) +:+ ", " +:+ typeString (type_goType typ)
              +:+ " must be an attr.TypeWithElementType")])
  | Some elemAttrType =>
      match As_map val with
      | inr err =>
          ret (target, Append diags [DiagIntoIncompatibleType val (rtype target) path err])
      | inl values =>
          do elemType <- lift (Elem_of (rtype underlyingValue));
          let m := VMap (rtype underlyingValue) [] in
          Map_range elemAttrType elemType target opts path values m diags
      end
  end.

(** The body of the loop of FromMap for one entry of the map; [tfElems]
    are the elements gathered so far. *)
Definition FromMap_body `{Env} (typ elemType : AttrType) (path : Path)
    (entry : RValue * RValue) (tfElems : list (string * TfValue))
    (diags : Diagnostics) :
    M (Turn (option AttrValue * Diagnostics) (list (string * TfValue) * Diagnostics)) :=
  let '(key, elem) := entry in
  if bool_decide (rkind key ≠ KString) then
    let err := "map keys must be strings, got " +:+ typeString (rtype key) in
    ret (inl (None, AddAttributeError diags path "Value Conversion Error"
                      (unexpected "convert into a Terraform value" err)))
  else
  let elemPath := WithElementKeyString path (Value_String key) in
  run emit (EvFromValue elemType elem elemPath);
  let '(val, valDiags) := FromValue elemType elem elemPath in
  let diags := Append diags valDiags in
  if HasError diags then ret (inl (None, diags)) else
  match val with
  | None => lift (Panic "runtime error: invalid memory address or nil pointer dereference")
  | Some val =>
      do '(tfVal, err) <- callToTerraformValue val;
      match err with
      | Some err => ret (inl (None, diags ++ [toTerraformValueErrorDiag err path]))
      | None =>
          let tfElemType := TerraformType elemType in
          match ValidateValue tfElemType tfVal with
          | Some err => ret (inl (None, diags ++ [validateValueErrorDiag err path]))
          | None =>
              do tfElemVal <- lift (NewValue tfElemType tfVal);
              do '(diags, stop) <- validateHook typ tfElemVal elemPath diags;
              if stop then ret (inl (None, diags)) else
              ret (inr (tfmap_set tfElems (Value_String key) tfElemVal, diags))
          end
      end
  end.

(** The loop of FromMap over the entries of the map, in the order of
    [val.MapKeys()]. *)
Fixpoint FromMap_range `{Env} (typ elemType : AttrType) (path : Path)
    (entries : list (RValue * RValue)) (tfElems : list (string * TfValue))
    (diags : Diagnostics) :
    M (Turn (option AttrValue * Diagnostics) (list (string * TfValue) * Diagnostics)) :=
  match entries with
  | [] => ret (inr (tfElems, diags))
  | entry :: rest =>
      do turn <- FromMap_body typ elemType path entry tfElems diags;
      match turn with
      | inl returned => ret (inl returned)
      | inr (tfElems, diags) => FromMap_range typ elemType path rest tfElems diags
      end
  end.

(** What FromMap does after its loop. *)
Definition FromMap_finish `{Env} (typ : AttrType) (path : Path)
    (tfElems : list (string * TfValue)) (diags : Diagnostics) :
    M (option AttrValue * Diagnostics) :=
  let tfType := TerraformType typ in
  match ValidateValue tfType (RawMap tfElems) with
  | Some err => ret (None, diags ++ [validateValueErrorDiag err path])
  | None =>
      do tfVal <- lift (NewValue tfType (RawMap tfElems));
      do '(diags, stop) <- validateHook typ tfVal path diags;
      if stop then ret (None, diags) else
      do '(attrVal, err) <- callValueFromTerraform typ tfVal;
      match err with
      | Some err =>
          ret (None, AddAttributeError diags path "Value Conversion Error"
                       (unexpected "convert to map value" err))
      | None => ret (attrVal, diags)
      end
  end.

(** FromMap returns an attr.Value representing the data contained in
    `val`.  `val` must be a map type with keys that are a string type.
    [typ] is an [attr.TypeWithElementType]: its [ElementType] is there. *)
Definition FromMap `{Env} (typ : AttrType) (val : RValue) (path : Path) :
    M (option AttrValue * Diagnostics) :=
  let diags : Diagnostics := [] in
  let tfType := TerraformType typ in
  do isNil <- lift (IsNil val);
  if (isNil : bool) then
    do tfVal <- lift (NewValue tfType RawNil);
    do '(diags, stop) <- validateHook typ tfVal path diags;
    if stop then ret (None, diags) else
    do '(attrVal, err) <- callValueFromTerraform typ tfVal;
    match err with
    | Some err =>
        ret (None, AddAttributeError diags path "Value Conversion Error"
                     (unexpected "convert from map value" err))
    | None => ret (attrVal, diags)
    end
  else
  match ElementType typ with
  | None => lift (Panic "typ is not an attr.TypeWithElementType")
  | Some elemType =>
      do entries <- lift (MapEntries val);
      do turn <- FromMap_range typ elemType path entries [] diags;
      match turn with
      | inl returned => ret returned
      | inr (tfElems, diags) => FromMap_finish typ path tfElems diags
      end
  end.

(** How the conversion of one entry of a native map ends: the entry is
    converted, or it aborts the conversion of the map (a key that is not a
    string, an error diagnostic from FromValue, a failing ToTerraformValue,
    a payload that does not pass ValidateValue, an error diagnostic from the
    validation hook), or FromValue hands back the nil value without an
    error and the call of its ToTerraformValue panics. *)
Inductive Verdict := Converts | Aborts | Panics.

#[global] Instance Verdict_eq_dec : EqDecision Verdict.
Proof. solve_decision. Defined.

Definition element_verdict `{Env} (typ elemType : AttrType) (path : Path)
    (entry : RValue * RValue) : Verdict :=
  let '(key, elem) := entry in
  if bool_decide (rkind key ≠ KString) then Aborts else
  let elemPath := WithElementKeyString path (Value_String key) in
  let '(val, valDiags) := FromValue elemType elem elemPath in
  if HasError valDiags then Aborts else
  match val with
  | None => Panics
  | Some val =>
      match ToTerraformValue val with
      | (_, Some _) => Aborts
      | (raw, None) =>
          match ValidateValue (TerraformType elemType) raw with
          | Some _ => Aborts
          | None =>
              if HasError (validateDiags typ (MkTfValue (Some (TerraformType elemType)) raw)
                             elemPath)
              then Aborts else Converts
          end
      end
  end.

(** Some validation of the trace reported an error. *)
Definition validation_failed (typ : AttrType) (tr : Trace) : Prop :=
  exists validate raw path,
    Validate typ = Some validate /\ In (EvValidate typ raw path) tr /\
    HasError (validate raw path) = true.

(** Every call of ValueFromTerraform in the trace comes after a call of the
    validation hook on the same raw value, which reported no error. *)
Definition validated_before_materialized (typ : AttrType) (tr : Trace) : Prop :=
  forall validate (i : nat) raw,
    Validate typ = Some validate ->
    tr !! i = Some (EvValueFromTerraform typ raw) ->
    exists (j : nat) path,
      j < i /\ tr !! j = Some (EvValidate typ raw path) /\
      HasError (validate raw path) = false.

(** The trace has no call of ValueFromTerraform. *)
Definition no_ValueFromTerraform (tr : Trace) : Prop :=
  existsb is_ValueFromTerraform tr = false.

(** Validation of [val], then construction through ValueFromTerraform,
    as FromMap does it twice: the events and the result, [what] being the
    wording of the failure of ValueFromTerraform. *)
Definition materialized (typ : AttrType) (val : TfValue) (path : Path)
    (diags : Diagnostics) (what : string) : M (option AttrValue * Diagnostics) :=
  let diags := diags ++ validateDiags typ val path in
  if HasError (validateDiags typ val path) then
    (validateTrace typ val path, Ret (None, diags))
  else
    match ValueFromTerraform typ val with
    | (_, Some err) =>
        (validateTrace typ val path ++ [EvValueFromTerraform typ val],
         Ret (None, diags ++ [AttributeErrorDiagnostic path "Value Conversion Error"
                                (unexpected what err)]))
    | (attrVal, None) =>
        (validateTrace typ val path ++ [EvValueFromTerraform typ val],
         Ret (attrVal, diags))
    end.

(** The entries of a map that is not nil. *)
Definition map_entries_of (val : RValue) (entries : list (RValue * RValue)) : Prop :=
  IsNil val = Ret false /\ MapEntries val = Ret entries.

(** A hook converter: no method, or a result of the call that is not
    nil. *)
Definition hook_fails {A} (method : option (RValue -> A -> RValue * HookResult))
    (receiver : RValue) (arg : A) : Prop :=
  match method with
  | None => True
  | Some call => snd (call receiver arg) <> ResNil
  end.

(** The events [tr], then the computation [m]. *)
Definition after {A} (tr : Trace) (m : M A) : M A :=
  (tr ++ trace_of m, outcome_of m).

(** Validation of [val], then construction through ValueFromTerraform, as
    FromUnknownable, FromNullable and FromValueCreator do it on empty
    diagnostics: a construction that succeeds hands back the diagnostics of
    the validation when [keep] is set ([return res, diags]) and none
    otherwise ([return res, nil]). *)
Definition constructed (typ : AttrType) (val : TfValue) (path : Path) (keep : bool) :
    M (option AttrValue * Diagnostics) :=
  let diags := validateDiags typ val path in
  if HasError diags then (validateTrace typ val path, Ret (None, diags))
  else
    match ValueFromTerraform typ val with
    | (_, Some err) =>
        (validateTrace typ val path ++ [EvValueFromTerraform typ val],
         Ret (None, diags ++ [valueFromTerraformErrorDiag err path]))
    | (res, None) =>
        (validateTrace typ val path ++ [EvValueFromTerraform typ val],
         Ret (res, if keep then diags else []))
    end.

(** The keys of the entries of a native map, as strings. *)
Definition entry_keys (entries : list (RValue * RValue)) : list string :=
  map (fun e => Value_String (fst e)) entries.

(** What the loop of FromMap makes of an entry of a native map that it
    converts: the path of the element, the value that FromValue hands back
    for it, the raw element gathered for it, the calls made and the
    diagnostics collected. *)
Definition element_path (path : Path) (entry : RValue * RValue) : Path :=
  WithElementKeyString path (Value_String (fst entry)).

Definition element_value `{Env} (elemType : AttrType) (path : Path)
    (entry : RValue * RValue) : option AttrValue :=
  fst (FromValue elemType (snd entry) (element_path path entry)).

Definition element_raw `{Env} (elemType : AttrType) (path : Path)
    (entry : RValue * RValue) : TfValue :=
  MkTfValue (Some (TerraformType elemType))
    match element_value elemType path entry with
    | Some v => fst (ToTerraformValue v)
    | None => RawNil
    end.

Definition gathered `{Env} (elemType : AttrType) (path : Path)
    (entry : RValue * RValue) : string * TfValue :=
  (Value_String (fst entry), element_raw elemType path entry).

Definition element_events `{Env} (typ elemType : AttrType) (path : Path)
    (entry : RValue * RValue) : Trace :=
  EvFromValue elemType (snd entry) (element_path path entry) ::
  match element_value elemType path entry with
  | Some v => [EvToTerraformValue v]
  | None => []
  end ++ validateTrace typ (element_raw elemType path entry) (element_path path entry).

Definition conversion_diags `{Env} (typ elemType : AttrType) (path : Path)
    (entry : RValue * RValue) : Diagnostics :=
  snd (FromValue elemType (snd entry) (element_path path entry)) ++
  validateDiags typ (element_raw elemType path entry) (element_path path entry).

(** ** A concrete environment and concrete types, to run the converters *)

Module Fixtures.

Definition goString : GoType := TBasic KString.
Definition goBool : GoType := TBasic KBool.

(** [types.String], [types.Bool] and a map value of package types. *)
Definition typesString : GoType :=
  TDefined "types.String"
    (TStruct [mkStructField "Unknown" "" [] goBool;
              mkStructField "Null" "" [] goBool;
              mkStructField "Value" "" [] goString]).

Definition typesBool : GoType :=
  TDefined "types.Bool"
    (TStruct [mkStructField "Unknown" "" [] goBool;
              mkStructField "Null" "" [] goBool;
              mkStructField "Value" "" [] goBool]).

Definition typesMap : GoType :=
  TDefined "types.Map" (TStruct [mkStructField "Unknown" "" [] goBool;
                                 mkStructField "Null" "" [] goBool]).

Fixpoint testTypeString (t : GoType) : string :=
  match t with
  | TBasic KString => "string"
  | TBasic KBool => "bool"
  | TBasic KInt => "int"
  | TBasic _ => "basic"
  | TDefined name _ => name
  | TPtr e => "*" +:+ testTypeString e
  | TSlice e => "[]" +:+ testTypeString e
  | TMap k e => "map[" +:+ testTypeString k +:+ "]" +:+ testTypeString e
  | TStruct _ => "struct {...}"
  | TInterface _ => "interface {}"
  end.

Definition testTfTypeString (t : TfType) : string :=
  match t with
  | TfString => "tftypes.String"
  | TfNumber => "tftypes.Number"
  | TfBool => "tftypes.Bool"
  | TfDynamicPseudoType => "tftypes.DynamicPseudoType"
  | TfList _ => "tftypes.List"
  | TfSet _ => "tftypes.Set"
  | TfMap _ => "tftypes.Map"
  | TfTuple _ => "tftypes.Tuple"
  | TfObject _ => "tftypes.Object"
  end.

(** The payload check of [newValue], by the shape of the payload. *)
Definition testValueFrom (t : TfType) (raw : Raw) : option GoError :=
  match t, raw with
  | TfString, RawString _ | TfNumber, RawNumber _ _ | TfBool, RawBool _
  | TfList _, RawList _ | TfSet _, RawList _ | TfTuple _, RawList _
  | TfMap _, RawMap _ | TfObject _, RawMap _ => None
  | TfDynamicPseudoType, _ => None
  | _, _ => Some ("tftypes.NewValue can't use the value as a " +:+ testTfTypeString t)
  end.

(** A leaf with the Unknownable and Nullable hooks on its pointer type,
    and one whose hooks fail. *)
Definition hookString : GoType :=
  TDefined "hookString"
    (TStruct [mkStructField "Unknown" "" [] goBool;
              mkStructField "Null" "" [] goBool;
              mkStructField "Value" "" [] goString]).

Definition failingHook : GoType := TDefined "failingHook" (TStruct []).

Definition hookState (v : RValue) : bool * bool * string :=
  match v with
  | VStruct _ [VBool _ u; VBool _ n; VString _ s] => (u, n, s)
  | _ => (false, false, "")
  end.

Definition hookMake (u n : bool) (s : string) : RValue :=
  VStruct hookString [VBool goBool u; VBool goBool n; VString goString s].

Definition hookGetUnknown (receiver : RValue) : bool :=
  match receiver with
  | VPtr _ p => fst (fst (hookState p))
  | _ => false
  end.

Definition hookGetNull (receiver : RValue) : bool :=
  match receiver with
  | VPtr _ p => snd (fst (hookState p))
  | _ => false
  end.

Definition testSetUnknown (t : GoType) : option (RValue -> bool -> RValue * HookResult) :=
  if decide (t = TPtr hookString) then
    Some (fun receiver b =>
            match receiver with
            | VPtr t p => let '(_, n, s) := hookState p in (VPtr t (hookMake b n s), ResNil)
            | _ => (receiver, ResNil)
            end)
  else if decide (t = TPtr failingHook) then
    Some (fun receiver _ => (receiver, ResError "hook failed"))
  else None.

Definition testSetNull (t : GoType) : option (RValue -> bool -> RValue * HookResult) :=
  if decide (t = TPtr hookString) then
    Some (fun receiver b =>
            match receiver with
            | VPtr t p => let '(u, _, s) := hookState p in (VPtr t (hookMake u b s), ResNil)
            | _ => (receiver, ResNil)
            end)
  else if decide (t = TPtr failingHook) then
    Some (fun receiver _ => (receiver, ResError "hook failed"))
  else None.

Definition testFromTerraform5Value (t : GoType) :
    option (RValue -> TfValue -> RValue * HookResult) :=
  if decide (t = TPtr hookString) then
    Some (fun receiver val =>
            match receiver, tf_value val with
            | VPtr t p, RawString s => (VPtr t (hookMake false false s), ResNil)
            | _, _ => (receiver, ResError "not a string")
            end)
  else if decide (t = TPtr failingHook) then
    Some (fun receiver _ => (receiver, ResError "hook failed"))
  else None.

(** A zero value of the target, or a pointer to a zero value of what it
    points to. *)
Definition testPointerSafeZeroValue (target : RValue) : RValue :=
  match KindOf (rtype target), Type_Elem (rtype target) with
  | KPtr, Some pointed => VPtr (rtype target) (VZero pointed)
  | _, _ => VZero (rtype target)
  end.

(** A string value of package types, built for the type [ty]. *)
Definition stringValue (ty : AttrType) (raw : Raw) : AttrValue :=
  match raw with
  | RawUnknown =>
      MkAttrValue (VStruct typesString [VBool goBool true; VBool goBool false; VString goString ""])
        ty (RawUnknown, None)
  | RawString s =>
      MkAttrValue (VStruct typesString [VBool goBool false; VBool goBool false; VString goString s])
        ty (RawString s, None)
  | _ =>
      MkAttrValue (VStruct typesString [VBool goBool false; VBool goBool true; VString goString ""])
        ty (RawNil, None)
  end.

Definition stringFromTerraform (ty : AttrType) (val : TfValue) :
    option AttrValue * option GoError :=
  match tf_value val with
  | RawUnknown | RawNil | RawString _ => (Some (stringValue ty (tf_value val)), None)
  | _ => (None, Some "can't unmarshal into *string, expected string")
  end.

Definition stringTypeGo : GoType := TDefined "types.primitive" (TBasic KUint8).
Definition mapTypeGo : GoType := TDefined "types.MapType" (TStruct []).

(** The type a value reports: same descriptor, no constructor of its
    own. *)
Definition StringType0 : AttrType :=
  MkAttrType stringTypeGo TfString (fun _ => (None, Some "not a constructor")) None None.

Definition StringType : AttrType :=
  MkAttrType stringTypeGo TfString (stringFromTerraform StringType0) None None.

Definition failingValidate (val : TfValue) (path : Path) : list Diagnostic :=
  [AttributeErrorDiagnostic path "Error Diagnostic" "This is an error."].

Definition warningValidate (val : TfValue) (path : Path) : list Diagnostic :=
  [AttributeWarningDiagnostic path "Warning Diagnostic" "This is a warning."].

Definition StringTypeWithValidateError : AttrType :=
  MkAttrType stringTypeGo TfString (stringFromTerraform StringType0)
    (Some failingValidate) None.

Definition StringTypeWithValidateWarning : AttrType :=
  MkAttrType stringTypeGo TfString (stringFromTerraform StringType0)
    (Some warningValidate) None.

(** A string type whose constructor hands back a [types.Bool]. *)
Definition BoolType0 : AttrType :=
  MkAttrType stringTypeGo TfBool (fun _ => (None, Some "not a constructor")) None None.

Definition boolValue (b : bool) : AttrValue :=
  MkAttrValue (VStruct typesBool [VBool goBool false; VBool goBool false; VBool goBool b])
    BoolType0 (RawBool b, None).

Definition ConfusedType : AttrType :=
  MkAttrType stringTypeGo TfString (fun _ => (Some (boolValue true), None)) None None.

(** A value whose payload does not fit its own type, and one whose
    [ToTerraformValue] fails. *)
Definition misfitValue : AttrValue :=
  MkAttrValue (VZero typesString) StringType0 (RawBool true, None).

Definition brokenValue : AttrValue :=
  MkAttrValue (VZero typesString) StringType0 (RawNil, Some "cannot render").

Definition mapValue (ty : AttrType) (raw : Raw) : AttrValue :=
  match raw with
  | RawUnknown =>
      MkAttrValue (VStruct typesMap [VBool goBool true; VBool goBool false]) ty (raw, None)
  | RawNil =>
      MkAttrValue (VStruct typesMap [VBool goBool false; VBool goBool true]) ty (raw, None)
  | _ =>
      MkAttrValue (VStruct typesMap [VBool goBool false; VBool goBool false]) ty (raw, None)
  end.

Definition MapType0 (elem : AttrType) : AttrType :=
  MkAttrType mapTypeGo (TfMap (TerraformType elem))
    (fun _ => (None, Some "not a constructor")) None (Some elem).

Definition MapType (elem : AttrType) : AttrType :=
  MkAttrType mapTypeGo (TfMap (TerraformType elem))
    (fun val => (Some (mapValue (MapType0 elem) (tf_value val)), None)) None (Some elem).

Definition MapTypeWithValidateError (elem : AttrType) : AttrType :=
  MkAttrType mapTypeGo (TfMap (TerraformType elem))
    (fun val => (Some (mapValue (MapType0 elem) (tf_value val)), None))
    (Some failingValidate) (Some elem).

(** Stand-ins for BuildValue and FromValue that know strings only. *)
Definition testBuildValue (typ : AttrType) (val : TfValue) (target : RValue)
    (opts : unit) (path : Path) : RValue * Diagnostics :=
  match KindOf (rtype target), tf_value val with
  | KString, RawString s => (VString (rtype target) s, [])
  | _, _ =>
      (target, [DiagIntoIncompatibleType val (rtype target) path
                  ("cannot reflect the value into " +:+ testTypeString (rtype target))])
  end.

Definition testFromValue (typ : AttrType) (val : RValue) (path : Path) :
    option AttrValue * Diagnostics :=
  match val with
  | VString _ s => (Some (stringValue StringType0 (RawString s)), [])
  | _ =>
      (None, [AttributeErrorDiagnostic path "Value Conversion Error"
                ("cannot construct attr.Type from " +:+ testTypeString (rtype val))])
  end.

(** A stand-in for SetMapIndex that knows string keys only: the entry of the
    key is replaced or added. *)
Definition testSetMapIndex (m key elem : RValue) : Outcome RValue :=
  match m, key with
  | VMap t es, VString _ s =>
      let other (e : RValue * RValue) :=
        match fst e with
        | VString _ s' => negb (String.eqb s' s)
        | _ => true
        end in
      Ret (VMap t (List.filter other es ++ [(key, elem)]))
  | _, _ => Panic "reflect: call of reflect.Value.SetMapIndex on non-map Value"
  end.

Definition testEnv : Env := {|
  Options := unit;
  typeString := testTypeString;
  tfTypeString := testTfTypeString;
  method_SetUnknown := testSetUnknown;
  method_SetNull := testSetNull;
  method_FromTerraform5Value := testFromTerraform5Value;
  SetMapIndex := testSetMapIndex;
  valueFrom := testValueFrom;
  pointerSafeZeroValue := testPointerSafeZeroValue;
  BuildValue := testBuildValue;
  FromValue := testFromValue;
|}.

Definition mapOfString : GoType := TMap goString goString.
Definition mapOfInt : GoType := TMap (TBasic KInt) goString.

Definition tfString (s : string) : TfValue := MkTfValue (Some TfString) (RawString s).
Definition tfBool (b : bool) : TfValue := MkTfValue (Some TfBool) (RawBool b).
Definition tfMapOf (entries : list (string * TfValue)) : TfValue :=
  MkTfValue (Some (TfMap TfString)) (RawMap entries).

Definition goStr (s : string) : RValue := VString goString s.

(** A struct type for getStructTags. *)
Definition tagged (name tag : string) : StructField :=
  mkStructField name "" [("tfsdk", tag)] goString.

Definition personStruct : GoType :=
  TDefined "person"
    (TStruct [tagged "Name" "name";
              mkStructField "secret" "main" [("tfsdk", "Bad")] goString;
              tagged "Skipped" "-";
              tagged "Age" "age_2"]).

End Fixtures.

(** * Properties *)

(** ** The conversion monad and the diagnostics *)

Lemma bind_ret {A B} (a : A) (f : A -> M B) : bind (ret a) f = f a.
Proof. unfold bind, ret. destruct (f a) as [tr o]. reflexivity. Qed.

Lemma bind_lift_Ret {A B} (a : A) (f : A -> M B) : bind (lift (Ret a)) f = f a.
Proof. apply bind_ret. Qed.

Lemma bind_lift_Panic {A B} (msg : string) (f : A -> M B) :
  bind (lift (Panic msg)) f = ([], Panic msg).
Proof. reflexivity. Qed.

Lemma bind_emit {B} (e : Event) (f : unit -> M B) :
  bind (emit e) f = (e :: trace_of (f tt), outcome_of (f tt)).
Proof. unfold bind, emit, trace_of, outcome_of. destruct (f tt). reflexivity. Qed.

Lemma bind_assoc {A B C} (m : M A) (f : A -> M B) (g : B -> M C) :
  bind (bind m f) g = bind m (fun a => bind (f a) g).
Proof.
  destruct m as [tr [a|msg]]; [|reflexivity].
  unfold bind. destruct (f a) as [tr1 [b|msg]]; [|reflexivity].
  destruct (g b) as [tr2 o]. by rewrite app_assoc.
Qed.

Lemma HasError_app (d1 d2 : Diagnostics) :
  HasError (d1 ++ d2) = HasError d1 || HasError d2.
Proof. apply existsb_app. Qed.

Lemma HasError_Append (d1 d2 : Diagnostics) :
  HasError (Append d1 d2) = HasError d1 || HasError d2.
Proof. apply HasError_app. Qed.

Lemma NewValue_valid `{Env} (t : TfType) (raw : Raw) :
  ValidateValue t raw = None -> NewValue t raw = Ret (MkTfValue (Some t) raw).
Proof. unfold NewValue. by intros ->. Qed.

Lemma NewValue_invalid `{Env} (t : TfType) (raw : Raw) (err : GoError) :
  ValidateValue t raw = Some err -> NewValue t raw = Panic err.
Proof. unfold NewValue. by intros ->. Qed.

(** ** attr.ValueToTerraform *)

(** C8. ValueToTerraform calls ToTerraformValue once and always returns;
    the error it returns is non-nil exactly when ToTerraformValue failed or
    the payload does not pass ValidateValue for the raw shape of the
    value's own type; with an error the raw value is the zero
    [tftypes.Value], without one it is the value of that type and
    payload. *)
Theorem ValueToTerraform_revalidates `{Env} (val : AttrValue) :
  let tfType := TerraformType (Type_of val) in
  let raw := fst (ToTerraformValue val) in
  exists (out : TfValue) (err : option GoError),
    ValueToTerraform val = ([EvToTerraformValue val], Ret (out, err)) /\
    (is_Some err <->
       is_Some (snd (ToTerraformValue val)) \/ is_Some (ValidateValue tfType raw)) /\
    (is_Some err -> out = zeroTfValue) /\
    (err = None -> out = MkTfValue (Some tfType) raw).
Proof.
  intros tfType raw. unfold ValueToTerraform, callToTerraformValue.
  subst tfType raw.
  destruct (ToTerraformValue val) as [raw [e|]] eqn:Hraw; simpl.
  - exists zeroTfValue, (Some e). split; [reflexivity|].
    split; [split; eauto|]. split; [done|]. discriminate.
  - destruct (ValidateValue (TerraformType (Type_of val)) raw) as [e|] eqn:Hv; simpl.
    + exists zeroTfValue, (Some e). split; [reflexivity|].
      split; [split; eauto|]. split; [done|]. discriminate.
    + rewrite (NewValue_valid _ _ Hv). simpl.
      exists (MkTfValue (Some (TerraformType (Type_of val))) raw), None.
      split; [reflexivity|]. split.
      * split; [intros [? ?]; discriminate|].
        intros [[? ?]|[? ?]]; discriminate.
      * split; [intros [? ?]; discriminate|done].
Qed.

(** ** getStructTags and isValidFieldName *)

Lemma upper_not_name_char (c : ascii) :
  is_upper c = true -> is_lower c = false /\ is_name_char c = false.
Proof.
  destruct c as [[|] [|] [|] [|] [|] [|] [|] [|]]; vm_compute; intros; try discriminate; done.
Qed.

Lemma digit_not_lower (c : ascii) : is_digit c = true -> is_lower c = false.
Proof.
  destruct c as [[|] [|] [|] [|] [|] [|] [|] [|]]; vm_compute; intros; try discriminate; done.
Qed.

Lemma all_chars_some_char (p q : ascii -> bool) (s : string) :
  (forall c, q c = true -> p c = false) ->
  some_char q s = true -> all_chars p s = false.
Proof.
  intros Hpq. induction s as [|c s IH]; simpl; [discriminate|].
  intros [Hc|Hs]%orb_true_iff.
  - by rewrite (Hpq c Hc).
  - rewrite (IH Hs). apply andb_false_r.
Qed.

Lemma isValidFieldName_upper (tag : string) :
  some_char is_upper tag = true -> isValidFieldName tag = false.
Proof.
  destruct tag as [|c rest]; simpl; [done|].
  intros [Hc|Hs]%orb_true_iff.
  - by rewrite (proj1 (upper_not_name_char c Hc)).
  - rewrite (all_chars_some_char is_name_char is_upper rest); [apply andb_false_r| |done].
    intros c' Hc'. apply upper_not_name_char, Hc'.
Qed.

Lemma isValidFieldName_leading_digit (c : ascii) (rest : string) :
  is_digit c = true -> isValidFieldName (String c rest) = false.
Proof. intros Hc. simpl. by rewrite (digit_not_lower c Hc). Qed.

Lemma tags_of_empty : tags_of [] ∅.
Proof.
  intros tag i. rewrite lookup_empty. split; [done|].
  intros (f & Hf & _). by rewrite lookup_nil in Hf.
Qed.

Lemma tags_of_skip (pre : list StructField) (field : StructField) (tags : gmap string nat) :
  bindable field = false -> tags_of pre tags -> tags_of (pre ++ [field]) tags.
Proof.
  intros Hnb Hinv tag i. rewrite (Hinv tag i). split.
  - intros (f & Hf & Hb & Ht). exists f. split; [|done].
    rewrite lookup_app_l; [done|]. by eapply lookup_lt_Some.
  - intros (f & Hf & Hb & Ht). exists f. split; [|done].
    apply lookup_app_Some in Hf as [Hf|[Hlen Hf]]; [done|].
    apply list_lookup_singleton_Some in Hf as [_ ->]. congruence.
Qed.

Lemma tags_of_insert (pre : list StructField) (field : StructField) (tags : gmap string nat) :
  bindable field = true -> tags !! tfsdk field = None -> tags_of pre tags ->
  tags_of (pre ++ [field]) (<[tfsdk field := length pre]> tags).
Proof.
  intros Hb Hnone Hinv tag i.
  destruct (decide (tfsdk field = tag)) as [<-|Hne].
  - rewrite lookup_insert_eq. split.
    + intros [= <-]. exists field. split; [|done].
      rewrite lookup_app_r; [|lia]. by rewrite Nat.sub_diag.
    + intros (f & Hf & Hbf & Ht).
      apply lookup_app_Some in Hf as [Hf|[Hlen Hf]].
      * assert (tags !! tfsdk field = Some i) as Hsome by (apply Hinv; eauto).
        congruence.
      * apply list_lookup_singleton_Some in Hf as [Hi _]. f_equal. lia.
  - rewrite lookup_insert_ne; [|done]. rewrite (Hinv tag i). split.
    + intros (f & Hf & Hbf & Ht). exists f. split; [|done].
      rewrite lookup_app_l; [done|]. by eapply lookup_lt_Some.
    + intros (f & Hf & Hbf & Ht). exists f. split; [|done].
      apply lookup_app_Some in Hf as [Hf|[Hlen Hf]]; [done|].
      apply list_lookup_singleton_Some in Hf as [_ ->]. congruence.
Qed.

(** What the loop of getStructTags does from a prefix [pre] already
    gathered in [tags]. *)
Lemma getStructTags_from_spec (all : list StructField) (path : Path)
    (fields pre : list StructField) (tags : gmap string nat) :
  tags_of pre tags ->
  match getStructTags_from all path fields (length pre) tags with
  | inl tags' =>
      tags_of (pre ++ fields) tags' /\
      Forall (fun f => bindable f = true -> isValidFieldName (tfsdk f) = true) fields
  | inr e =>
      exists i f, (pre ++ fields) !! i = Some f /\ bindable f = true /\
        (isValidFieldName (tfsdk f) = false \/
         exists j g, j <> i /\ (pre ++ fields) !! j = Some g /\ bindable g = true /\
                     tfsdk g = tfsdk f)
  end.
Proof.
  revert pre tags. induction fields as [|field rest IH]; intros pre tags Hinv; simpl.
  - rewrite app_nil_r. by split.
  - assert (Hstep : forall tags', tags_of (pre ++ [field]) tags' ->
              match getStructTags_from all path rest (S (length pre)) tags' with
              | inl tags'' =>
                  tags_of (pre ++ field :: rest) tags'' /\
                  Forall (fun f => bindable f = true -> isValidFieldName (tfsdk f) = true) rest
              | inr e =>
                  exists i f, (pre ++ field :: rest) !! i = Some f /\ bindable f = true /\
                    (isValidFieldName (tfsdk f) = false \/
                     exists j g, j <> i /\ (pre ++ field :: rest) !! j = Some g /\
                                 bindable g = true /\ tfsdk g = tfsdk f)
              end).
    { intros tags' Hinv'. specialize (IH (pre ++ [field]) tags' Hinv').
      rewrite length_app in IH. simpl in IH. rewrite Nat.add_1_r in IH.
      by rewrite <- app_assoc in IH. }
    assert (Hhere : (pre ++ field :: rest) !! length pre = Some field).
    { rewrite lookup_app_r; [|lia]. by rewrite Nat.sub_diag. }
    destruct (String.eqb (field_PkgPath field) "") eqn:Hpkg; simpl.
    2:{ assert (bindable field = false) as Hnb by (unfold bindable; by rewrite Hpkg).
        specialize (Hstep tags (tags_of_skip _ _ _ Hnb Hinv)).
        destruct (getStructTags_from all path rest (S (length pre)) tags); [|done].
        destruct Hstep as [? ?]. split; [done|]. constructor; [congruence|done]. }
    destruct (String.eqb (tfsdk field) "-") eqn:Hdash.
    { assert (bindable field = false) as Hnb by (unfold bindable; by rewrite Hpkg, Hdash).
      specialize (Hstep tags (tags_of_skip _ _ _ Hnb Hinv)).
      destruct (getStructTags_from all path rest (S (length pre)) tags); [|done].
      destruct Hstep as [? ?]. split; [done|]. constructor; [congruence|done]. }
    assert (bindable field = true) as Hb by (unfold bindable; by rewrite Hpkg, Hdash).
    destruct (String.eqb (tfsdk field) "") eqn:Hempty.
    { apply String.eqb_eq in Hempty. exists (length pre), field.
      split; [done|]. split; [done|]. left. by rewrite Hempty. }
    destruct (isValidFieldName (tfsdk field)) eqn:Hvalid; simpl.
    2:{ exists (length pre), field. split; [done|]. split; [done|]. by left. }
    destruct (tags !! tfsdk field) as [other|] eqn:Hlook.
    { apply Hinv in Hlook as (g & Hg & Hbg & Htg).
      exists (length pre), field. split; [done|]. split; [done|]. right.
      exists other, g. split; [|split; [|done]].
      - apply lookup_lt_Some in Hg. lia.
      - rewrite lookup_app_l; [done|]. by eapply lookup_lt_Some. }
    specialize (Hstep _ (tags_of_insert _ _ _ Hb Hlook Hinv)).
    destruct (getStructTags_from all path rest (S (length pre))
                (<[tfsdk field := length pre]> tags)); [|done].
    destruct Hstep as [? ?]. split; [done|]. by constructor.
Qed.

(** C2. For a struct (reached through pointers and interfaces) with the
    fields [fields]: a tag with an uppercase letter or a leading digit is
    not a valid field name; a bindable field (exported, not tagged "-")
    whose tag is missing or not a valid field name makes getStructTags
    return an error, and so do two bindable fields with the same tag;
    fields that are not bindable are left out: when the bindable fields are
    validly and distinctly tagged getStructTags succeeds, and the mapping
    it returns sends exactly the tags of the bindable fields to the index
    of the field declaring them.  getStructTags takes the struct and a
    path only, no value data. *)
Theorem getStructTags_validates_tags `{Env} (in_ v : RValue) (path : Path)
    (fields : list StructField) :
  trueReflectValue in_ = Ret v ->
  underlying (rtype v) = TStruct fields ->
  (forall tag : string,
     some_char is_upper tag = true \/
     (exists c rest, tag = String c rest /\ is_digit c = true) ->
     isValidFieldName tag = false) /\
  (forall i f, fields !! i = Some f -> bindable f = true ->
     tfsdk f = "" \/ isValidFieldName (tfsdk f) = false ->
     exists e, getStructTags in_ path = Ret (inr e)) /\
  (forall i j f g, i <> j -> fields !! i = Some f -> fields !! j = Some g ->
     bindable f = true -> bindable g = true -> tfsdk f = tfsdk g ->
     exists e, getStructTags in_ path = Ret (inr e)) /\
  ((forall i f, fields !! i = Some f -> bindable f = true ->
      isValidFieldName (tfsdk f) = true) ->
   (forall i j f g, i <> j -> fields !! i = Some f -> fields !! j = Some g ->
      bindable f = true -> bindable g = true -> tfsdk f <> tfsdk g) ->
   exists tags, getStructTags in_ path = Ret (inl tags)) /\
  (forall tags, getStructTags in_ path = Ret (inl tags) -> tags_of fields tags).
Proof.
  intros Htrue Hunder.
  assert (Hrun : getStructTags in_ path =
                 Ret (getStructTags_from fields path fields 0 ∅)).
  { unfold getStructTags. rewrite Htrue. simpl.
    unfold KindOf, Fields. rewrite Hunder.
    rewrite bool_decide_eq_false_2; [done|]. by intros []. }
  pose proof (getStructTags_from_spec fields path fields [] ∅ tags_of_empty) as Hspec.
  simpl in Hspec. rewrite Hrun.
  destruct (getStructTags_from fields path fields 0 ∅) as [tags|e].
  - destruct Hspec as [Hmap Hvalid]. rewrite Forall_forall in Hvalid.
    split; [|split; [|split; [|split]]].
    + intros tag [Hup|(c & rest & -> & Hd)];
        [by apply isValidFieldName_upper|by apply isValidFieldName_leading_digit].
    + intros i f Hf Hb Hbad. exfalso.
      assert (isValidFieldName (tfsdk f) = true) as Hok.
      { apply Hvalid; [|done]. by eapply list_elem_of_lookup_2. }
      destruct Hbad as [Hbad|Hbad]; [rewrite Hbad in Hok; discriminate|congruence].
    + intros i j f g Hij Hf Hg Hbf Hbg Heq. exfalso.
      assert (tags !! tfsdk f = Some i) as Hi by (apply Hmap; eauto).
      assert (tags !! tfsdk f = Some j) as Hj by (apply Hmap; eauto).
      congruence.
    + eauto.
    + by intros ? [= <-].
  - destruct Hspec as (i & f & Hf & Hb & Hbad).
    split; [|split; [|split; [|split]]].
    + intros tag [Hup|(c & rest & -> & Hd)];
        [by apply isValidFieldName_upper|by apply isValidFieldName_leading_digit].
    + eauto.
    + eauto.
    + intros Hvalid Hdistinct. exfalso.
      destruct Hbad as [Hbad|(j & g & Hji & Hg & Hbg & Heq)].
      * rewrite (Hvalid i f Hf Hb) in Hbad. discriminate.
      * by apply (Hdistinct j i g f Hji Hg Hf Hbg Hb).
    + intros ? [=].
Qed.

Lemma getStructTags_validates_tags_witness :
  tags_of (Fields Fixtures.personStruct) (<["age_2" := 3]> (<["name" := 0]> ∅)).
Proof.
  pose proof (getStructTags_validates_tags (H := Fixtures.testEnv)
                (VPtr (TPtr Fixtures.personStruct) (VZero Fixtures.personStruct))
                (VZero Fixtures.personStruct) [] _ eq_refl eq_refl)
    as (_ & _ & _ & _ & Hmap).
  apply Hmap. vm_compute. reflexivity.
Defined.

(** ** The capability-hook converters *)

Lemma null_is_known (val : TfValue) : IsNull val = true -> IsKnown val = true.
Proof. unfold IsNull, IsKnown. by destruct (tf_value val). Qed.

Lemma unknown_is_not_null (val : TfValue) : IsKnown val = false -> IsNull val = false.
Proof. unfold IsNull, IsKnown. by destruct (tf_value val). Qed.

(** FromUnknownable on a hook whose unknown flag is set. *)
Lemma FromUnknownable_unknown `{Env} (typ : AttrType) (u : Unknownable) (path : Path) :
  GetUnknown u = true ->
  let unknownValue := MkTfValue (Some (TerraformType typ)) RawUnknown in
  let rest :=
    bind (validateHook typ unknownValue path []) (fun '(diags, stop) =>
      if stop then ret (None, diags) else
      bind (callValueFromTerraform typ unknownValue) (fun '(res, err) =>
        match err with
        | Some err => ret (None, diags ++ [valueFromTerraformErrorDiag err path])
        | None => ret (res, [])
        end)) in
  FromUnknownable typ u path = (EvGetUnknown :: trace_of rest, outcome_of rest).
Proof.
  intros Hu. unfold FromUnknownable. rewrite Hu, bind_emit. cbv beta zeta.
  change (NewValue (TerraformType typ) RawUnknown)
    with (Ret (MkTfValue (Some (TerraformType typ)) RawUnknown)).
  by rewrite bind_lift_Ret.
Qed.

(** C3. The states null and unknown exclude each other.  Every event of
    NewUnknownable is a call of SetUnknown on the fresh receiver whose flag
    is true iff the raw value is not known, and that call is made whenever
    the method exists; when it reports no error the receiver after the call
    is returned.  The same holds of NewNullable with SetNull and a flag
    that is true iff the raw value is null.  Neither converter calls
    SetValue.  FromUnknownable on a hook whose unknown flag is set never
    calls GetValue, hands only the unknown raw value to the type, and
    returns what ValueFromTerraform makes of it when validation passes. *)
Theorem null_and_unknown_not_conflated `{Env} (typ : AttrType) (val : TfValue)
    (target : RValue) (opts : Options) (path : Path) :
  let receiver := pointerSafeZeroValue target in
  let unknownValue := MkTfValue (Some (TerraformType typ)) RawUnknown in
  (IsNull val = true -> IsKnown val = true) /\
  (forall e, In e (trace_of (NewUnknownable typ val target opts path)) ->
     exists b, e = EvSetUnknown receiver b /\ (b = true <-> IsKnown val = false)) /\
  (forall method, method_SetUnknown (rtype receiver) = Some method ->
     trace_of (NewUnknownable typ val target opts path)
       = [EvSetUnknown receiver (negb (IsKnown val))] /\
     (snd (method receiver (negb (IsKnown val))) = ResNil ->
      outcome_of (NewUnknownable typ val target opts path)
        = Ret (fst (method receiver (negb (IsKnown val))), []))) /\
  (forall e, In e (trace_of (NewNullable typ val target opts path)) ->
     exists b, e = EvSetNull receiver b /\ (b = true <-> IsNull val = true)) /\
  (forall method, method_SetNull (rtype receiver) = Some method ->
     trace_of (NewNullable typ val target opts path) = [EvSetNull receiver (IsNull val)] /\
     (snd (method receiver (IsNull val)) = ResNil ->
      outcome_of (NewNullable typ val target opts path)
        = Ret (fst (method receiver (IsNull val)), []))) /\
  existsb is_SetValue (trace_of (NewUnknownable typ val target opts path)) = false /\
  existsb is_SetValue (trace_of (NewNullable typ val target opts path)) = false /\
  (forall u : Unknownable, GetUnknown u = true ->
     existsb is_GetValue (trace_of (FromUnknownable typ u path)) = false /\
     (forall e, In e (trace_of (FromUnknownable typ u path)) ->
        e = EvGetUnknown \/ e = EvValidate typ unknownValue path \/
        e = EvValueFromTerraform typ unknownValue) /\
     (forall res,
        (forall validate, Validate typ = Some validate ->
           HasError (validate unknownValue path) = false) ->
        ValueFromTerraform typ unknownValue = (res, None) ->
        outcome_of (FromUnknownable typ u path) = Ret (res, []))).
Proof.
  intros receiver unknownValue.
  assert (Hflag : negb (IsKnown val) = true <-> IsKnown val = false)
    by (destruct (IsKnown val); simpl; split; congruence).
  split; [apply null_is_known|].
  split; [|split; [|split; [|split; [|split; [|split]]]]].
  - unfold NewUnknownable. fold receiver.
    destruct (method_SetUnknown (rtype receiver)) as [method|]; [|intros e []].
    rewrite bind_emit. destruct (method receiver (negb (IsKnown val))) as [r []];
      simpl; intros ev [<-|[]]; eauto.
  - intros method Hm. unfold NewUnknownable. fold receiver. rewrite Hm, bind_emit.
    destruct (method receiver (negb (IsKnown val))) as [r []]; simpl; split; try done.
  - unfold NewNullable. fold receiver.
    destruct (method_SetNull (rtype receiver)) as [method|]; [|intros e []].
    rewrite bind_emit. destruct (method receiver (IsNull val)) as [r []];
      simpl; intros ev [<-|[]]; eauto.
  - intros method Hm. unfold NewNullable. fold receiver. rewrite Hm, bind_emit.
    destruct (method receiver (IsNull val)) as [r []]; simpl; split; try done.
  - unfold NewUnknownable. fold receiver.
    destruct (method_SetUnknown (rtype receiver)) as [method|]; [|done].
    rewrite bind_emit. by destruct (method receiver (negb (IsKnown val))) as [r []].
  - unfold NewNullable. fold receiver.
    destruct (method_SetNull (rtype receiver)) as [method|]; [|done].
    rewrite bind_emit. by destruct (method receiver (IsNull val)) as [r []].
  - intros u Hu. rewrite (FromUnknownable_unknown typ u path Hu). fold unknownValue.
    cbv zeta. unfold validateHook, callValueFromTerraform.
    destruct (Validate typ) as [validate|] eqn:Hv; simpl.
    + destruct (HasError (validate unknownValue path)) eqn:Herr; simpl.
      * split; [done|]. split; [intros e [<-|[<-|[]]]; eauto|].
        intros res Hok. by rewrite (Hok validate eq_refl) in Herr.
      * destruct (ValueFromTerraform typ unknownValue) as [res' [e'|]] eqn:Hvft; simpl.
        -- split; [done|]. split; [intros e [<-|[<-|[<-|[]]]]; eauto|].
           intros res _ [=].
        -- split; [done|]. split; [intros e [<-|[<-|[<-|[]]]]; eauto|].
           by intros res _ [= ->].
    + destruct (ValueFromTerraform typ unknownValue) as [res' [e'|]] eqn:Hvft; simpl.
      * split; [done|]. split; [intros e [<-|[<-|[]]]; eauto|].
        intros res _ [=].
      * split; [done|]. split; [intros e [<-|[<-|[]]]; eauto|].
        by intros res _ [= ->].
Qed.

(** On the hooked leaf of the fixtures: an unknown raw value sets the
    unknown flag and not the null flag, a null raw value the null flag and
    not the unknown flag. *)
Lemma null_and_unknown_not_conflated_witness :
  let unknownRaw := MkTfValue (Some TfString) RawUnknown in
  let nullRaw := MkTfValue (Some TfString) RawNil in
  let target := VZero (TPtr Fixtures.hookString) in
  (exists r, outcome_of (NewUnknownable (H := Fixtures.testEnv) Fixtures.StringType
                           unknownRaw target tt []) = Ret (r, [])
             /\ Fixtures.hookGetUnknown r = true) /\
  (exists r, outcome_of (NewNullable (H := Fixtures.testEnv) Fixtures.StringType
                           unknownRaw target tt []) = Ret (r, [])
             /\ Fixtures.hookGetNull r = false) /\
  (exists r, outcome_of (NewUnknownable (H := Fixtures.testEnv) Fixtures.StringType
                           nullRaw target tt []) = Ret (r, [])
             /\ Fixtures.hookGetUnknown r = false) /\
  (exists r, outcome_of (NewNullable (H := Fixtures.testEnv) Fixtures.StringType
                           nullRaw target tt []) = Ret (r, [])
             /\ Fixtures.hookGetNull r = true).
Proof.
  intros unknownRaw nullRaw target.
  pose proof (null_and_unknown_not_conflated (H := Fixtures.testEnv) Fixtures.StringType
                unknownRaw target tt []) as (_ & _ & Hu1 & _ & Hn1 & _).
  pose proof (null_and_unknown_not_conflated (H := Fixtures.testEnv) Fixtures.StringType
                nullRaw target tt []) as (_ & _ & Hu2 & _ & Hn2 & _).
  cbv zeta in Hu1, Hn1, Hu2, Hn2.
  destruct (Hu1 _ eq_refl) as [_ Hu1']. destruct (Hn1 _ eq_refl) as [_ Hn1'].
  destruct (Hu2 _ eq_refl) as [_ Hu2']. destruct (Hn2 _ eq_refl) as [_ Hn2'].
  split; [|split; [|split]].
  - eexists. split; [apply Hu1'; reflexivity|reflexivity].
  - eexists. split; [apply Hn1'; reflexivity|reflexivity].
  - eexists. split; [apply Hu2'; reflexivity|reflexivity].
  - eexists. split; [apply Hn2'; reflexivity|reflexivity].
Defined.

(** ** NewAttributeValue and FromAttributeValue *)

Lemma validateHook_run (typ : AttrType) (val : TfValue) (path : Path) (diags : Diagnostics) :
  validateHook typ val path diags =
    (validateTrace typ val path,
     Ret (diags ++ validateDiags typ val path,
          match Validate typ with
          | Some _ => HasError (diags ++ validateDiags typ val path)
          | None => false
          end)).
Proof.
  unfold validateHook, validateTrace, validateDiags.
  destruct (Validate typ); simpl; [done|]. by rewrite app_nil_r.
Qed.

(** Every run of NewAttributeValue, branch by branch. *)
Lemma NewAttributeValue_run `{Env} (typ : AttrType) (val : TfValue) (target : RValue)
    (opts : Options) (path : Path) :
  let vdiags := validateDiags typ val path in
  let vtrace := validateTrace typ val path in
  NewAttributeValue typ val target opts path =
    if HasError vdiags then (vtrace, Ret (target, vdiags))
    else
      match ValueFromTerraform typ val with
      | (_, Some err) =>
          (vtrace ++ [EvValueFromTerraform typ val],
           Ret (target, vdiags ++ [valueFromTerraformErrorDiag err path]))
      | (res, None) =>
          if bool_decide (TypeOf res ≠ Some (rtype target)) then
            (vtrace ++ [EvValueFromTerraform typ val],
             Ret (target, vdiags ++
                    [DiagNewAttributeValueIntoWrongType (TypeOf res) (rtype target) typ path]))
          else (vtrace ++ [EvValueFromTerraform typ val], Ret (ValueOf res, vdiags))
      end.
Proof.
  unfold NewAttributeValue, validateHook, validateDiags, validateTrace,
    callValueFromTerraform.
  destruct (Validate typ) as [validate|]; simpl.
  - destruct (HasError (validate val path)); simpl; [done|].
    destruct (ValueFromTerraform typ val) as [res [err|]]; simpl; [done|].
    by destruct (bool_decide (TypeOf res ≠ Some (rtype target))).
  - destruct (ValueFromTerraform typ val) as [res [err|]]; simpl; [done|].
    by destruct (bool_decide (TypeOf res ≠ Some (rtype target))).
Qed.

(** C4. When validation passes and ValueFromTerraform produces a value
    whose Go type is not the type of the target, NewAttributeValue returns
    the target it was given, and the last diagnostic is the error
    DiagNewAttributeValueIntoWrongType carrying the path.  In no run is the
    produced value coerced: a returned value other than the target is the
    produced value itself, and its type is the target's type. *)
Theorem NewAttributeValue_wrong_type `{Env} (typ : AttrType) (val : TfValue)
    (target : RValue) (opts : Options) (path : Path) :
  (forall res,
     HasError (validateDiags typ val path) = false ->
     ValueFromTerraform typ val = (res, None) ->
     TypeOf res <> Some (rtype target) ->
     exists d,
       d = DiagNewAttributeValueIntoWrongType (TypeOf res) (rtype target) typ path /\
       diag_Severity d = SeverityError /\ diag_Path d = Some path /\
       outcome_of (NewAttributeValue typ val target opts path)
         = Ret (target, validateDiags typ val path ++ [d])) /\
  (forall r diags,
     outcome_of (NewAttributeValue typ val target opts path) = Ret (r, diags) ->
     r = target \/
     (exists v, ValueFromTerraform typ val = (Some v, None) /\ r = value_repr v /\
                rtype r = rtype target)).
Proof.
  rewrite NewAttributeValue_run. cbv zeta. split.
  - intros res Hok Hvft Hne. rewrite Hok, Hvft.
    rewrite bool_decide_eq_true_2; [|done]. eauto.
  - intros r diags.
    destruct (HasError (validateDiags typ val path)); simpl; [intros [= <- _]; by left|].
    destruct (ValueFromTerraform typ val) as [res [err|]]; simpl; [intros [= <- _]; by left|].
    case_bool_decide as Hty; simpl; [intros [= <- _]; by left|].
    intros [= <- _]. right.
    destruct res as [v|]; [|discriminate]. exists v. split; [done|]. split; [done|].
    simpl in Hty. by injection Hty.
Qed.

Lemma NewAttributeValue_wrong_type_witness :
  outcome_of (NewAttributeValue (H := Fixtures.testEnv) Fixtures.ConfusedType
                (Fixtures.tfString "x") (VZero Fixtures.typesString) tt
                [AttributeName "name"])
  = Ret (VZero Fixtures.typesString,
         [DiagNewAttributeValueIntoWrongType (Some Fixtures.typesBool) Fixtures.typesString
            Fixtures.ConfusedType [AttributeName "name"]]).
Proof.
  destruct (NewAttributeValue_wrong_type (H := Fixtures.testEnv) Fixtures.ConfusedType
              (Fixtures.tfString "x") (VZero Fixtures.typesString) tt
              [AttributeName "name"]) as [Hwrong _].
  destruct (Hwrong (Some (Fixtures.boolValue true)) eq_refl eq_refl) as (d & -> & _ & _ & Hout).
  - simpl. discriminate.
  - exact Hout.
Defined.

(** Whenever FromAttributeValue returns, it returns the value it was
    given, and it adds diagnostics only through the validation block. *)
Lemma FromAttributeValue_returns_its_argument `{Env} (typ : AttrType) (val : AttrValue)
    (path : Path) (res : option AttrValue) (diags : Diagnostics) :
  outcome_of (FromAttributeValue typ val path) = Ret (res, diags) ->
  res = Some val /\
  (diags <> [] ->
   exists validate, Validate typ = Some validate /\
     (is_Some (snd (ToTerraformValue val)) \/
      exists raw, diags = validate raw path)).
Proof.
  unfold FromAttributeValue, callToTerraformValue.
  destruct (Validate typ) as [validate|]; simpl; [|intros [= <- <-]; by split].
  destruct (ToTerraformValue val) as [raw [err|]]; simpl.
  - intros [= <- <-]. split; [done|]. intros _. exists validate. split; [done|]. left. eauto.
  - destruct (NewValue (TerraformType typ) raw) as [tfVal|msg]; simpl; [|discriminate].
    destruct (HasError (validate tfVal path)); simpl;
      intros [= <- <-]; (split; [done|]); intros _; exists validate; eauto.
Qed.

(** C10 (the code falls short of it). For a type with the validation hook,
    a value whose payload does not pass ValidateValue for the raw shape of
    that type makes FromAttributeValue panic in [tftypes.NewValue], right
    after ToTerraformValue: nothing is returned, neither the value nor
    diagnostics.  The other From converters call ValidateValue before
    NewValue; this one does not. *)
Theorem FromAttributeValue_panics_on_misfit `{Env} (typ : AttrType) (val : AttrValue)
    (path : Path) (validate : TfValue -> Path -> list Diagnostic) (raw : Raw)
    (err : GoError) :
  Validate typ = Some validate ->
  ToTerraformValue val = (raw, None) ->
  ValidateValue (TerraformType typ) raw = Some err ->
  FromAttributeValue typ val path = ([EvToTerraformValue val], Panic err).
Proof.
  intros Hv Hraw Hbad. unfold FromAttributeValue, callToTerraformValue.
  rewrite Hv, Hraw. simpl. by rewrite (NewValue_invalid _ _ _ Hbad).
Qed.

Lemma FromAttributeValue_panics_on_misfit_witness :
  FromAttributeValue (H := Fixtures.testEnv) Fixtures.StringTypeWithValidateWarning
    (Fixtures.boolValue true) [AttributeName "name"]
  = ([EvToTerraformValue (Fixtures.boolValue true)],
     Panic "tftypes.NewValue can't use the value as a tftypes.String").
Proof.
  apply (FromAttributeValue_panics_on_misfit (H := Fixtures.testEnv)
           Fixtures.StringTypeWithValidateWarning (Fixtures.boolValue true)
           [AttributeName "name"] Fixtures.warningValidate (RawBool true));
    reflexivity.
Defined.

(** ** FromMap *)

Lemma bind_ext {A B} (m : M A) (f g : A -> M B) :
  (forall a, f a = g a) -> bind m f = bind m g.
Proof. intros Hfg. destruct m as [tr [a|msg]]; [|done]. unfold bind. by rewrite Hfg. Qed.

Lemma bind_run {A B} (tr : Trace) (a : A) (f : A -> M B) :
  bind (tr, Ret a) f = (tr ++ trace_of (f a), outcome_of (f a)).
Proof. unfold bind, trace_of, outcome_of. by destruct (f a). Qed.

Lemma bind_panic {A B} (tr : Trace) (msg : string) (f : A -> M B) :
  bind (tr, Panic msg) f = (tr, Panic msg).
Proof. reflexivity. Qed.

Lemma callToTerraformValue_run (val : AttrValue) :
  callToTerraformValue val = ([EvToTerraformValue val], Ret (ToTerraformValue val)).
Proof. reflexivity. Qed.

Lemma callValueFromTerraform_run (typ : AttrType) (val : TfValue) :
  callValueFromTerraform typ val
    = ([EvValueFromTerraform typ val], Ret (ValueFromTerraform typ val)).
Proof. reflexivity. Qed.

(** One turn of the loop of FromMap, by the verdict on the entry. *)
Lemma FromMap_body_verdict `{Env} (typ elemType : AttrType) (path : Path)
    (entry : RValue * RValue) (tfElems : list (string * TfValue)) (diags : Diagnostics) :
  HasError diags = false ->
  match element_verdict typ elemType path entry with
  | Converts =>
      exists tr tfElems' more,
        FromMap_body typ elemType path entry tfElems diags
          = (tr, Ret (inr (tfElems', diags ++ more))) /\
        HasError more = false /\ no_ValueFromTerraform tr
  | Aborts =>
      exists tr more,
        FromMap_body typ elemType path entry tfElems diags
          = (tr, Ret (inl (None, diags ++ more))) /\
        HasError more = true /\ no_ValueFromTerraform tr
  | Panics =>
      exists tr msg,
        FromMap_body typ elemType path entry tfElems diags = (tr, Panic msg) /\
        no_ValueFromTerraform tr
  end.
Proof.
  intros Hclean. destruct entry as [key elem].
  unfold element_verdict, FromMap_body, no_ValueFromTerraform.
  case_bool_decide as Hkey.
  { eexists _, [_]. split; [reflexivity|]. by split. }
  rewrite bind_emit.
  destruct (FromValue elemType elem (WithElementKeyString path (Value_String key)))
    as [val valDiags].
  cbv beta iota zeta. unfold Append. rewrite HasError_app, Hclean, orb_false_l.
  destruct (HasError valDiags) eqn:HvalDiags.
  { eexists _, valDiags. split; [reflexivity|]. by split. }
  destruct val as [val|]; [|by eexists _, _].
  rewrite callToTerraformValue_run, bind_run.
  destruct (ToTerraformValue val) as [raw [err|]].
  { eexists _, (valDiags ++ [_]). rewrite app_assoc. split; [reflexivity|].
    split; [|done]. rewrite HasError_app. apply orb_true_r. }
  destruct (ValidateValue (TerraformType elemType) raw) as [err|] eqn:Hshape.
  { eexists _, (valDiags ++ [_]). rewrite app_assoc. split; [reflexivity|].
    split; [|done]. rewrite HasError_app. apply orb_true_r. }
  rewrite (NewValue_valid _ _ Hshape), bind_lift_Ret, validateHook_run, bind_run.
  unfold validateTrace, validateDiags.
  destruct (Validate typ) as [validate|].
  - rewrite !HasError_app, Hclean, HvalDiags. cbv beta iota zeta.
    destruct (HasError (validate _ _)) eqn:Hhook.
    + eexists _, (valDiags ++ validate _ _). rewrite app_assoc. split; [reflexivity|].
      split; [|done]. rewrite HasError_app, Hhook. apply orb_true_r.
    + eexists _, _, (valDiags ++ validate _ _). rewrite app_assoc. split; [reflexivity|].
      split; [|done]. by rewrite HasError_app, Hhook, HvalDiags.
  - rewrite (app_nil_r (diags ++ valDiags)).
    eexists _, _, valDiags. split; [reflexivity|]. by split.
Qed.

Lemma no_ValueFromTerraform_app (tr1 tr2 : Trace) :
  no_ValueFromTerraform (tr1 ++ tr2) <->
  no_ValueFromTerraform tr1 /\ no_ValueFromTerraform tr2.
Proof. unfold no_ValueFromTerraform. rewrite existsb_app. apply orb_false_iff. Qed.

Lemma FromMap_range_app `{Env} (typ elemType : AttrType) (path : Path)
    (pre suf : list (RValue * RValue)) (tfElems : list (string * TfValue))
    (diags : Diagnostics) :
  FromMap_range typ elemType path (pre ++ suf) tfElems diags =
    bind (FromMap_range typ elemType path pre tfElems diags) (fun turn =>
      match turn with
      | inl returned => ret (inl returned)
      | inr (tfElems, diags) => FromMap_range typ elemType path suf tfElems diags
      end).
Proof.
  revert tfElems diags. induction pre as [|entry pre IH]; intros tfElems diags.
  - cbn [app FromMap_range]. by rewrite bind_ret.
  - cbn [app FromMap_range]. rewrite bind_assoc. apply bind_ext.
    intros [returned|[tfElems' diags']]; [by rewrite bind_ret|apply IH].
Qed.

(** While every entry converts, the loop goes on. *)
Lemma FromMap_range_converts `{Env} (typ elemType : AttrType) (path : Path)
    (entries : list (RValue * RValue)) (tfElems : list (string * TfValue))
    (diags : Diagnostics) :
  HasError diags = false ->
  Forall (fun e => element_verdict typ elemType path e = Converts) entries ->
  exists tr tfElems' more,
    FromMap_range typ elemType path entries tfElems diags
      = (tr, Ret (inr (tfElems', diags ++ more))) /\
    HasError more = false /\ no_ValueFromTerraform tr.
Proof.
  intros Hclean Hall. revert tfElems diags Hclean.
  induction Hall as [|entry rest Hentry _ IH]; intros tfElems diags Hclean.
  - exists [], tfElems, []. by rewrite app_nil_r.
  - pose proof (FromMap_body_verdict typ elemType path entry tfElems diags Hclean) as Hbody.
    rewrite Hentry in Hbody. destruct Hbody as (tr1 & tfElems1 & more1 & Hbody & Hmore1 & Htr1).
    destruct (IH tfElems1 (diags ++ more1)) as (tr2 & tfElems2 & more2 & Hrest & Hmore2 & Htr2).
    { by rewrite HasError_app, Hclean, Hmore1. }
    exists (tr1 ++ tr2), tfElems2, (more1 ++ more2).
    cbn [FromMap_range]. rewrite Hbody, bind_run, Hrest. cbn [trace_of outcome_of fst snd].
    rewrite app_assoc. split; [done|]. split.
    + by rewrite HasError_app, Hmore1, Hmore2.
    + by apply no_ValueFromTerraform_app.
Qed.

(** The first entry that does not convert decides how the loop ends. *)
Lemma FromMap_range_aborts `{Env} (typ elemType : AttrType) (path : Path)
    (pre rest : list (RValue * RValue)) (entry : RValue * RValue) :
  Forall (fun e => element_verdict typ elemType path e = Converts) pre ->
  element_verdict typ elemType path entry = Aborts ->
  exists tr0 tfElems0 diags0 tr1 more,
    FromMap_range typ elemType path pre [] [] = (tr0, Ret (inr (tfElems0, diags0))) /\
    HasError diags0 = false /\
    FromMap_body typ elemType path entry tfElems0 diags0
      = (tr1, Ret (inl (None, diags0 ++ more))) /\
    HasError more = true /\
    FromMap_range typ elemType path (pre ++ entry :: rest) [] []
      = (tr0 ++ tr1, Ret (inl (None, diags0 ++ more))) /\
    no_ValueFromTerraform (tr0 ++ tr1).
Proof.
  intros Hpre Hentry.
  destruct (FromMap_range_converts typ elemType path pre [] [] eq_refl Hpre)
    as (tr0 & tfElems0 & diags0 & Hrun & Hdiags0 & Htr0).
  cbn [app] in Hrun.
  pose proof (FromMap_body_verdict typ elemType path entry tfElems0 diags0 Hdiags0) as Hbody.
  rewrite Hentry in Hbody. destruct Hbody as (tr1 & more & Hbody & Hmore & Htr1).
  exists tr0, tfElems0, diags0, tr1, more.
  split; [done|]. split; [done|]. split; [done|]. split; [done|]. split.
  - rewrite FromMap_range_app, Hrun, bind_run. cbn [FromMap_range].
    rewrite Hbody, bind_run. cbn [trace_of outcome_of fst snd ret].
    by rewrite app_nil_r.
  - by apply no_ValueFromTerraform_app.
Qed.

Lemma FromMap_range_panics `{Env} (typ elemType : AttrType) (path : Path)
    (pre rest : list (RValue * RValue)) (entry : RValue * RValue) :
  Forall (fun e => element_verdict typ elemType path e = Converts) pre ->
  element_verdict typ elemType path entry = Panics ->
  exists tr msg,
    FromMap_range typ elemType path (pre ++ entry :: rest) [] [] = (tr, Panic msg).
Proof.
  intros Hpre Hentry.
  destruct (FromMap_range_converts typ elemType path pre [] [] eq_refl Hpre)
    as (tr0 & tfElems0 & diags0 & Hrun & Hdiags0 & Htr0).
  cbn [app] in Hrun.
  pose proof (FromMap_body_verdict typ elemType path entry tfElems0 diags0 Hdiags0) as Hbody.
  rewrite Hentry in Hbody. destruct Hbody as (tr1 & msg & Hbody & Htr1).
  exists (tr0 ++ tr1), msg.
  rewrite FromMap_range_app, Hrun, bind_run. cbn [FromMap_range].
  by rewrite Hbody, bind_panic.
Qed.

(** Either all the elements of a list pass a test, or there is a first one
    that does not. *)
Lemma first_failure {A} (P : A -> Prop) `{!forall x, Decision (P x)} (l : list A) :
  Forall P l \/
  exists pre x rest, l = pre ++ x :: rest /\ Forall P pre /\ ~ P x.
Proof.
  induction l as [|x l IH]; [by left|].
  destruct (decide (P x)) as [Hx|Hx].
  - destruct IH as [Hall|(pre & y & rest & -> & Hpre & Hy)].
    + left. by constructor.
    + right. exists (x :: pre), y, rest. split; [done|]. split; [by constructor|done].
  - right. exists [], x, l. by split.
Qed.

(** How the loop of FromMap ends, whatever the entries. *)
Lemma FromMap_range_outcome `{Env} (typ elemType : AttrType) (path : Path)
    (entries : list (RValue * RValue)) :
  (Forall (fun e => element_verdict typ elemType path e = Converts) entries /\
   exists tr tfElems diags,
     FromMap_range typ elemType path entries [] [] = (tr, Ret (inr (tfElems, diags))) /\
     HasError diags = false /\ no_ValueFromTerraform tr) \/
  (exists tr diags,
     FromMap_range typ elemType path entries [] [] = (tr, Ret (inl (None, diags))) /\
     HasError diags = true /\ no_ValueFromTerraform tr) \/
  (exists tr msg, FromMap_range typ elemType path entries [] [] = (tr, Panic msg)).
Proof.
  destruct (first_failure (fun e => element_verdict typ elemType path e = Converts) entries)
    as [Hall|(pre & entry & rest & -> & Hpre & Hentry)].
  - left. split; [done|].
    destruct (FromMap_range_converts typ elemType path entries [] [] eq_refl Hall)
      as (tr & tfElems & diags & Hrun & Hdiags & Htr). eauto 10.
  - right. destruct (element_verdict typ elemType path entry) eqn:Hverdict; [done| |].
    + left.
      destruct (FromMap_range_aborts typ elemType path pre rest entry Hpre Hverdict)
        as (tr0 & tfElems0 & diags0 & tr1 & more & _ & Hdiags0 & _ & Hmore & Hrun & Htr).
      exists (tr0 ++ tr1), (diags0 ++ more). split; [done|]. split; [|done].
      rewrite HasError_app, Hmore. apply orb_true_r.
    + right. apply (FromMap_range_panics typ elemType path pre rest entry Hpre Hverdict).
Qed.

(** FromMap on a map that is not nil: the loop, then what follows it. *)
Lemma FromMap_not_nil `{Env} (typ elemType : AttrType) (val : RValue) (path : Path)
    (entries : list (RValue * RValue)) :
  IsNil val = Ret false ->
  ElementType typ = Some elemType ->
  MapEntries val = Ret entries ->
  FromMap typ val path =
    bind (FromMap_range typ elemType path entries [] []) (fun turn =>
      match turn with
      | inl returned => ret returned
      | inr (tfElems, diags) => FromMap_finish typ path tfElems diags
      end).
Proof.
  intros Hnil Helem Hentries. unfold FromMap.
  by rewrite Hnil, bind_lift_Ret, Helem, Hentries, bind_lift_Ret.
Qed.

Lemma non_string_key_aborts `{Env} (typ elemType : AttrType) (path : Path)
    (key elem : RValue) :
  rkind key <> KString -> element_verdict typ elemType path (key, elem) = Aborts.
Proof. intros Hkey. unfold element_verdict. by rewrite bool_decide_eq_true_2. Qed.

(** C5. When the loop of FromMap meets a key whose kind is not String (the
    entries before it were converted), FromMap returns the nil Value, and
    the diagnostics are those gathered so far followed by one error
    diagnostic that carries the path of the map; ValueFromTerraform was not
    called, so no value was built for the map. *)
Theorem FromMap_non_string_key `{Env} (typ elemType : AttrType) (val : RValue)
    (path : Path) (pre rest : list (RValue * RValue)) (key elem : RValue) :
  IsNil val = Ret false ->
  ElementType typ = Some elemType ->
  MapEntries val = Ret (pre ++ (key, elem) :: rest) ->
  Forall (fun e => element_verdict typ elemType path e = Converts) pre ->
  rkind key <> KString ->
  let d := AttributeErrorDiagnostic path "Value Conversion Error"
             (unexpected "convert into a Terraform value"
                ("map keys must be strings, got " +:+ typeString (rtype key))) in
  exists tr tfElems diags,
    FromMap_range typ elemType path pre [] [] = (tr, Ret (inr (tfElems, diags))) /\
    FromMap typ val path = (tr, Ret (None, diags ++ [d])) /\
    HasError diags = false /\
    diag_Severity d = SeverityError /\ diag_Path d = Some path /\
    no_ValueFromTerraform tr.
Proof.
  intros Hnil Helem Hentries Hpre Hkey d.
  destruct (FromMap_range_converts typ elemType path pre [] [] eq_refl Hpre)
    as (tr & tfElems & diags & Hrun & Hdiags & Htr).
  cbn [app] in Hrun. exists tr, tfElems, diags.
  split; [done|]. split; [|done].
  rewrite (FromMap_not_nil typ elemType val path _ Hnil Helem Hentries).
  rewrite FromMap_range_app, Hrun, bind_run. cbn [FromMap_range].
  unfold FromMap_body. rewrite bool_decide_eq_true_2; [|done].
  rewrite !bind_ret. cbn [trace_of outcome_of fst snd ret].
  rewrite bind_run. cbn [trace_of outcome_of fst snd ret].
  by rewrite !app_nil_r.
Qed.

Lemma FromMap_non_string_key_witness :
  FromMap (H := Fixtures.testEnv) (Fixtures.MapType Fixtures.StringType)
    (VMap Fixtures.mapOfInt [(VInt (TBasic KInt) 1, Fixtures.goStr "x")])
    [AttributeName "tags"]
  = ([], Ret (None,
              [AttributeErrorDiagnostic [AttributeName "tags"] "Value Conversion Error"
                 (unexpected "convert into a Terraform value"
                    "map keys must be strings, got int")])).
Proof.
  destruct (FromMap_non_string_key (H := Fixtures.testEnv)
              (Fixtures.MapType Fixtures.StringType) Fixtures.StringType
              (VMap Fixtures.mapOfInt [(VInt (TBasic KInt) 1, Fixtures.goStr "x")])
              [AttributeName "tags"] [] [] (VInt (TBasic KInt) 1) (Fixtures.goStr "x")
              eq_refl eq_refl eq_refl (List.Forall_nil _))
    as (tr & tfElems & diags & Hrun & Hout & _).
  - discriminate.
  - injection Hrun as <- _ <-. exact Hout.
Defined.

(** C7. The conversion of an entry aborts when its key is not a string,
    when FromValue reports an error, when ToTerraformValue fails, when the
    payload does not pass ValidateValue, and when the validation hook
    reports an error.  The first entry (in the order of the iteration) that
    aborts makes FromMap return the nil Value, with the diagnostics
    gathered so far followed by diagnostics that hold an error, and without
    a call of ValueFromTerraform.  FromMap returns a Value that is not nil
    only if every entry was converted, that is, passed each of these
    steps without an error. *)
Theorem FromMap_element_error_aborts `{Env} (typ elemType : AttrType) (val : RValue)
    (path : Path) (entries : list (RValue * RValue)) :
  map_entries_of val entries ->
  ElementType typ = Some elemType ->
  (forall key elem res v valDiags raw err,
     let elemPath := WithElementKeyString path (Value_String key) in
     let tfElemVal := MkTfValue (Some (TerraformType elemType)) raw in
     rkind key <> KString \/
     (FromValue elemType elem elemPath = (res, valDiags) /\ HasError valDiags = true) \/
     (FromValue elemType elem elemPath = (Some v, valDiags) /\
      (snd (ToTerraformValue v) = Some err \/
       (ToTerraformValue v = (raw, None) /\
        (ValidateValue (TerraformType elemType) raw = Some err \/
         HasError (validateDiags typ tfElemVal elemPath) = true)))) ->
     element_verdict typ elemType path (key, elem) = Aborts) /\
  (forall pre entry rest,
     entries = pre ++ entry :: rest ->
     Forall (fun e => element_verdict typ elemType path e = Converts) pre ->
     element_verdict typ elemType path entry = Aborts ->
     exists tr0 tfElems0 diags0 tr more,
       FromMap_range typ elemType path pre [] [] = (tr0, Ret (inr (tfElems0, diags0))) /\
       FromMap typ val path = (tr, Ret (None, diags0 ++ more)) /\
       HasError more = true /\ no_ValueFromTerraform tr) /\
  (forall v diags,
     outcome_of (FromMap typ val path) = Ret (Some v, diags) ->
     Forall (fun e => element_verdict typ elemType path e = Converts) entries) /\
  (forall key elem,
     element_verdict typ elemType path (key, elem) = Converts ->
     let elemPath := WithElementKeyString path (Value_String key) in
     rkind key = KString /\
     exists v valDiags raw,
       FromValue elemType elem elemPath = (Some v, valDiags) /\
       HasError valDiags = false /\
       ToTerraformValue v = (raw, None) /\
       ValidateValue (TerraformType elemType) raw = None /\
       HasError (validateDiags typ (MkTfValue (Some (TerraformType elemType)) raw)
                   elemPath) = false).
Proof.
  intros [Hnil Hentries] Helem. split; [|split; [|split]].
  - intros key elem res v valDiags raw err elemPath tfElemVal Hcase.
    unfold element_verdict. case_bool_decide as Hkey; [done|].
    destruct Hcase as [Hk|[[Hfrom Herr]|[Hfrom Hcase]]]; [done| |].
    + fold elemPath. by rewrite Hfrom, Herr.
    + fold elemPath. rewrite Hfrom. destruct (HasError valDiags); [done|].
      destruct Hcase as [Hraw|[Hraw Hcase]].
      * destruct (ToTerraformValue v) as [raw' [err'|]]; [done|discriminate].
      * rewrite Hraw. destruct Hcase as [Hshape|Hhook]; [by rewrite Hshape|].
        destruct (ValidateValue (TerraformType elemType) raw); [done|].
        fold tfElemVal. by rewrite Hhook.
  - intros pre entry rest -> Hpre Hentry.
    destruct (FromMap_range_aborts typ elemType path pre rest entry Hpre Hentry)
      as (tr0 & tfElems0 & diags0 & tr1 & more & Hrun0 & _ & _ & Hmore & Hrun & Htr).
    exists tr0, tfElems0, diags0, (tr0 ++ tr1), more.
    split; [done|]. split; [|done].
    rewrite (FromMap_not_nil typ elemType val path _ Hnil Helem Hentries), Hrun, bind_run.
    cbn [trace_of outcome_of fst snd ret]. by rewrite app_nil_r.
  - intros v diags. rewrite (FromMap_not_nil typ elemType val path _ Hnil Helem Hentries).
    destruct (FromMap_range_outcome typ elemType path entries)
      as [[Hall _]|[(tr & ds & Hrun & _)|(tr & msg & Hrun)]]; [done| |].
    + rewrite Hrun, bind_run. cbn [trace_of outcome_of fst snd ret]. discriminate.
    + rewrite Hrun, bind_panic. discriminate.
  - intros key elem. unfold element_verdict. intros Hverdict.
    case_bool_decide as Hkey; [done|]. split; [done|].
    destruct (FromValue elemType elem _) as [[v|] valDiags]; cycle 1.
    { by destruct (HasError valDiags). }
    destruct (HasError valDiags) eqn:HvalDiags; [done|].
    destruct (ToTerraformValue v) as [raw [err|]] eqn:Hraw; [done|].
    destruct (ValidateValue (TerraformType elemType) raw) eqn:Hshape; [done|].
    destruct (HasError (validateDiags typ _ _)) eqn:Hhook; [done|].
    exists v, valDiags, raw. by repeat split.
Qed.

Lemma FromMap_element_error_aborts_witness :
  exists tr diags,
    FromMap (H := Fixtures.testEnv) (Fixtures.MapType Fixtures.StringType)
      (VMap Fixtures.mapOfString
         [(Fixtures.goStr "a", Fixtures.goStr "x");
          (Fixtures.goStr "b", VInt (TBasic KInt) 7);
          (Fixtures.goStr "c", Fixtures.goStr "z")])
      [AttributeName "tags"]
    = (tr, Ret (None, diags)) /\ HasError diags = true.
Proof.
  destruct (FromMap_element_error_aborts (H := Fixtures.testEnv)
              (Fixtures.MapType Fixtures.StringType) Fixtures.StringType
              (VMap Fixtures.mapOfString
                 [(Fixtures.goStr "a", Fixtures.goStr "x");
                  (Fixtures.goStr "b", VInt (TBasic KInt) 7);
                  (Fixtures.goStr "c", Fixtures.goStr "z")])
              [AttributeName "tags"] _ (conj eq_refl eq_refl) eq_refl)
    as (_ & Habort & _).
  destruct (Habort [(Fixtures.goStr "a", Fixtures.goStr "x")]
              (Fixtures.goStr "b", VInt (TBasic KInt) 7)
              [(Fixtures.goStr "c", Fixtures.goStr "z")] eq_refl)
    as (tr0 & tfElems0 & diags0 & tr & more & _ & Hout & Hmore & _).
  - constructor; [reflexivity|constructor].
  - reflexivity.
  - exists tr, (diags0 ++ more). split; [exact Hout|].
    rewrite HasError_app, Hmore. apply orb_true_r.
Defined.

(** *** Validation before materialization *)

Lemma validation_failed_nil (typ : AttrType) : ~ validation_failed typ [].
Proof. by intros (validate & raw & p & _ & [] & _). Qed.

Lemma validation_failed_app (typ : AttrType) (tr1 tr2 : Trace) :
  validation_failed typ (tr1 ++ tr2) ->
  validation_failed typ tr1 \/ validation_failed typ tr2.
Proof.
  intros (validate & raw & p & Hv & Hin & Herr).
  apply in_app_or in Hin as [Hin|Hin]; [left|right]; by exists validate, raw, p.
Qed.

Lemma validation_failed_none (typ : AttrType) (tr : Trace) :
  existsb is_Validate tr = false -> ~ validation_failed typ tr.
Proof.
  intros Htr (validate & raw & p & _ & Hin & _).
  assert (existsb is_Validate tr = true) as Hex; [|congruence].
  apply existsb_exists. by exists (EvValidate typ raw p).
Qed.

(** A failed validation among the events of the validation block and
    events that are no validations is the validation of the block. *)
Lemma validation_failed_hook (typ : AttrType) (val : TfValue) (path : Path)
    (before after : Trace) :
  existsb is_Validate before = false ->
  existsb is_Validate after = false ->
  validation_failed typ (before ++ validateTrace typ val path ++ after) ->
  HasError (validateDiags typ val path) = true.
Proof.
  intros Hbefore Hafter (validate & raw & p & Hv & Hin & Herr).
  assert (Hnot : forall tr, existsb is_Validate tr = false ->
                            ~ In (EvValidate typ raw p) tr).
  { intros tr Htr Hhere.
    assert (existsb is_Validate tr = true) as Hex; [|congruence].
    apply existsb_exists. by exists (EvValidate typ raw p). }
  apply in_app_or in Hin as [Hin|Hin]; [by apply Hnot in Hin|].
  apply in_app_or in Hin as [Hin|Hin]; [|by apply Hnot in Hin].
  unfold validateTrace, validateDiags in *. rewrite Hv in *.
  destruct Hin as [[= <- <-]|[]]. done.
Qed.

Lemma FromMap_body_validation `{Env} (typ elemType : AttrType) (path : Path)
    (entry : RValue * RValue) (tfElems : list (string * TfValue)) (diags : Diagnostics) :
  no_ValueFromTerraform (trace_of (FromMap_body typ elemType path entry tfElems diags)) /\
  (validation_failed typ (trace_of (FromMap_body typ elemType path entry tfElems diags)) ->
   exists ds,
     outcome_of (FromMap_body typ elemType path entry tfElems diags) = Ret (inl (None, ds)) /\
     HasError ds = true).
Proof.
  destruct entry as [key elem]. unfold FromMap_body, no_ValueFromTerraform.
  case_bool_decide as Hkey.
  { split; [done|]. intros Hfail. by apply validation_failed_nil in Hfail. }
  rewrite bind_emit.
  destruct (FromValue elemType elem (WithElementKeyString path (Value_String key)))
    as [val valDiags].
  cbv beta iota zeta.
  destruct (HasError (Append diags valDiags)) eqn:Hacc.
  { split; [done|]. intros Hfail. by apply validation_failed_none in Hfail. }
  destruct val as [val|].
  { rewrite callToTerraformValue_run, bind_run.
    destruct (ToTerraformValue val) as [raw [err|]].
    { split; [done|]. intros _. eexists. split; [reflexivity|].
      rewrite HasError_app. apply orb_true_r. }
    destruct (ValidateValue (TerraformType elemType) raw) as [err|] eqn:Hshape.
    { split; [done|]. intros _. eexists. split; [reflexivity|].
      rewrite HasError_app. apply orb_true_r. }
    rewrite (NewValue_valid _ _ Hshape), bind_lift_Ret, validateHook_run, bind_run.
    cbn [trace_of outcome_of fst snd].
    set (tfElemVal := MkTfValue _ raw).
    set (elemPath := WithElementKeyString path (Value_String key)).
    assert (Hstop : match Validate typ with
                    | Some _ => HasError (Append diags valDiags ++
                                          validateDiags typ tfElemVal elemPath)
                    | None => false
                    end = HasError (validateDiags typ tfElemVal elemPath)).
    { unfold validateDiags. destruct (Validate typ); [|done].
      by rewrite HasError_app, Hacc. }
    rewrite Hstop.
    destruct (HasError (validateDiags typ tfElemVal elemPath)) eqn:Hhook.
    - split.
      + unfold validateTrace. by destruct (Validate typ).
      + intros _. eexists. split; [reflexivity|]. rewrite HasError_app, Hhook.
        apply orb_true_r.
    - split.
      + unfold validateTrace. by destruct (Validate typ).
      + intros Hfail. exfalso.
        apply (validation_failed_hook typ tfElemVal elemPath
                 [EvFromValue elemType elem elemPath; EvToTerraformValue val] [])
          in Hfail; [congruence|done|done]. }
  split; [done|]. intros Hfail. by apply validation_failed_none in Hfail.
Qed.

Lemma FromMap_range_validation `{Env} (typ elemType : AttrType) (path : Path)
    (entries : list (RValue * RValue)) (tfElems : list (string * TfValue))
    (diags : Diagnostics) :
  no_ValueFromTerraform (trace_of (FromMap_range typ elemType path entries tfElems diags)) /\
  (validation_failed typ (trace_of (FromMap_range typ elemType path entries tfElems diags)) ->
   exists ds,
     outcome_of (FromMap_range typ elemType path entries tfElems diags)
       = Ret (inl (None, ds)) /\
     HasError ds = true).
Proof.
  revert tfElems diags. induction entries as [|entry rest IH]; intros tfElems diags.
  - split; [done|]. intros Hfail. by apply validation_failed_nil in Hfail.
  - cbn [FromMap_range].
    destruct (FromMap_body_validation typ elemType path entry tfElems diags) as [Hno Hval].
    destruct (FromMap_body typ elemType path entry tfElems diags) as [tr [turn|msg]].
    + rewrite bind_run. cbn [trace_of fst] in Hno, Hval. cbn [outcome_of snd] in Hval.
      destruct turn as [returned|[tfElems' diags']]; cbn [trace_of outcome_of fst snd ret].
      * rewrite app_nil_r. split; [done|]. intros Hfail.
        destruct (Hval Hfail) as (ds & [= ->] & Hds). eauto.
      * destruct (IH tfElems' diags') as [Hno' Hval'].
        split; [by apply no_ValueFromTerraform_app|].
        intros [Hfail|Hfail]%validation_failed_app; [|by apply Hval'].
        by destruct (Hval Hfail) as (ds & [=] & _).
    + rewrite bind_panic. cbn [trace_of outcome_of fst snd] in *.
      split; [done|]. intros Hfail. by destruct (Hval Hfail) as (ds & [=] & _).
Qed.

Lemma FromMap_finish_run `{Env} (typ : AttrType) (path : Path)
    (tfElems : list (string * TfValue)) (diags : Diagnostics) :
  HasError diags = false ->
  FromMap_finish typ path tfElems diags =
    match ValidateValue (TerraformType typ) (RawMap tfElems) with
    | Some err => ([], Ret (None, diags ++ [validateValueErrorDiag err path]))
    | None =>
        materialized typ (MkTfValue (Some (TerraformType typ)) (RawMap tfElems)) path diags
          "convert to map value"
    end.
Proof.
  intros Hclean. unfold FromMap_finish, materialized.
  destruct (ValidateValue (TerraformType typ) (RawMap tfElems)) eqn:Hshape; [done|].
  rewrite (NewValue_valid _ _ Hshape), bind_lift_Ret, validateHook_run, bind_run.
  rewrite callValueFromTerraform_run. unfold validateDiags, validateTrace.
  destruct (Validate typ) as [validate|]; cbn [trace_of outcome_of fst snd].
  - rewrite HasError_app, Hclean, orb_false_l.
    destruct (HasError (validate _ path)); [by rewrite app_nil_r|].
    rewrite bind_run.
    by destruct (ValueFromTerraform typ _) as [attrVal [err|]].
  - rewrite bind_run. cbn [HasError existsb].
    by destruct (ValueFromTerraform typ _) as [attrVal [err|]].
Qed.

Lemma FromMap_nil `{Env} (typ : AttrType) (val : RValue) (path : Path) :
  IsNil val = Ret true ->
  FromMap typ val path =
    materialized typ (MkTfValue (Some (TerraformType typ)) RawNil) path []
      "convert from map value".
Proof.
  intros Hnil. unfold FromMap, materialized. rewrite Hnil, bind_lift_Ret.
  change (NewValue (TerraformType typ) RawNil)
    with (Ret (MkTfValue (Some (TerraformType typ)) RawNil)).
  rewrite bind_lift_Ret, validateHook_run, bind_run, callValueFromTerraform_run.
  unfold validateDiags, validateTrace.
  destruct (Validate typ) as [validate|]; cbn [trace_of outcome_of fst snd app].
  - destruct (HasError (validate _ path)); [by rewrite ?app_nil_r|].
    rewrite bind_run.
    by destruct (ValueFromTerraform typ _) as [attrVal [err|]].
  - rewrite bind_run. cbn [HasError existsb].
    by destruct (ValueFromTerraform typ _) as [attrVal [err|]].
Qed.

Lemma no_ValueFromTerraform_validateTrace (typ : AttrType) (val : TfValue) (path : Path) :
  no_ValueFromTerraform (validateTrace typ val path).
Proof. unfold validateTrace. by destruct (Validate typ). Qed.

Lemma no_ValueFromTerraform_lookup (tr : Trace) (i : nat) (typ : AttrType) (raw : TfValue) :
  no_ValueFromTerraform tr -> tr !! i <> Some (EvValueFromTerraform typ raw).
Proof.
  intros Hno Hi. assert (existsb is_ValueFromTerraform tr = true) as Hex; [|congruence].
  apply existsb_exists. exists (EvValueFromTerraform typ raw). split; [|done].
  apply list_elem_of_In. by eapply list_elem_of_lookup_2.
Qed.

Lemma validated_without_construction (typ : AttrType) (tr : Trace) :
  no_ValueFromTerraform tr -> validated_before_materialized typ tr.
Proof.
  intros Hno validate i raw _ Hi. by apply no_ValueFromTerraform_lookup in Hi.
Qed.

Lemma validated_then_constructed (typ : AttrType) (val : TfValue) (path : Path)
    (before : Trace) :
  no_ValueFromTerraform before ->
  HasError (validateDiags typ val path) = false ->
  validated_before_materialized typ
    (before ++ validateTrace typ val path ++ [EvValueFromTerraform typ val]).
Proof.
  intros Hno Hok validate i raw Hv Hi.
  unfold validateTrace, validateDiags in *. rewrite Hv in *.
  apply lookup_app_Some in Hi as [Hi|[Hlen Hi]];
    [by apply no_ValueFromTerraform_lookup in Hi|].
  destruct (i - length before) as [|[|k]] eqn:Hk; simpl in Hi; [done| |done].
  injection Hi as <-. exists (length before), path. split; [lia|]. split; [|done].
  by apply (list_lookup_middle before [EvValueFromTerraform typ val]).
Qed.

Lemma materialized_validation (typ : AttrType) (val : TfValue) (path : Path)
    (diags : Diagnostics) (what : string) (before : Trace) :
  no_ValueFromTerraform before ->
  validated_before_materialized typ
    (before ++ trace_of (materialized typ val path diags what)) /\
  (validation_failed typ (trace_of (materialized typ val path diags what)) ->
   exists ds,
     outcome_of (materialized typ val path diags what) = Ret (None, ds) /\
     HasError ds = true /\
     no_ValueFromTerraform (trace_of (materialized typ val path diags what))).
Proof.
  intros Hno. unfold materialized.
  destruct (HasError (validateDiags typ val path)) eqn:Hhook.
  - cbn [trace_of outcome_of fst snd]. split.
    + apply validated_without_construction, no_ValueFromTerraform_app.
      split; [done|apply no_ValueFromTerraform_validateTrace].
    + intros _. eexists. split; [reflexivity|]. split.
      * rewrite HasError_app, Hhook. apply orb_true_r.
      * apply no_ValueFromTerraform_validateTrace.
  - assert (Hnofail : ~ validation_failed typ
                        (validateTrace typ val path ++ [EvValueFromTerraform typ val])).
    { intros Hfail.
      apply (validation_failed_hook typ val path [] [EvValueFromTerraform typ val])
        in Hfail; [congruence|done|done]. }
    destruct (ValueFromTerraform typ val) as [attrVal [err|]];
      cbn [trace_of outcome_of fst snd]; (split; [by apply validated_then_constructed|done]).
Qed.

(** C6. NewAttributeValue runs the validation hook of the type first, on
    the raw value and path it was given; when the hook reports an error,
    the validation is the only event and the target comes back with the
    hook's diagnostics.  In every run of NewAttributeValue and of FromMap,
    a validation that reports an error ends the run without a call of
    ValueFromTerraform (NewAttributeValue returns the target, FromMap the
    nil Value, both with diagnostics that hold an error), and every call of
    ValueFromTerraform comes after a validation of the same raw value that
    reported no error. *)
Theorem validation_short_circuits `{Env} (typ : AttrType) (val : TfValue)
    (target : RValue) (opts : Options) (path : Path) (mapVal : RValue) (mapPath : Path) :
  (forall validate, Validate typ = Some validate ->
     exists tr, trace_of (NewAttributeValue typ val target opts path)
                = EvValidate typ val path :: tr) /\
  (forall validate, Validate typ = Some validate ->
     HasError (validate val path) = true ->
     NewAttributeValue typ val target opts path
       = ([EvValidate typ val path], Ret (target, validate val path))) /\
  (validation_failed typ (trace_of (NewAttributeValue typ val target opts path)) ->
   exists diags,
     outcome_of (NewAttributeValue typ val target opts path) = Ret (target, diags) /\
     HasError diags = true /\
     no_ValueFromTerraform (trace_of (NewAttributeValue typ val target opts path))) /\
  validated_before_materialized typ
    (trace_of (NewAttributeValue typ val target opts path)) /\
  (validation_failed typ (trace_of (FromMap typ mapVal mapPath)) ->
   exists diags,
     outcome_of (FromMap typ mapVal mapPath) = Ret (None, diags) /\
     HasError diags = true /\
     no_ValueFromTerraform (trace_of (FromMap typ mapVal mapPath))) /\
  validated_before_materialized typ (trace_of (FromMap typ mapVal mapPath)).
Proof.
  split; [|split; [|split; [|split]]].
  - intros validate Hv. rewrite NewAttributeValue_run. cbv zeta.
    unfold validateTrace. rewrite Hv.
    destruct (HasError (validateDiags typ val path)); [by eexists|].
    destruct (ValueFromTerraform typ val) as [res [err|]]; [by eexists|].
    case_bool_decide; by eexists.
  - intros validate Hv Herr. rewrite NewAttributeValue_run. cbv zeta.
    unfold validateTrace, validateDiags. by rewrite Hv, Herr.
  - rewrite NewAttributeValue_run. cbv zeta.
    destruct (HasError (validateDiags typ val path)) eqn:Hhook.
    + intros _. eexists. split; [reflexivity|]. split; [done|].
      apply no_ValueFromTerraform_validateTrace.
    + assert (Hnofail : ~ validation_failed typ
                          (validateTrace typ val path ++ [EvValueFromTerraform typ val])).
      { intros Hfail.
        apply (validation_failed_hook typ val path [] [EvValueFromTerraform typ val])
          in Hfail; [congruence|done|done]. }
      destruct (ValueFromTerraform typ val) as [res [err|]]; [done|].
      by case_bool_decide.
  - rewrite NewAttributeValue_run. cbv zeta.
    destruct (HasError (validateDiags typ val path)) eqn:Hhook.
    + apply validated_without_construction, no_ValueFromTerraform_validateTrace.
    + pose proof (validated_then_constructed typ val path [] eq_refl Hhook) as Hok.
      destruct (ValueFromTerraform typ val) as [res [err|]]; [done|].
      by case_bool_decide.
  - assert (Hpanic : forall msg,
              (validation_failed typ (trace_of (([], Panic msg) :
                                                  M (option AttrValue * Diagnostics))) ->
               exists diags,
                 outcome_of (([], Panic msg) : M (option AttrValue * Diagnostics))
                   = Ret (None, diags) /\
                 HasError diags = true /\ no_ValueFromTerraform []) /\
              validated_before_materialized typ [])
      by (intros msg; split;
            [intros Hfail; by apply validation_failed_nil in Hfail
            |by apply validated_without_construction]).
    destruct (IsNil mapVal) as [[|]|msg] eqn:Hnil.
    + rewrite (FromMap_nil typ mapVal mapPath Hnil).
      destruct (materialized_validation typ (MkTfValue (Some (TerraformType typ)) RawNil)
                  mapPath [] "convert from map value" [] eq_refl) as [Hvbm Hfail].
      by split.
    + destruct (ElementType typ) as [elemType|] eqn:Helem.
      2:{ unfold FromMap. rewrite Hnil, bind_lift_Ret, Helem. apply Hpanic. }
      destruct (MapEntries mapVal) as [entries|msg] eqn:Hentries.
      2:{ unfold FromMap. rewrite Hnil, bind_lift_Ret, Helem, Hentries. apply Hpanic. }
      rewrite (FromMap_not_nil typ elemType mapVal mapPath entries Hnil Helem Hentries).
      destruct (FromMap_range_validation typ elemType mapPath entries [] [])
        as [Hrange_no Hrange_fail].
      destruct (FromMap_range_outcome typ elemType mapPath entries)
        as [[_ (tr & tfElems & diags & Hrun & Hclean & Htr)]
           |[(tr & diags & Hrun & Hdiags & Htr)|(tr & msg & Hrun)]];
        rewrite Hrun in *; cbn [trace_of outcome_of fst snd] in *.
      * rewrite bind_run, (FromMap_finish_run typ mapPath tfElems diags Hclean).
        assert (Hnot : ~ validation_failed typ tr)
          by (intros Hfail; by destruct (Hrange_fail Hfail) as (ds & [=] & _)).
        destruct (ValidateValue (TerraformType typ) (RawMap tfElems)) as [err|].
        -- cbn [trace_of outcome_of fst snd]. rewrite app_nil_r.
           split; [done|by apply validated_without_construction].
        -- destruct (materialized_validation typ
                       (MkTfValue (Some (TerraformType typ)) (RawMap tfElems))
                       mapPath diags "convert to map value" tr Htr) as [Hvbm Hfail].
           split; [|done].
           intros [Hhere|Hhere]%validation_failed_app; [done|].
           destruct (Hfail Hhere) as (ds & Hout & Hds & Hno).
           exists ds. split; [done|]. split; [done|].
           by apply no_ValueFromTerraform_app.
      * rewrite bind_run. cbn [trace_of outcome_of fst snd ret]. rewrite app_nil_r.
        split; [eauto|by apply validated_without_construction].
      * rewrite bind_panic. cbn [trace_of outcome_of fst snd].
        split; [|by apply validated_without_construction].
        intros Hfail. by destruct (Hrange_fail Hfail) as (ds & [=] & _).
    + unfold FromMap. rewrite Hnil. apply Hpanic.
Qed.

Lemma validation_short_circuits_witness :
  NewAttributeValue (H := Fixtures.testEnv) Fixtures.StringTypeWithValidateError
    (Fixtures.tfString "x") (VZero Fixtures.typesString) tt [AttributeName "name"]
  = ([EvValidate Fixtures.StringTypeWithValidateError (Fixtures.tfString "x")
        [AttributeName "name"]],
     Ret (VZero Fixtures.typesString,
          [AttributeErrorDiagnostic [AttributeName "name"] "Error Diagnostic"
             "This is an error."])) /\
  exists diags,
    outcome_of (FromMap (H := Fixtures.testEnv)
                  (Fixtures.MapTypeWithValidateError Fixtures.StringType)
                  (VZero Fixtures.mapOfString) [AttributeName "tags"])
    = Ret (None, diags) /\ HasError diags = true.
Proof.
  destruct (validation_short_circuits (H := Fixtures.testEnv)
              Fixtures.StringTypeWithValidateError (Fixtures.tfString "x")
              (VZero Fixtures.typesString) tt [AttributeName "name"]
              (VZero Fixtures.mapOfString) [AttributeName "tags"])
    as (_ & Hnew & _).
  destruct (validation_short_circuits (H := Fixtures.testEnv)
              (Fixtures.MapTypeWithValidateError Fixtures.StringType) (Fixtures.tfString "x")
              (VZero Fixtures.typesString) tt [AttributeName "name"]
              (VZero Fixtures.mapOfString) [AttributeName "tags"])
    as (_ & _ & _ & _ & Hmap & _).
  split.
  - exact (Hnew Fixtures.failingValidate eq_refl eq_refl).
  - destruct Hmap as (diags & Hout & Hdiags & _); [|by exists diags].
    exists Fixtures.failingValidate, (MkTfValue (Some (TfMap TfString)) RawNil),
      [AttributeName "tags"].
    split; [reflexivity|]. split; [|reflexivity]. left. reflexivity.
Defined.

(** ** Map *)

(** Every run of Map.  What trueReflectValue is handed is the reflect.Value
    in which the target arrives: of kind Struct, so that the loop of
    trueReflectValue is not entered and the first check of Map fails, for
    every target. *)
Lemma Map_run `{Env} (typ : AttrType) (val : TfValue) (target : RValue)
    (opts : Options) (path : Path) :
  Map typ val target opts path
    = ([], Ret (target,
                [DiagIntoIncompatibleType val (rtype target) path
                   ("expected a map type, got " +:+ typeString (rtype target))])).
Proof.
  unfold Map.
  assert (trueReflectValue (ValueOf_reflectValue target)
          = Ret (ValueOf_reflectValue target)) as -> by reflexivity.
  rewrite bind_lift_Ret. by rewrite bool_decide_eq_true_2.
Qed.

(** C1, as the code has it.  Map never gets to the elements of the raw map.
    Whatever the target, the raw value and the type: BuildValue is called
    for no element, and Map returns the target it was given with exactly
    one diagnostic, an error that says that a map type was expected,
    scoped to the path of the map and to the path of no element.  No
    element, valid or not, is converted into the result. *)
Theorem Map_attempts_no_element `{Env} (typ : AttrType) (val : TfValue)
    (target : RValue) (opts : Options) (path : Path) :
  let d := DiagIntoIncompatibleType val (rtype target) path
             ("expected a map type, got " +:+ typeString (rtype target)) in
  trace_of (Map typ val target opts path) = [] /\
  outcome_of (Map typ val target opts path) = Ret (target, [d]) /\
  is_error d = true /\
  diag_Path d = Some path /\
  forall key, diag_Path d <> Some (WithElementKeyString path key).
Proof.
  intros d. rewrite Map_run. split; [done|]. split; [done|]. split; [done|].
  split; [done|]. intros key. cbn [diag_Path d]. unfold WithElementKeyString.
  intros [= Hpath]. apply (f_equal length) in Hpath. rewrite length_app in Hpath.
  cbn [length] in Hpath. lia.
Qed.

Lemma Map_attempts_no_element_witness :
  let val := Fixtures.tfMapOf [("bad", Fixtures.tfBool true);
                               ("good", Fixtures.tfString "x")] in
  let target := VZero Fixtures.mapOfString in
  Map (H := Fixtures.testEnv) (Fixtures.MapType Fixtures.StringType) val target tt
    [AttributeName "tags"]
  = ([], Ret (target,
              [DiagIntoIncompatibleType val Fixtures.mapOfString [AttributeName "tags"]
                 "expected a map type, got map[string]string"])).
Proof.
  intros val target.
  destruct (Map_attempts_no_element (H := Fixtures.testEnv)
              (Fixtures.MapType Fixtures.StringType) val target tt [AttributeName "tags"])
    as (Htrace & Hout & _).
  destruct (Map _ _ _ _ _) as [tr out]. cbn [trace_of outcome_of fst snd] in *.
  by rewrite Htrace, Hout.
Defined.

(** ** The target on the error branches *)

(** C9. Whenever Map, NewAttributeValue, NewUnknownable, NewNullable or
    NewValueConverter returns diagnostics that hold an error, the value it
    returns is the target it was given.  Each of the conditions listed
    makes the converter return the target with diagnostics that hold an
    error: for Map, a target that is no map, a raw value that is no map, a
    type without ElementType, a raw value that cannot be decoded, an
    element that reports an error (Map returns the target with one error
    diagnostic in each of them: it does so whatever it is given); for
    NewAttributeValue, a failed validation, a failed ValueFromTerraform, a
    produced value of another type; for the hook converters, a missing
    method or an error reported by the hook. *)
Theorem error_branches_return_target `{Env} (typ : AttrType) (val : TfValue)
    (target : RValue) (opts : Options) (path : Path) :
  let receiver := pointerSafeZeroValue target in
  (forall r diags,
     HasError diags = true ->
     (outcome_of (Map typ val target opts path) = Ret (r, diags) -> r = target) /\
     (outcome_of (NewAttributeValue typ val target opts path) = Ret (r, diags) ->
      r = target) /\
     (outcome_of (NewUnknownable typ val target opts path) = Ret (r, diags) ->
      r = target) /\
     (outcome_of (NewNullable typ val target opts path) = Ret (r, diags) -> r = target) /\
     (outcome_of (NewValueConverter typ val target opts path) = Ret (r, diags) ->
      r = target)) /\
  (exists d, outcome_of (Map typ val target opts path) = Ret (target, [d]) /\
             is_error d = true) /\
  (HasError (validateDiags typ val path) = true \/
   is_Some (snd (ValueFromTerraform typ val)) \/
   TypeOf (fst (ValueFromTerraform typ val)) <> Some (rtype target) ->
   exists diags,
     outcome_of (NewAttributeValue typ val target opts path) = Ret (target, diags) /\
     HasError diags = true) /\
  (hook_fails (method_SetUnknown (rtype receiver)) receiver (negb (IsKnown val)) ->
   exists d, outcome_of (NewUnknownable typ val target opts path) = Ret (target, [d]) /\
             is_error d = true) /\
  (hook_fails (method_SetNull (rtype receiver)) receiver (IsNull val) ->
   exists d, outcome_of (NewNullable typ val target opts path) = Ret (target, [d]) /\
             is_error d = true) /\
  (hook_fails (method_FromTerraform5Value (rtype receiver)) receiver val ->
   exists d, outcome_of (NewValueConverter typ val target opts path) = Ret (target, [d]) /\
             is_error d = true).
Proof.
  intros receiver. split; [|split; [|split; [|split; [|split]]]].
  - intros r diags Herr. split; [|split; [|split; [|split]]].
    + rewrite Map_run. by intros [= <- _].
    + rewrite NewAttributeValue_run. cbv zeta.
      destruct (HasError (validateDiags typ val path)) eqn:Hhook; [by intros [= <- _]|].
      destruct (ValueFromTerraform typ val) as [res [err|]]; [by intros [= <- _]|].
      case_bool_decide; [by intros [= <- _]|]. cbn [outcome_of snd]. intros [= _ <-].
      congruence.
    + unfold NewUnknownable. fold receiver.
      destruct (method_SetUnknown (rtype receiver)) as [method|]; [|by intros [= <- _]].
      rewrite bind_emit. destruct (method receiver (negb (IsKnown val))) as [r' []];
        cbn [outcome_of trace_of fst snd ret]; intros [= <- <-]; done.
    + unfold NewNullable. fold receiver.
      destruct (method_SetNull (rtype receiver)) as [method|]; [|by intros [= <- _]].
      rewrite bind_emit. destruct (method receiver (IsNull val)) as [r' []];
        cbn [outcome_of trace_of fst snd ret]; intros [= <- <-]; done.
    + unfold NewValueConverter. fold receiver.
      destruct (method_FromTerraform5Value (rtype receiver)) as [method|];
        [|by intros [= <- _]].
      rewrite bind_emit. destruct (method receiver val) as [r' []];
        cbn [outcome_of trace_of fst snd ret]; intros [= <- <-]; done.
  - rewrite Map_run. by eexists.
  - rewrite NewAttributeValue_run. cbv zeta. intros Hcase.
    destruct (HasError (validateDiags typ val path)) eqn:Hhook; [by eexists|].
    destruct (ValueFromTerraform typ val) as [res [err|]]; cbn [fst snd] in Hcase.
    + eexists. split; [reflexivity|]. rewrite HasError_app. apply orb_true_r.
    + destruct Hcase as [?|[[? ?]|Hty]]; [done|done|].
      rewrite bool_decide_eq_true_2; [|done].
      eexists. split; [reflexivity|]. rewrite HasError_app. apply orb_true_r.
  - unfold hook_fails, NewUnknownable. fold receiver.
    destruct (method_SetUnknown (rtype receiver)) as [method|]; [|by eexists].
    rewrite bind_emit. destruct (method receiver (negb (IsKnown val))) as [r' []];
      cbn [snd]; intros Hfail; [done| |]; by eexists.
  - unfold hook_fails, NewNullable. fold receiver.
    destruct (method_SetNull (rtype receiver)) as [method|]; [|by eexists].
    rewrite bind_emit. destruct (method receiver (IsNull val)) as [r' []];
      cbn [snd]; intros Hfail; [done| |]; by eexists.
  - unfold hook_fails, NewValueConverter. fold receiver.
    destruct (method_FromTerraform5Value (rtype receiver)) as [method|]; [|by eexists].
    rewrite bind_emit. destruct (method receiver val) as [r' []];
      cbn [snd]; intros Hfail; [done| |]; by eexists.
Qed.

Lemma error_branches_return_target_witness :
  exists d,
    outcome_of (NewUnknownable (H := Fixtures.testEnv) Fixtures.StringType
                  (Fixtures.tfString "x") (VZero Fixtures.typesString) tt
                  [AttributeName "name"])
    = Ret (VZero Fixtures.typesString, [d]) /\ is_error d = true.
Proof.
  destruct (error_branches_return_target (H := Fixtures.testEnv) Fixtures.StringType
              (Fixtures.tfString "x") (VZero Fixtures.typesString) tt
              [AttributeName "name"]) as (_ & _ & _ & Hunknown & _).
  exact (Hunknown I).
Defined.

Lemma ValueToTerraform_revalidates_witness :
  exists err,
    ValueToTerraform (H := Fixtures.testEnv) Fixtures.misfitValue
    = ([EvToTerraformValue Fixtures.misfitValue], Ret (zeroTfValue, Some err)).
Proof.
  destruct (ValueToTerraform_revalidates (H := Fixtures.testEnv) Fixtures.misfitValue)
    as (out & err & Hrun & Hiff & Hzero & _).
  assert (is_Some err) as Herr by (apply Hiff; right; by eexists).
  rewrite (Hzero Herr) in Hrun. destruct Herr as [e ->]. by exists e.
Defined.

(** * Further properties of the helpers *)

(** ** trueReflectValue *)

Lemma trueReflectValue_unfold (val : RValue) :
  trueReflectValue val =
    match rkind val with
    | KInterface | KPtr =>
        match val with
        | VPtr _ inner | VIface _ inner => trueReflectValue inner
        | _ => Panic "reflect: call of reflect.Value.Type on zero Value"
        end
    | _ => Ret val
    end.
Proof. by destruct val. Qed.



(** A nil pointer (or nil interface) makes trueReflectValue panic, and with
    it getStructTags, before it has produced a diagnostic.  Map does not
    panic on such a target: the reflect.Value of the target is what it
    hands to trueReflectValue, and it returns the target with an error
    diagnostic. *)
Theorem nil_pointer_panics `{Env} (t : GoType) (typ : AttrType) (val : TfValue)
    (opts : Options) (path : Path) :
  KindOf t = KPtr \/ KindOf t = KInterface ->
  (exists msg,
     trueReflectValue (VZero t) = Panic msg /\
     getStructTags (VZero t) path = Panic msg) /\
  exists d,
    Map typ val (VZero t) opts path = ([], Ret (VZero t, [d])) /\ is_error d = true.
Proof.
  intros Hkind. split.
  - exists "reflect: call of reflect.Value.Type on zero Value".
    assert (trueReflectValue (VZero t)
            = Panic "reflect: call of reflect.Value.Type on zero Value") as Hpanic.
    { rewrite trueReflectValue_unfold. unfold rkind. cbn [rtype].
      by destruct Hkind as [-> | ->]. }
    unfold getStructTags. by rewrite Hpanic.
  - rewrite Map_run. by eexists.
Qed.

Lemma nil_pointer_panics_witness :
  exists msg,
    getStructTags (H := Fixtures.testEnv) (VZero (TPtr Fixtures.personStruct)) []
    = Panic msg.
Proof.
  destruct (nil_pointer_panics (H := Fixtures.testEnv) (TPtr Fixtures.personStruct)
              Fixtures.StringType (Fixtures.tfString "x") tt [] (or_introl eq_refl))
    as [(msg & _ & Hget) _].
  by exists msg.
Defined.

(** ** getStructTags: the path of its errors and the shape of its result *)

Lemma getStructTags_from_error_path (all : list StructField) (path : Path)
    (fields : list StructField) (i : nat) (tags : gmap string nat)
    (e : AttributePathError) :
  getStructTags_from all path fields i tags = inr e ->
  exists f, In f fields /\ bindable f = true /\
    ((tfsdk f = "" /\ err_Path e = path) \/
     (tfsdk f <> "" /\ err_Path e = WithAttributeName path (tfsdk f))).
Proof.
  revert i tags. induction fields as [|field rest IH]; intros i tags; cbn [getStructTags_from].
  - discriminate.
  - assert (Hrest : forall i' tags',
              getStructTags_from all path rest i' tags' = inr e ->
              exists f, In f (field :: rest) /\ bindable f = true /\
                ((tfsdk f = "" /\ err_Path e = path) \/
                 (tfsdk f <> "" /\ err_Path e = WithAttributeName path (tfsdk f)))).
    { intros i' tags' Hrun. destruct (IH _ _ Hrun) as (f & Hin & Hrest).
      exists f. split; [by right|done]. }
    destruct (String.eqb (field_PkgPath field) "") eqn:Hpkg; cbn [negb]; [|apply Hrest].
    destruct (String.eqb (tfsdk field) "-") eqn:Hdash; [apply Hrest|].
    assert (bindable field = true) as Hb by (unfold bindable; by rewrite Hpkg, Hdash).
    destruct (String.eqb (tfsdk field) "") eqn:Hempty.
    { apply String.eqb_eq in Hempty. intros [= <-]. exists field.
      split; [by left|]. split; [done|]. by left. }
    apply String.eqb_neq in Hempty.
    destruct (isValidFieldName (tfsdk field)); cbn [negb].
    2:{ intros [= <-]. exists field. split; [by left|]. split; [done|]. by right. }
    destruct (tags !! tfsdk field); [|apply Hrest].
    intros [= <-]. exists field. split; [by left|]. split; [done|]. by right.
Qed.

(** An error of getStructTags carries the path it was given when the value
    is no struct or a bindable field has no tag, and that path extended by
    the tag when a tag is not a valid name or is used twice. *)
Theorem getStructTags_error_path `{Env} (in_ v : RValue) (path : Path)
    (e : AttributePathError) :
  trueReflectValue in_ = Ret v ->
  getStructTags in_ path = Ret (inr e) ->
  (KindOf (rtype v) <> KStruct /\ err_Path e = path) \/
  exists f, In f (Fields (rtype v)) /\ bindable f = true /\
    ((tfsdk f = "" /\ err_Path e = path) \/
     (tfsdk f <> "" /\ err_Path e = WithAttributeName path (tfsdk f))).
Proof.
  intros Htrue. unfold getStructTags. rewrite Htrue. cbn [mbind Outcome_bind].
  case_bool_decide as Hkind.
  - intros [= <-]. by left.
  - intros [= Hrun]. right. by eapply getStructTags_from_error_path.
Qed.

Lemma getStructTags_error_path_witness :
  exists e,
    getStructTags (H := Fixtures.testEnv)
      (VZero (TStruct [Fixtures.tagged "Name" "name"; Fixtures.tagged "Other" "Name"]))
      [AttributeName "block"] = Ret (inr e) /\
    err_Path e = [AttributeName "block"; AttributeName "Name"].
Proof.
  eexists. split; [reflexivity|].
  destruct (getStructTags_error_path (H := Fixtures.testEnv)
              (VZero (TStruct [Fixtures.tagged "Name" "name"; Fixtures.tagged "Other" "Name"]))
              _ [AttributeName "block"] _ eq_refl eq_refl)
    as [[Hkind _]|(f & Hin & Hb & Hcase)]; reflexivity.
Defined.

(** In the map getStructTags returns, every key is a valid field name,
    every index is the position of a field, and no two tags share an
    index. *)
Theorem getStructTags_map_wellformed `{Env} (in_ v : RValue) (path : Path)
    (tags : gmap string nat) :
  trueReflectValue in_ = Ret v ->
  getStructTags in_ path = Ret (inl tags) ->
  forall tag i,
    tags !! tag = Some i ->
    isValidFieldName tag = true /\
    i < length (Fields (rtype v)) /\
    (forall tag', tags !! tag' = Some i -> tag' = tag).
Proof.
  intros Htrue. unfold getStructTags. rewrite Htrue. cbn [mbind Outcome_bind].
  case_bool_decide as Hkind; [discriminate|]. intros [= Hrun] tag i Hlook.
  pose proof (getStructTags_from_spec (Fields (rtype v)) path (Fields (rtype v)) [] ∅
                tags_of_empty) as Hspec.
  cbn [length app] in Hspec. rewrite Hrun in Hspec. destruct Hspec as [Hmap Hvalid].
  apply Hmap in Hlook as (f & Hf & Hb & <-).
  rewrite Forall_forall in Hvalid. split; [|split].
  - apply Hvalid; [|done]. by eapply list_elem_of_lookup_2.
  - by eapply lookup_lt_Some.
  - intros tag' (g & Hg & _ & <-)%Hmap. congruence.
Qed.

Lemma getStructTags_map_wellformed_witness :
  isValidFieldName "age_2" = true /\ 3 < 4.
Proof.
  destruct (getStructTags_map_wellformed (H := Fixtures.testEnv)
              (VZero Fixtures.personStruct) (VZero Fixtures.personStruct) []
              (<["age_2" := 3]> (<["name" := 0]> ∅)) eq_refl) with "age_2" 3
    as (Hvalid & Hbound & _).
  - vm_compute. reflexivity.
  - vm_compute. reflexivity.
  - split; [exact Hvalid|exact Hbound].
Defined.

(** ** isValidFieldName *)

Lemma string_app_cons (c : ascii) (s t : string) : String c s +:+ t = String c (s +:+ t).
Proof. reflexivity. Qed.

Lemma string_app_assoc (s t u : string) : (s +:+ t) +:+ u = s +:+ t +:+ u.
Proof. induction s as [|c s IH]; [done|]. by rewrite !string_app_cons, IH. Qed.

Lemma string_app_nil_r (s : string) : s +:+ "" = s.
Proof. induction s as [|c s IH]; [done|]. by rewrite string_app_cons, IH. Qed.

Lemma string_length_app (s t : string) :
  String.length (s +:+ t) = String.length s + String.length t.
Proof.
  induction s as [|c s IH]; [done|]. rewrite string_app_cons. cbn [String.length].
  by rewrite IH.
Qed.

Lemma all_chars_app (p : ascii -> bool) (s t : string) :
  all_chars p (s +:+ t) = all_chars p s && all_chars p t.
Proof.
  induction s as [|c s IH]; [done|]. rewrite string_app_cons. cbn [all_chars].
  by rewrite IH, andb_assoc.
Qed.

(** A name that is not empty followed by a suffix is a valid field name
    exactly when the name is one and the suffix has only lowercase
    letters, digits and underscores: the first character alone is held to
    be a letter. *)
Theorem isValidFieldName_app (c : ascii) (name suffix : string) :
  isValidFieldName (String c name +:+ suffix)
  = isValidFieldName (String c name) && all_chars is_name_char suffix.
Proof.
  rewrite string_app_cons. cbn [isValidFieldName].
  by rewrite all_chars_app, andb_assoc.
Qed.

(** ** commaSeparatedString *)

Lemma Join_snoc (pre : list string) (x sep : string) :
  pre <> [] -> Join (pre ++ [x]) sep = Join pre sep +:+ sep +:+ x.
Proof.
  induction pre as [|a pre IH]; [done|]. intros _.
  destruct pre as [|b pre]; [done|].
  change (Join ((a :: b :: pre) ++ [x]) sep)
    with (a +:+ sep +:+ Join ((b :: pre) ++ [x]) sep).
  rewrite IH; [|done].
  change (Join (a :: b :: pre) sep) with (a +:+ sep +:+ Join (b :: pre) sep).
  by rewrite !string_app_assoc.
Qed.

Lemma and_prefix_changes (x : string) : "and " +:+ x <> x.
Proof.
  intros Heq. apply (f_equal String.length) in Heq.
  rewrite string_length_app in Heq. cbn [String.length] in Heq. lia.
Qed.

(** With three strings or more, commaSeparatedString joins them with
    commas and puts "and" before the last one, and it leaves that "and" in
    the last element of the caller's slice: a second call on the same slice
    says "and and". *)
Theorem commaSeparatedString_three_or_more (pre : list string) (x : string) :
  2 <= length pre ->
  commaSeparatedString (pre ++ [x])
    = (Join pre ", " +:+ ", and " +:+ x, pre ++ ["and " +:+ x]) /\
  fst (commaSeparatedString (snd (commaSeparatedString (pre ++ [x]))))
    = Join pre ", " +:+ ", and and " +:+ x.
Proof.
  intros Hlen.
  assert (Hcall : forall y,
            commaSeparatedString (pre ++ [y])
            = (Join pre ", " +:+ ", and " +:+ y, pre ++ ["and " +:+ y])).
  { intros y. unfold commaSeparatedString. rewrite length_app. cbn [length].
    destruct (length pre + 1) as [|[|[|n]]] eqn:Hn; [lia..|].
    assert (S (S n) = length pre) as -> by lia.
    rewrite (list_lookup_middle pre [] y (length pre) eq_refl).
    cbn [default from_option id].
    rewrite insert_app_r_alt, Nat.sub_diag; [|done]. cbn [insert list_insert].
    rewrite Join_snoc; [|by destruct pre]. reflexivity. }
  split; [apply Hcall|].
  rewrite Hcall. cbn [snd]. rewrite Hcall. reflexivity.
Qed.

Lemma commaSeparatedString_three_or_more_witness :
  commaSeparatedString ["a"; "b"; "c"] = ("a, b, and c", ["a"; "b"; "and c"]).
Proof.
  destruct (commaSeparatedString_three_or_more ["a"; "b"] "c") as [Hcall _].
  - cbn [length]. lia.
  - exact Hcall.
Defined.

(** commaSeparatedString leaves the caller's slice as it was exactly when
    it has at most two strings; it never changes the number of strings,
    nor any string but the last; with no string the result is empty, with
    one it is that string, with two they are joined by "and". *)
Theorem commaSeparatedString_slice (in_ : list string) :
  (snd (commaSeparatedString in_) = in_ <-> length in_ <= 2) /\
  length (snd (commaSeparatedString in_)) = length in_ /\
  (forall i, S i < length in_ -> snd (commaSeparatedString in_) !! i = in_ !! i) /\
  (forall a b,
     commaSeparatedString [] = ("", []) /\
     commaSeparatedString [a] = (a, [a]) /\
     commaSeparatedString [a; b] = (a +:+ " and " +:+ b, [a; b])).
Proof.
  split; [|split; [|split]].
  - unfold commaSeparatedString.
    destruct (length in_) as [|[|[|n]]] eqn:Hn; cbn [snd]; [split; [lia|done]..|].
    split; [|lia]. intros Hsame. exfalso.
    destruct (in_ !! S (S n)) as [x|] eqn:Hx.
    + assert (<[S (S n) := "and " +:+ x]> in_ !! S (S n) = Some ("and " +:+ x)) as Hnew
        by (apply list_lookup_insert_eq; lia).
      cbn [default from_option id] in Hsame. rewrite Hsame, Hx in Hnew.
      injection Hnew as Hnew. symmetry in Hnew. by apply and_prefix_changes in Hnew.
    + apply lookup_ge_None in Hx. lia.
  - unfold commaSeparatedString.
    destruct (length in_) as [|[|[|n]]] eqn:Hn; cbn [snd]; [done..|].
    by rewrite length_insert.
  - intros i Hi. unfold commaSeparatedString.
    destruct (length in_) as [|[|[|n]]] eqn:Hn; cbn [snd]; [done..|].
    apply list_lookup_insert_ne. lia.
  - done.
Qed.

(** ** The Equal methods of internal/reflect/diags.go *)

(** Two DiagIntoIncompatibleType that Equal holds for have the same target
    type, path and error, and so the same severity, summary, detail and
    path; the same goes for DiagNewAttributeValueIntoWrongType, but for the
    detail, which names the Go type of the schema type.  Equal holds of a
    diagnostic and itself as soon as the Equal of its value, or of its
    schema type, does. *)
Theorem Diag_Equal_sound `{Env} (valEqual : TfValue -> TfValue -> bool)
    (typeEqual : AttrType -> AttrType -> bool) (o : Diagnostic) :
  (forall Val TargetType AttrPath Err,
     let d := DiagIntoIncompatibleType Val TargetType AttrPath Err in
     (DiagIntoIncompatibleType_Equal valEqual Val TargetType AttrPath Err o = true ->
      (exists oVal, o = DiagIntoIncompatibleType oVal TargetType AttrPath Err /\
                    valEqual Val oVal = true) /\
      diag_Severity o = diag_Severity d /\ diag_Summary o = diag_Summary d /\
      diag_Detail o = diag_Detail d /\ diag_Path o = diag_Path d) /\
     (valEqual Val Val = true ->
      DiagIntoIncompatibleType_Equal valEqual Val TargetType AttrPath Err d = true)) /\
  (forall ValType TargetType SchemaType AttrPath,
     let d := DiagNewAttributeValueIntoWrongType ValType TargetType SchemaType AttrPath in
     (DiagNewAttributeValueIntoWrongType_Equal typeEqual ValType TargetType SchemaType
        AttrPath o = true ->
      (exists oSchemaType,
         o = DiagNewAttributeValueIntoWrongType ValType TargetType oSchemaType AttrPath /\
         typeEqual SchemaType oSchemaType = true) /\
      diag_Severity o = diag_Severity d /\ diag_Summary o = diag_Summary d /\
      diag_Path o = diag_Path d) /\
     (typeEqual SchemaType SchemaType = true ->
      DiagNewAttributeValueIntoWrongType_Equal typeEqual ValType TargetType SchemaType
        AttrPath d = true)).
Proof.
  split.
  - intros Val TargetType AttrPath Err d. split.
    + unfold DiagIntoIncompatibleType_Equal. destruct o; try discriminate.
      destruct (valEqual Val Val0) eqn:Hval; cbn [negb]; [|discriminate].
      case_bool_decide as Hty; [discriminate|]. destruct Hty.
      case_bool_decide as Hpath; cbn [negb]; [subst|discriminate].
      destruct (String.eqb Err Err0) eqn:Herr; cbn [negb]; [|discriminate].
      apply String.eqb_eq in Herr as <-. intros _. split; [by eexists|done].
    + intros Hval. unfold DiagIntoIncompatibleType_Equal. subst d. cbv beta iota.
      rewrite Hval. cbn [negb]. rewrite bool_decide_eq_false_2; [|by intros []].
      rewrite bool_decide_eq_true_2; [|done]. cbn [negb]. by rewrite String.eqb_refl.
  - intros ValType TargetType SchemaType AttrPath d. split.
    + unfold DiagNewAttributeValueIntoWrongType_Equal. destruct o; try discriminate.
      case_bool_decide as Hvt; [discriminate|]. destruct Hvt.
      case_bool_decide as Hty; [discriminate|]. destruct Hty.
      destruct (typeEqual SchemaType SchemaType0) eqn:Hs; cbn [negb]; [|discriminate].
      case_bool_decide as Hpath; cbn [negb]; [subst|discriminate].
      intros _. split; [by eexists|done].
    + intros Hs. unfold DiagNewAttributeValueIntoWrongType_Equal. subst d. cbv beta iota.
      rewrite bool_decide_eq_false_2; [|by intros []].
      rewrite bool_decide_eq_false_2; [|by intros []].
      rewrite Hs. cbn [negb]. by rewrite bool_decide_eq_true_2.
Qed.

(** * Further properties of the converters out of native values *)

Lemma validate_then_construct (typ : AttrType) (val : TfValue) (path : Path) (keep : bool) :
  bind (validateHook typ val path []) (fun '(diags, stop) =>
    if stop then ret (None, diags) else
    bind (callValueFromTerraform typ val) (fun '(res, err) =>
      match err with
      | Some err => ret (None, diags ++ [valueFromTerraformErrorDiag err path])
      | None => ret (res, if keep then diags else [])
      end))
  = constructed typ val path keep.
Proof.
  rewrite validateHook_run, bind_run, callValueFromTerraform_run. unfold constructed.
  cbn [app trace_of outcome_of fst snd].
  assert (match Validate typ with
          | Some _ => HasError (validateDiags typ val path)
          | None => false
          end = HasError (validateDiags typ val path)) as ->
    by (unfold validateDiags; by destruct (Validate typ)).
  destruct (HasError (validateDiags typ val path)); [by rewrite app_nil_r|].
  rewrite bind_run. by destruct (ValueFromTerraform typ val) as [res [err|]].
Qed.

Lemma FromUnknownable_run `{Env} (typ : AttrType) (u : Unknownable) (path : Path) :
  let tfType := TerraformType typ in
  FromUnknownable typ u path =
    if GetUnknown u then
      after [EvGetUnknown] (constructed typ (MkTfValue (Some tfType) RawUnknown) path false)
    else
      match ValidateValue tfType (Unknownable_GetValue u) with
      | Some err =>
          ([EvGetUnknown; EvGetValue], Ret (None, [validateValueErrorDiag err path]))
      | None =>
          after [EvGetUnknown; EvGetValue; EvGetValue]
            (constructed typ (MkTfValue (Some tfType) (Unknownable_GetValue u)) path false)
      end.
Proof.
  cbv zeta. unfold FromUnknownable, after. rewrite bind_emit.
  destruct (GetUnknown u).
  - change (NewValue (TerraformType typ) RawUnknown)
      with (Ret (MkTfValue (Some (TerraformType typ)) RawUnknown)).
    by rewrite bind_lift_Ret, (validate_then_construct typ _ path false).
  - rewrite bind_emit.
    destruct (ValidateValue (TerraformType typ) (Unknownable_GetValue u)) eqn:Hshape;
      [done|].
    rewrite bind_emit, (NewValue_valid _ _ Hshape), bind_lift_Ret.
    by rewrite (validate_then_construct typ _ path false).
Qed.

Lemma FromNullable_run `{Env} (typ : AttrType) (n : Nullable) (path : Path) :
  let tfType := TerraformType typ in
  FromNullable typ n path =
    if GetNull n then
      after [EvGetNull] (constructed typ (MkTfValue (Some tfType) RawNil) path false)
    else
      match ValidateValue tfType (Nullable_GetValue n) with
      | Some err =>
          ([EvGetNull; EvGetValue], Ret (None, [validateValueErrorDiag err path]))
      | None =>
          after [EvGetNull; EvGetValue; EvGetValue]
            (constructed typ (MkTfValue (Some tfType) (Nullable_GetValue n)) path true)
      end.
Proof.
  cbv zeta. unfold FromNullable, after. rewrite bind_emit.
  destruct (GetNull n).
  - change (NewValue (TerraformType typ) RawNil)
      with (Ret (MkTfValue (Some (TerraformType typ)) RawNil)).
    by rewrite bind_lift_Ret, (validate_then_construct typ _ path false).
  - rewrite bind_emit.
    destruct (ValidateValue (TerraformType typ) (Nullable_GetValue n)) eqn:Hshape;
      [done|].
    rewrite bind_emit, (NewValue_valid _ _ Hshape), bind_lift_Ret.
    by rewrite (validate_then_construct typ _ path true).
Qed.

Lemma FromValueCreator_run `{Env} (typ : AttrType) (c : ValueCreator) (path : Path) :
  let tfType := TerraformType typ in
  FromValueCreator typ c path =
    match ToTerraform5Value c with
    | (_, Some err) => ([EvToTerraform5Value], Ret (None, [toTerraform5ValueErrorDiag err path]))
    | (raw, None) =>
        match ValidateValue tfType raw with
        | Some err => ([EvToTerraform5Value], Ret (None, [validateValueErrorDiag err path]))
        | None =>
            after [EvToTerraform5Value] (constructed typ (MkTfValue (Some tfType) raw) path true)
        end
    end.
Proof.
  cbv zeta. unfold FromValueCreator, after. rewrite bind_emit.
  destruct (ToTerraform5Value c) as [raw [err|]]; [done|].
  destruct (ValidateValue (TerraformType typ) raw) eqn:Hshape; [done|].
  by rewrite (NewValue_valid _ _ Hshape), bind_lift_Ret,
    (validate_then_construct typ _ path true).
Qed.

Lemma constructed_outcome (typ : AttrType) (val : TfValue) (path : Path) (keep : bool) :
  exists res diags,
    outcome_of (constructed typ val path keep) = Ret (res, diags) /\
    (HasError diags = true -> res = None) /\
    (HasError diags = false ->
     ValueFromTerraform typ val = (res, None) /\
     HasError (validateDiags typ val path) = false /\
     diags = if keep then validateDiags typ val path else []).
Proof.
  unfold constructed. destruct (HasError (validateDiags typ val path)) eqn:Hhook.
  - eexists _, _. split; [reflexivity|]. split; [done|]. cbn. congruence.
  - destruct (ValueFromTerraform typ val) as [res [err|]].
    + eexists _, _. split; [reflexivity|]. split; [done|].
      rewrite HasError_app. cbn. rewrite orb_true_r. discriminate.
    + eexists _, _. split; [reflexivity|]. split; [|done].
      destruct keep; [congruence|discriminate].
Qed.

(** FromUnknownable, FromNullable and FromValueCreator always return: the
    payload goes through ValidateValue before [tftypes.NewValue] sees it. *)
Theorem From_hooks_always_return `{Env} (typ : AttrType) (path : Path)
    (u : Unknownable) (n : Nullable) (c : ValueCreator) :
  (exists r, outcome_of (FromUnknownable typ u path) = Ret r) /\
  (exists r, outcome_of (FromNullable typ n path) = Ret r) /\
  (exists r, outcome_of (FromValueCreator typ c path) = Ret r).
Proof.
  assert (Hc : forall val keep, exists r,
                 outcome_of (constructed typ val path keep) = Ret r).
  { intros val keep.
    destruct (constructed_outcome typ val path keep) as (res & diags & Hout & _). eauto. }
  split; [|split].
  - rewrite FromUnknownable_run. cbv zeta. destruct (GetUnknown u); [apply Hc|].
    destruct (ValidateValue _ _); [by eexists|apply Hc].
  - rewrite FromNullable_run. cbv zeta. destruct (GetNull n); [apply Hc|].
    destruct (ValidateValue _ _); [by eexists|apply Hc].
  - rewrite FromValueCreator_run. cbv zeta.
    destruct (ToTerraform5Value c) as [raw [err|]]; [by eexists|].
    destruct (ValidateValue _ _); [by eexists|apply Hc].
Qed.

(** A converter out of a native value that returns diagnostics holding an
    error returns the nil Value with them. *)
Theorem From_error_returns_nil `{Env} (typ : AttrType) (path : Path)
    (u : Unknownable) (n : Nullable) (c : ValueCreator) (mapVal : RValue)
    (res : option AttrValue) (diags : Diagnostics) :
  HasError diags = true ->
  (outcome_of (FromUnknownable typ u path) = Ret (res, diags) -> res = None) /\
  (outcome_of (FromNullable typ n path) = Ret (res, diags) -> res = None) /\
  (outcome_of (FromValueCreator typ c path) = Ret (res, diags) -> res = None) /\
  (outcome_of (FromMap typ mapVal path) = Ret (res, diags) -> res = None).
Proof.
  intros Herr.
  assert (Hc : forall val keep,
            outcome_of (constructed typ val path keep) = Ret (res, diags) -> res = None).
  { intros val keep Hout.
    destruct (constructed_outcome typ val path keep) as (res' & diags' & Hout' & Hnil & _).
    rewrite Hout in Hout'. injection Hout' as <- <-. by apply Hnil. }
  assert (Hm : forall val ds what, HasError ds = false ->
            outcome_of (materialized typ val path ds what) = Ret (res, diags) -> res = None).
  { intros val ds what Hds. unfold materialized.
    destruct (HasError (validateDiags typ val path)) eqn:Hhook; [by intros [= <- _]|].
    destruct (ValueFromTerraform typ val) as [attrVal [err|]]; [by intros [= <- _]|].
    cbn [outcome_of snd]. intros [= _ <-].
    rewrite HasError_app, Hds, Hhook in Herr. discriminate. }
  split; [|split; [|split]].
  - rewrite FromUnknownable_run. cbv zeta. destruct (GetUnknown u); [apply Hc|].
    destruct (ValidateValue _ _); [by intros [= <- _]|apply Hc].
  - rewrite FromNullable_run. cbv zeta. destruct (GetNull n); [apply Hc|].
    destruct (ValidateValue _ _); [by intros [= <- _]|apply Hc].
  - rewrite FromValueCreator_run. cbv zeta.
    destruct (ToTerraform5Value c) as [raw [err|]]; [by intros [= <- _]|].
    destruct (ValidateValue _ _); [by intros [= <- _]|apply Hc].
  - destruct (IsNil mapVal) as [[|]|msg] eqn:Hnil.
    + rewrite (FromMap_nil typ mapVal path Hnil). by apply Hm.
    + destruct (ElementType typ) as [elemType|] eqn:Helem.
      2:{ unfold FromMap. rewrite Hnil, bind_lift_Ret, Helem. discriminate. }
      destruct (MapEntries mapVal) as [entries|msg] eqn:Hentries.
      2:{ unfold FromMap. rewrite Hnil, bind_lift_Ret, Helem, Hentries. discriminate. }
      rewrite (FromMap_not_nil typ elemType mapVal path entries Hnil Helem Hentries).
      destruct (FromMap_range_outcome typ elemType path entries)
        as [[_ (tr & tfElems & ds & Hrun & Hclean & _)]
           |[(tr & ds & Hrun & _)|(tr & msg & Hrun)]]; rewrite Hrun.
      * rewrite bind_run, (FromMap_finish_run typ path tfElems ds Hclean).
        cbn [outcome_of snd].
        destruct (ValidateValue _ _); [by intros [= <- _]|by apply Hm].
      * rewrite bind_run. by intros [= <- _].
      * rewrite bind_panic. discriminate.
    + unfold FromMap. rewrite Hnil. discriminate.
Qed.

Lemma From_error_returns_nil_witness :
  exists res diags,
    outcome_of (FromNullable (H := Fixtures.testEnv) Fixtures.StringTypeWithValidateError
                  {| GetNull := true; Nullable_GetValue := RawString "x" |}
                  [AttributeName "name"])
    = Ret (res, diags) /\ res = None.
Proof.
  eexists _, _. split; [reflexivity|].
  destruct (From_error_returns_nil (H := Fixtures.testEnv)
              Fixtures.StringTypeWithValidateError [AttributeName "name"]
              {| GetUnknown := true; Unknownable_GetValue := RawNil |}
              {| GetNull := true; Nullable_GetValue := RawString "x" |}
              {| ToTerraform5Value := (RawNil, None) |} (VZero Fixtures.mapOfString)
              None
              [AttributeErrorDiagnostic [AttributeName "name"] "Error Diagnostic"
                 "This is an error."] eq_refl) as (_ & Hnull & _).
  apply Hnull. reflexivity.
Defined.

(** FromUnknownable never hands back warnings alone: when its diagnostics
    hold no error they are empty, whatever the validation hook reported,
    and so it is with FromNullable on a hook whose null flag is set.
    FromNullable on a hook that holds a value, and FromValueCreator, hand
    back the diagnostics of the validation with the value. *)
Theorem From_hooks_warnings `{Env} (typ : AttrType) (path : Path)
    (u : Unknownable) (n : Nullable) (c : ValueCreator) :
  let tfType := TerraformType typ in
  (forall res diags,
     outcome_of (FromUnknownable typ u path) = Ret (res, diags) ->
     HasError diags = false -> diags = []) /\
  (forall res diags,
     GetNull n = true ->
     outcome_of (FromNullable typ n path) = Ret (res, diags) ->
     HasError diags = false -> diags = []) /\
  (forall res diags,
     GetNull n = false ->
     outcome_of (FromNullable typ n path) = Ret (res, diags) ->
     HasError diags = false ->
     diags = validateDiags typ (MkTfValue (Some tfType) (Nullable_GetValue n)) path) /\
  (forall res diags,
     outcome_of (FromValueCreator typ c path) = Ret (res, diags) ->
     HasError diags = false ->
     diags = validateDiags typ (MkTfValue (Some tfType) (fst (ToTerraform5Value c))) path).
Proof.
  intros tfType.
  assert (Hc : forall val keep res diags,
            outcome_of (constructed typ val path keep) = Ret (res, diags) ->
            HasError diags = false ->
            diags = if keep then validateDiags typ val path else []).
  { intros val keep res diags Hout Hclean.
    destruct (constructed_outcome typ val path keep) as (res' & diags' & Hout' & _ & Hok).
    rewrite Hout in Hout'. injection Hout' as <- <-. by apply Hok. }
  split; [|split; [|split]].
  - intros res diags. rewrite FromUnknownable_run. cbv zeta.
    destruct (GetUnknown u); [apply Hc|].
    destruct (ValidateValue _ _); [|apply Hc]. intros [= _ <-]. discriminate.
  - intros res diags Hnull. rewrite FromNullable_run, Hnull. apply Hc.
  - intros res diags Hnull. rewrite FromNullable_run, Hnull. cbv zeta.
    destruct (ValidateValue _ _); [|apply Hc]. intros [= _ <-]. discriminate.
  - intros res diags. rewrite FromValueCreator_run. cbv zeta.
    destruct (ToTerraform5Value c) as [raw [err|]]; [intros [= _ <-]; discriminate|].
    destruct (ValidateValue _ _); [|apply Hc]. intros [= _ <-]. discriminate.
Qed.

Lemma From_hooks_warnings_witness :
  outcome_of (FromUnknownable (H := Fixtures.testEnv) Fixtures.StringTypeWithValidateWarning
                {| GetUnknown := false; Unknownable_GetValue := RawString "x" |}
                [AttributeName "name"])
  = Ret (Some (Fixtures.stringValue Fixtures.StringType0 (RawString "x")), []) /\
  outcome_of (FromValueCreator (H := Fixtures.testEnv) Fixtures.StringTypeWithValidateWarning
                {| ToTerraform5Value := (RawString "x", None) |} [AttributeName "name"])
  = Ret (Some (Fixtures.stringValue Fixtures.StringType0 (RawString "x")),
         [AttributeWarningDiagnostic [AttributeName "name"] "Warning Diagnostic"
            "This is a warning."]).
Proof.
  destruct (From_hooks_warnings (H := Fixtures.testEnv) Fixtures.StringTypeWithValidateWarning
              [AttributeName "name"]
              {| GetUnknown := false; Unknownable_GetValue := RawString "x" |}
              {| GetNull := true; Nullable_GetValue := RawNil |}
              {| ToTerraform5Value := (RawString "x", None) |})
    as (Hunknown & _ & _ & Hcreator).
  split.
  - destruct (outcome_of (FromUnknownable _ _ _)) as [[res diags]|msg] eqn:Hout;
      [|discriminate Hout].
    rewrite (Hunknown res diags eq_refl); vm_compute in Hout; by injection Hout as <- <-.
  - destruct (outcome_of (FromValueCreator _ _ _)) as [[res diags]|msg] eqn:Hout;
      [|discriminate Hout].
    rewrite (Hcreator res diags eq_refl); vm_compute in Hout; by injection Hout as <- <-.
Defined.

(** FromNullable on a hook whose null flag is set never calls GetValue and
    hands only the null raw value of the type to the validation hook and to
    ValueFromTerraform. *)
Theorem FromNullable_null `{Env} (typ : AttrType) (n : Nullable) (path : Path) :
  GetNull n = true ->
  let nullValue := MkTfValue (Some (TerraformType typ)) RawNil in
  existsb is_GetValue (trace_of (FromNullable typ n path)) = false /\
  (forall e, In e (trace_of (FromNullable typ n path)) ->
     e = EvGetNull \/ e = EvValidate typ nullValue path \/
     e = EvValueFromTerraform typ nullValue) /\
  (forall n', GetNull n' = true -> FromNullable typ n' path = FromNullable typ n path).
Proof.
  intros Hnull nullValue. split; [|split].
  - rewrite FromNullable_run, Hnull. cbv zeta. fold nullValue. unfold after, constructed.
    unfold validateTrace.
    destruct (HasError _); [by destruct (Validate typ)|].
    destruct (ValueFromTerraform typ nullValue) as [res [err|]]; by destruct (Validate typ).
  - rewrite FromNullable_run, Hnull. cbv zeta. fold nullValue. unfold after, constructed.
    unfold validateTrace.
    destruct (HasError _);
      [destruct (Validate typ); cbn; intros e; intuition|].
    destruct (ValueFromTerraform typ nullValue) as [res [err|]];
      destruct (Validate typ); cbn; intros e; intuition.
  - intros n' Hnull'. rewrite !FromNullable_run. cbv zeta. by rewrite Hnull, Hnull'.
Qed.

Lemma FromNullable_null_witness :
  FromNullable (H := Fixtures.testEnv) Fixtures.StringType
    {| GetNull := true; Nullable_GetValue := RawString "ignored" |} []
  = FromNullable (H := Fixtures.testEnv) Fixtures.StringType
      {| GetNull := true; Nullable_GetValue := RawNil |} [].
Proof.
  destruct (FromNullable_null (H := Fixtures.testEnv) Fixtures.StringType
              {| GetNull := true; Nullable_GetValue := RawNil |} [] eq_refl)
    as (_ & _ & Hsame).
  exact (Hsame {| GetNull := true; Nullable_GetValue := RawString "ignored" |} eq_refl).
Defined.

(** A payload that does not pass ValidateValue for the raw shape of the
    type ends FromUnknownable, FromNullable and FromValueCreator with the
    nil Value and one error diagnostic at the path; neither the validation
    hook nor ValueFromTerraform of the type is called. *)
Theorem From_hooks_reject_payload `{Env} (typ : AttrType) (path : Path)
    (u : Unknownable) (n : Nullable) (c : ValueCreator) (err : GoError) :
  let tfType := TerraformType typ in
  let d := validateValueErrorDiag err path in
  (GetUnknown u = false ->
   ValidateValue tfType (Unknownable_GetValue u) = Some err ->
   FromUnknownable typ u path = ([EvGetUnknown; EvGetValue], Ret (None, [d]))) /\
  (GetNull n = false ->
   ValidateValue tfType (Nullable_GetValue n) = Some err ->
   FromNullable typ n path = ([EvGetNull; EvGetValue], Ret (None, [d]))) /\
  (snd (ToTerraform5Value c) = None ->
   ValidateValue tfType (fst (ToTerraform5Value c)) = Some err ->
   FromValueCreator typ c path = ([EvToTerraform5Value], Ret (None, [d]))) /\
  is_error d = true /\ diag_Path d = Some path.
Proof.
  intros tfType d. split; [|split; [|split]].
  - intros Hu Hshape. rewrite FromUnknownable_run. cbv zeta. fold tfType.
    by rewrite Hu, Hshape.
  - intros Hn Hshape. rewrite FromNullable_run. cbv zeta. fold tfType.
    by rewrite Hn, Hshape.
  - rewrite FromValueCreator_run. cbv zeta. fold tfType.
    destruct (ToTerraform5Value c) as [raw [e|]]; cbn [fst snd]; [discriminate|].
    by intros _ ->.
  - done.
Qed.

Lemma From_hooks_reject_payload_witness :
  exists d,
    FromUnknownable (H := Fixtures.testEnv) Fixtures.StringType
      {| GetUnknown := false; Unknownable_GetValue := RawBool true |} []
    = ([EvGetUnknown; EvGetValue], Ret (None, [d])).
Proof.
  eexists.
  destruct (From_hooks_reject_payload (H := Fixtures.testEnv) Fixtures.StringType []
              {| GetUnknown := false; Unknownable_GetValue := RawBool true |}
              {| GetNull := true; Nullable_GetValue := RawNil |}
              {| ToTerraform5Value := (RawNil, None) |}
              "tftypes.NewValue can't use the value as a tftypes.String")
    as (Hunknown & _).
  exact (Hunknown eq_refl eq_refl).
Defined.

(** * Further properties of the converters into native values *)

(** NewValueConverter hands the raw value to FromTerraform5Value as it is,
    null and unknown included: that call, on the fresh receiver, is its
    only event, it is made whenever the method exists, and when the method
    reports no error the receiver after the call is returned with no
    diagnostics. *)
Theorem NewValueConverter_call `{Env} (typ : AttrType) (val : TfValue)
    (target : RValue) (opts : Options) (path : Path) :
  let receiver := pointerSafeZeroValue target in
  (forall e, In e (trace_of (NewValueConverter typ val target opts path)) ->
     e = EvFromTerraform5Value receiver val) /\
  (forall method, method_FromTerraform5Value (rtype receiver) = Some method ->
     trace_of (NewValueConverter typ val target opts path)
       = [EvFromTerraform5Value receiver val] /\
     (snd (method receiver val) = ResNil ->
      outcome_of (NewValueConverter typ val target opts path)
        = Ret (fst (method receiver val), []))).
Proof.
  intros receiver. unfold NewValueConverter. fold receiver. split.
  - destruct (method_FromTerraform5Value (rtype receiver)) as [method|]; [|intros e []].
    rewrite bind_emit. destruct (method receiver val) as [r []];
      cbn; intros ev [<-|[]]; done.
  - intros method ->. rewrite bind_emit.
    destruct (method receiver val) as [r []]; cbn; split; done.
Qed.

Lemma NewValueConverter_call_witness :
  outcome_of (NewValueConverter (H := Fixtures.testEnv) Fixtures.StringType
                (Fixtures.tfString "x") (VZero (TPtr Fixtures.hookString)) tt [])
  = Ret (VPtr (TPtr Fixtures.hookString) (Fixtures.hookMake false false "x"), []).
Proof.
  destruct (NewValueConverter_call (H := Fixtures.testEnv) Fixtures.StringType
              (Fixtures.tfString "x") (VZero (TPtr Fixtures.hookString)) tt [])
    as [_ Hcall].
  destruct (Hcall _ eq_refl) as [_ Hout]. exact (Hout eq_refl).
Defined.

(** Warnings do not stop NewAttributeValue: when the validation reports no
    error and ValueFromTerraform produces a value of the type of the
    target, that value is returned together with the diagnostics of the
    validation, after exactly the validation (if the type has the hook) and
    the construction. *)
Theorem NewAttributeValue_success `{Env} (typ : AttrType) (val : TfValue)
    (target : RValue) (opts : Options) (path : Path) (v : AttrValue) :
  HasError (validateDiags typ val path) = false ->
  ValueFromTerraform typ val = (Some v, None) ->
  rtype (value_repr v) = rtype target ->
  NewAttributeValue typ val target opts path
    = (validateTrace typ val path ++ [EvValueFromTerraform typ val],
       Ret (value_repr v, validateDiags typ val path)).
Proof.
  intros Hok Hvft Hty. rewrite NewAttributeValue_run. cbv zeta. rewrite Hok, Hvft.
  rewrite bool_decide_eq_false_2; [done|]. intros Hne. apply Hne. cbn. by rewrite Hty.
Qed.

Lemma NewAttributeValue_success_witness :
  NewAttributeValue (H := Fixtures.testEnv) Fixtures.StringTypeWithValidateWarning
    (Fixtures.tfString "x") (VZero Fixtures.typesString) tt [AttributeName "name"]
  = ([EvValidate Fixtures.StringTypeWithValidateWarning (Fixtures.tfString "x")
        [AttributeName "name"];
      EvValueFromTerraform Fixtures.StringTypeWithValidateWarning (Fixtures.tfString "x")],
     Ret (value_repr (Fixtures.stringValue Fixtures.StringType0 (RawString "x")),
          [AttributeWarningDiagnostic [AttributeName "name"] "Warning Diagnostic"
             "This is a warning."])).
Proof.
  apply (NewAttributeValue_success (H := Fixtures.testEnv)
           Fixtures.StringTypeWithValidateWarning (Fixtures.tfString "x")
           (VZero Fixtures.typesString) tt [AttributeName "name"]
           (Fixtures.stringValue Fixtures.StringType0 (RawString "x")));
    reflexivity.
Defined.

(** FromAttributeValue of a type without the validation hook returns the
    value with no diagnostics and without calling a method of the value or
    of the type.  With the hook, a failing ToTerraformValue gives the value
    back with one error diagnostic and the hook is not run; a payload that
    fits the raw shape of the type gives the value back with the
    diagnostics of the hook, and this also when they hold an error: unlike
    the other converters out of native values, FromAttributeValue does not
    return the nil Value then. *)
Theorem FromAttributeValue_behaviour `{Env} (typ : AttrType) (val : AttrValue)
    (path : Path) :
  (Validate typ = None -> FromAttributeValue typ val path = ([], Ret (Some val, []))) /\
  (forall validate err,
     Validate typ = Some validate ->
     snd (ToTerraformValue val) = Some err ->
     FromAttributeValue typ val path
       = ([EvToTerraformValue val], Ret (Some val, [toTerraformValueErrorDiag err path]))) /\
  (forall validate raw,
     Validate typ = Some validate ->
     ToTerraformValue val = (raw, None) ->
     ValidateValue (TerraformType typ) raw = None ->
     let tfVal := MkTfValue (Some (TerraformType typ)) raw in
     FromAttributeValue typ val path
       = ([EvToTerraformValue val; EvValidate typ tfVal path],
          Ret (Some val, validate tfVal path))).
Proof.
  unfold FromAttributeValue. split; [|split].
  - by intros ->.
  - intros validate err -> Herr. rewrite callToTerraformValue_run, bind_run.
    destruct (ToTerraformValue val) as [raw [e|]]; cbn [snd] in Herr; [|discriminate].
    by injection Herr as ->.
  - intros validate raw -> Hraw Hshape.
    rewrite callToTerraformValue_run, bind_run, Hraw.
    rewrite (NewValue_valid _ _ Hshape), bind_lift_Ret, bind_emit.
    unfold Append. cbn [app]. by destruct (HasError _).
Qed.

Lemma FromAttributeValue_behaviour_witness :
  let val := Fixtures.stringValue Fixtures.StringType0 (RawString "x") in
  outcome_of (FromAttributeValue (H := Fixtures.testEnv)
                Fixtures.StringTypeWithValidateError val [AttributeName "name"])
  = Ret (Some val,
         [AttributeErrorDiagnostic [AttributeName "name"] "Error Diagnostic"
            "This is an error."]).
Proof.
  intros val.
  destruct (FromAttributeValue_behaviour (H := Fixtures.testEnv)
              Fixtures.StringTypeWithValidateError val [AttributeName "name"])
    as (_ & _ & Hfit).
  by rewrite (Hfit Fixtures.failingValidate (RawString "x") eq_refl eq_refl eq_refl).
Defined.

(** * Further properties of FromMap *)

(** The body of the loop of FromMap on an entry that converts. *)
Lemma FromMap_body_converts `{Env} (typ elemType : AttrType) (path : Path)
    (entry : RValue * RValue) (tfElems : list (string * TfValue)) (diags : Diagnostics) :
  HasError diags = false ->
  element_verdict typ elemType path entry = Converts ->
  FromMap_body typ elemType path entry tfElems diags
    = (element_events typ elemType path entry,
       Ret (inr (tfmap_set tfElems (Value_String (fst entry))
                   (element_raw elemType path entry),
                 diags ++ conversion_diags typ elemType path entry))) /\
  HasError (conversion_diags typ elemType path entry) = false /\
  ValidateValue (TerraformType elemType) (tf_value (element_raw elemType path entry)) = None.
Proof.
  intros Hclean. destruct entry as [key elem].
  unfold element_verdict, FromMap_body, element_events, conversion_diags, element_raw,
    element_value, element_path. cbn [fst snd].
  case_bool_decide as Hkey; [done|]. rewrite bind_emit.
  destruct (FromValue elemType elem (WithElementKeyString path (Value_String key)))
    as [val valDiags].
  cbv beta iota zeta. cbn [fst snd]. unfold Append.
  rewrite HasError_app, Hclean, orb_false_l.
  destruct (HasError valDiags) eqn:HvalDiags; [done|].
  destruct val as [val|]; [|done].
  rewrite callToTerraformValue_run, bind_run.
  destruct (ToTerraformValue val) as [raw [err|]]; [done|].
  cbn [fst snd tf_value].
  destruct (ValidateValue (TerraformType elemType) raw) as [err|] eqn:Hshape; [done|].
  rewrite (NewValue_valid _ _ Hshape), bind_lift_Ret, validateHook_run, bind_run.
  cbn [fst snd trace_of outcome_of].
  destruct (HasError (validateDiags typ _ _)) eqn:Hhook; [done|]. intros _.
  rewrite !HasError_app, Hclean, HvalDiags, Hhook. cbn [orb].
  rewrite <- app_assoc.
  by destruct (Validate typ); cbn [trace_of outcome_of fst snd ret]; rewrite app_nil_r.
Qed.

Lemma tfmap_set_fresh (tfElems : list (string * TfValue)) (key : string) (v : TfValue) :
  ~ In key (map fst tfElems) -> tfmap_set tfElems key v = tfElems ++ [(key, v)].
Proof.
  intros Hfresh. unfold tfmap_set. f_equal.
  induction tfElems as [|e rest IH]; [done|]. cbn [List.filter].
  destruct (String.eqb (fst e) key) eqn:Hsame.
  - apply String.eqb_eq in Hsame. destruct Hfresh. by left.
  - cbn [negb]. f_equal. apply IH. intros Hin. apply Hfresh. by right.
Qed.

(** The loop of FromMap over entries that all convert, with keys that are
    distinct and not yet gathered. *)
Lemma FromMap_range_success `{Env} (typ elemType : AttrType) (path : Path)
    (entries : list (RValue * RValue)) (tfElems : list (string * TfValue))
    (diags : Diagnostics) :
  HasError diags = false ->
  Forall (fun e => element_verdict typ elemType path e = Converts) entries ->
  NoDup (entry_keys entries) ->
  (forall k, In k (entry_keys entries) -> ~ In k (map fst tfElems)) ->
  FromMap_range typ elemType path entries tfElems diags
    = (flat_map (element_events typ elemType path) entries,
       Ret (inr (tfElems ++ map (gathered elemType path) entries,
                 diags ++ flat_map (conversion_diags typ elemType path) entries))) /\
  HasError (flat_map (conversion_diags typ elemType path) entries) = false.
Proof.
  intros Hclean Hall. revert tfElems diags Hclean.
  induction Hall as [|entry rest Hentry _ IH]; intros tfElems diags Hclean Hnodup Hfresh.
  - cbn [FromMap_range map flat_map]. by rewrite !app_nil_r.
  - destruct (FromMap_body_converts typ elemType path entry tfElems diags Hclean Hentry)
      as (Hbody & Hmore & _).
    cbn [FromMap_range map flat_map]. rewrite Hbody, bind_run.
    cbn [trace_of outcome_of fst snd].
    unfold entry_keys in Hnodup, Hfresh. cbn [map] in Hnodup, Hfresh.
    apply NoDup_cons in Hnodup as [Hnew Hnodup].
    rewrite tfmap_set_fresh by (apply Hfresh; by left).
    destruct (IH (tfElems ++ [(Value_String (fst entry), element_raw elemType path entry)])
                (diags ++ conversion_diags typ elemType path entry)) as [Hrest Hrest'].
    + by rewrite HasError_app, Hclean, Hmore.
    + done.
    + intros k Hk. rewrite map_app, in_app_iff. intros [Hin|[Hin|[]]].
      * apply (Hfresh k); [by right|done].
      * cbn [fst] in Hin. apply Hnew. rewrite Hin. by apply list_elem_of_In.
    + rewrite Hrest. cbn [trace_of outcome_of fst snd]. split.
      * unfold gathered at 2. by rewrite <- !app_assoc.
      * by rewrite HasError_app, Hmore, Hrest'.
Qed.

(** When every entry of a native map converts, FromMap makes, for each
    entry in the order of the iteration, the call of FromValue at the path
    of the element, the call of ToTerraformValue on its result and, when
    the type of the map has the validation hook, a call of that hook (the
    hook of the map type, not of the element type) on the raw element at
    the path of the element; every raw element it gathers has the raw shape
    of the element type.  Unless ValidateValue rejects the map of the raw
    elements, it then validates that map at the path of the map and
    constructs the value from it, and the diagnostics of the elements come
    before those of the map.  The keys of a Go map are distinct. *)
Theorem FromMap_success `{Env} (typ elemType : AttrType) (val : RValue)
    (path : Path) (entries : list (RValue * RValue)) :
  map_entries_of val entries ->
  ElementType typ = Some elemType ->
  NoDup (entry_keys entries) ->
  Forall (fun e => element_verdict typ elemType path e = Converts) entries ->
  let tfElems := map (gathered elemType path) entries in
  let tfVal := MkTfValue (Some (TerraformType typ)) (RawMap tfElems) in
  Forall (fun e => tf_typ (snd e) = Some (TerraformType elemType) /\
                   ValidateValue (TerraformType elemType) (tf_value (snd e)) = None)
    tfElems /\
  FromMap typ val path
    = after (flat_map (element_events typ elemType path) entries)
        match ValidateValue (TerraformType typ) (RawMap tfElems) with
        | Some err =>
            ret (None, flat_map (conversion_diags typ elemType path) entries
                         ++ [validateValueErrorDiag err path])
        | None =>
            materialized typ tfVal path
              (flat_map (conversion_diags typ elemType path) entries)
              "convert to map value"
        end.
Proof.
  intros [Hnil Hentries] Helem Hnodup Hall tfElems tfVal. split.
  - unfold tfElems. apply List.Forall_map.
    apply (List.Forall_impl _ (P := fun e => element_verdict typ elemType path e = Converts));
      [|done].
    intros entry Hentry. split; [done|].
    by destruct (FromMap_body_converts typ elemType path entry [] [] eq_refl Hentry)
      as (_ & _ & Hshape).
  - rewrite (FromMap_not_nil typ elemType val path entries Hnil Helem Hentries).
    destruct (FromMap_range_success typ elemType path entries [] [] eq_refl Hall Hnodup)
      as [Hrun Hclean]; [by intros k _ []|].
    rewrite Hrun, bind_run. cbn [app]. rewrite (FromMap_finish_run _ _ _ _ Hclean).
    fold tfElems. fold tfVal. unfold after.
    by destruct (ValidateValue (TerraformType typ) (RawMap tfElems)).
Qed.

Lemma FromMap_success_witness :
  let typ := Fixtures.MapType Fixtures.StringType in
  let val := VMap Fixtures.mapOfString [(Fixtures.goStr "a", Fixtures.goStr "x");
                                        (Fixtures.goStr "b", Fixtures.goStr "y")] in
  let tfVal := Fixtures.tfMapOf [("a", Fixtures.tfString "x"); ("b", Fixtures.tfString "y")] in
  outcome_of (FromMap (H := Fixtures.testEnv) typ val [AttributeName "tags"])
  = Ret (fst (ValueFromTerraform typ tfVal), []).
Proof.
  intros typ val tfVal.
  destruct (FromMap_success (H := Fixtures.testEnv) typ Fixtures.StringType val
              [AttributeName "tags"]
              [(Fixtures.goStr "a", Fixtures.goStr "x");
               (Fixtures.goStr "b", Fixtures.goStr "y")])
    as [_ Hrun].
  - by split.
  - reflexivity.
  - apply NoDup_cons. split; [by intros [[=]|[]]%list_elem_of_In|].
    apply NoDup_cons. split; [by intros []%list_elem_of_In|constructor].
  - repeat constructor.
  - by rewrite Hrun.
Defined.

Lemma materialized_no_FromValue (typ : AttrType) (val : TfValue) (path : Path)
    (diags : Diagnostics) (what : string) :
  existsb is_FromValue (trace_of (materialized typ val path diags what)) = false.
Proof.
  unfold materialized, validateTrace.
  destruct (HasError _); [by destruct (Validate typ)|].
  destruct (ValueFromTerraform typ val) as [attrVal [err|]]; by destruct (Validate typ).
Qed.

(** FromMap tells the nil map from the empty map.  From a nil map it
    validates and constructs the null raw value of the type; from a map
    that is not nil and has no entry, the empty raw map.  In neither case
    does it call FromValue, and an empty raw map that ValidateValue rejects
    ends the second with one error diagnostic and no call. *)
Theorem FromMap_nil_or_empty `{Env} (typ elemType : AttrType) (t kt et : GoType)
    (path : Path) :
  underlying t = TMap kt et ->
  ElementType typ = Some elemType ->
  let tfType := TerraformType typ in
  FromMap typ (VZero t) path
    = materialized typ (MkTfValue (Some tfType) RawNil) path [] "convert from map value" /\
  FromMap typ (VMap t []) path
    = match ValidateValue tfType (RawMap []) with
      | Some err => ([], Ret (None, [validateValueErrorDiag err path]))
      | None =>
          materialized typ (MkTfValue (Some tfType) (RawMap [])) path []
            "convert to map value"
      end /\
  existsb is_FromValue (trace_of (FromMap typ (VZero t) path)) = false /\
  existsb is_FromValue (trace_of (FromMap typ (VMap t []) path)) = false.
Proof.
  intros Ht Helem tfType.
  assert (forall v, rtype v = t -> rkind v = KMap) as Hkind
    by (intros v Hv; unfold rkind, KindOf; by rewrite Hv, Ht).
  assert (FromMap typ (VZero t) path
          = materialized typ (MkTfValue (Some tfType) RawNil) path []
              "convert from map value") as Hnil.
  { apply FromMap_nil. unfold IsNil. by rewrite (Hkind (VZero t) eq_refl). }
  assert (FromMap typ (VMap t []) path
          = match ValidateValue tfType (RawMap []) with
            | Some err => ([], Ret (None, [validateValueErrorDiag err path]))
            | None =>
                materialized typ (MkTfValue (Some tfType) (RawMap [])) path []
                  "convert to map value"
            end) as Hempty.
  { rewrite (FromMap_not_nil typ elemType _ path []);
      [|unfold IsNil; by rewrite (Hkind (VMap t []) eq_refl)|done
       |unfold MapEntries; by rewrite (Hkind (VMap t []) eq_refl)].
    cbn [FromMap_range]. by rewrite bind_ret, FromMap_finish_run. }
  split; [done|]. split; [done|]. rewrite Hnil, Hempty. split.
  - apply materialized_no_FromValue.
  - destruct (ValidateValue tfType (RawMap [])); [done|apply materialized_no_FromValue].
Qed.

Lemma FromMap_nil_or_empty_witness :
  let typ := Fixtures.MapType Fixtures.StringType in
  outcome_of (FromMap (H := Fixtures.testEnv) typ (VZero Fixtures.mapOfString) [])
    = Ret (Some (Fixtures.mapValue (Fixtures.MapType0 Fixtures.StringType) RawNil), []) /\
  outcome_of (FromMap (H := Fixtures.testEnv) typ (VMap Fixtures.mapOfString []) [])
    = Ret (Some (Fixtures.mapValue (Fixtures.MapType0 Fixtures.StringType) (RawMap [])), []).
Proof.
  intros typ.
  destruct (FromMap_nil_or_empty (H := Fixtures.testEnv) typ Fixtures.StringType
              Fixtures.mapOfString Fixtures.goString Fixtures.goString [] eq_refl eq_refl)
    as (Hnil & Hempty & _).
  by rewrite Hnil, Hempty.
Defined.

(** FromMap does not check that it is given a map.  A value of another
    kind that is nil (a nil slice, pointer or interface) is converted like
    the nil map, to the null value of the type; any other value makes
    FromMap panic, in IsNil or in MapKeys, before any call. *)
Theorem FromMap_not_a_map `{Env} (typ : AttrType) (val : RValue) (path : Path) :
  rkind val <> KMap ->
  (IsNil val = Ret true /\
   FromMap typ val path
     = materialized typ (MkTfValue (Some (TerraformType typ)) RawNil) path []
         "convert from map value") \/
  (IsNil val <> Ret true /\ exists msg, FromMap typ val path = ([], Panic msg)).
Proof.
  intros Hkind. destruct (IsNil val) as [[|]|msg] eqn:Hnil.
  - left. split; [done|]. by apply FromMap_nil.
  - right. split; [done|]. unfold FromMap. rewrite Hnil, bind_lift_Ret.
    destruct (ElementType typ) as [elemType|]; [|by eexists].
    unfold MapEntries. destruct (rkind val); try done; by eexists.
  - right. split; [done|]. unfold FromMap. rewrite Hnil. by eexists.
Qed.

Lemma FromMap_not_a_map_witness :
  let typ := Fixtures.MapType Fixtures.StringType in
  outcome_of (FromMap (H := Fixtures.testEnv) typ (VZero (TSlice Fixtures.goString)) [])
    = Ret (Some (Fixtures.mapValue (Fixtures.MapType0 Fixtures.StringType) RawNil), []) /\
  exists msg,
    FromMap (H := Fixtures.testEnv) typ (VSlice (TSlice Fixtures.goString) []) []
      = ([], Panic msg).
Proof.
  intros typ. split.
  - destruct (FromMap_not_a_map (H := Fixtures.testEnv) typ
                (VZero (TSlice Fixtures.goString)) [])
      as [[_ Hrun]|[Hnil _]]; [discriminate|by rewrite Hrun|by destruct Hnil].
  - destruct (FromMap_not_a_map (H := Fixtures.testEnv) typ
                (VSlice (TSlice Fixtures.goString) []) [])
      as [[Hnil _]|[_ Hrun]]; [discriminate|discriminate|exact Hrun].
Defined.

(** * Further properties of the hook converters into native values *)

(** NewUnknownable, NewNullable and NewValueConverter always return, and
    with no diagnostic or with exactly one: an error at the path they were
    given, with the summary of a conversion error.  They make at most one
    call, of the method of the receiver. *)
Theorem Into_hooks_diagnostics `{Env} (typ : AttrType) (val : TfValue)
    (target : RValue) (opts : Options) (path : Path) :
  let one_error (m : M (RValue * Diagnostics)) :=
    length (trace_of m) <= 1 /\
    exists r diags,
      outcome_of m = Ret (r, diags) /\
      (diags = [] \/
       exists detail,
         diags = [AttributeErrorDiagnostic path "Value Conversion Error" detail]) in
  one_error (NewUnknownable typ val target opts path) /\
  one_error (NewNullable typ val target opts path) /\
  one_error (NewValueConverter typ val target opts path).
Proof.
  cbv zeta. unfold NewUnknownable, NewNullable, NewValueConverter, AddAttributeError, Append.
  split; [|split].
  - destruct (method_SetUnknown _) as [method|]; [|split; [cbn; lia|eauto 10]].
    rewrite bind_emit. destruct (method _ _) as [r []]; (split; [cbn; lia|cbn; eauto 10]).
  - destruct (method_SetNull _) as [method|]; [|split; [cbn; lia|eauto 10]].
    rewrite bind_emit. destruct (method _ _) as [r []]; (split; [cbn; lia|cbn; eauto 10]).
  - destruct (method_FromTerraform5Value _) as [method|]; [|split; [cbn; lia|eauto 10]].
    rewrite bind_emit. destruct (method _ _) as [r []]; (split; [cbn; lia|cbn; eauto 10]).
Qed.
